(** * GPU node smoke test and results aggregator

    A shallow embedding of the two scripts of the repository,
    [test_gpu_node.py] and [summarize_results.py], and the properties of
    their specification.

    Layout:
    - [Py]: the Python values the scripts handle (what [json.load] returns),
      the built-in operations they apply to them, exceptions, and the monad
      of a script run (file system and standard output, with exceptions);
    - [RefLib]: a small executable instance of the library interface, used to
      run the scripts on concrete inputs;
    - [TestGpuNode]: the per-node script;
    - [SummarizeResults]: the aggregator;
    - [DataModel]: the shape of a result record and its status invariant;
    - [NodeSpec], [SummarySpec]: the vocabulary of the properties, what a
      run of the node script is and what text the aggregator writes;
    - [Examples]: concrete nodes, command lines and directories;
    - [NodeProperties], [SummaryProperties]: the properties of the two
      scripts, for every node, host and library instance;
    - [Instances]: the properties applied to the examples;
    - [NodeOutcome], [ReportDetail], [Cases], [NodeCases], [ReportCases],
      [CaseInstances]: the same for the behaviour of each check and of the
      aggregator case by case (failing probes, refusing storage, files and
      fields), with their own vocabulary, examples and instances.

    Bounds of the model: what the storage answers when a file is opened
    for writing or written to is a parameter ([Disk]); the properties of
    exit codes and of the console are stated for every storage, those of
    the content of a written file for a storage that takes every text
    ([Reliable]).  A file that exists can be read, as text in which a
    carriage return reads as a line feed.  Standard output is the list of
    the texts printed, one entry per [print], and a text may hold line
    feeds; what [argparse] writes to standard error is left out.  A call
    into an external library either returns or raises a subclass of
    [Exception]; a command line is one that asks for help, or is given by
    the options it carries; the messages of [TypeError]s are indicative. *)

From Stdlib Require Import ZArith Lia Ascii.
From stdpp Require Import base tactics option strings list gmap pretty sorting.

Set Warnings "-register-all,-clear-no-such-hyp".
Local Open Scope Z_scope.

(** ** Python values, exceptions and the run monad *)

Module Py.

(** A Python float: not a number, an infinity, or the finite value
    [(-1)^neg * m * 2^e].  Only equality and printing are ever applied to a
    float by the scripts. *)
Inductive pyfloat :=
| FNan
| FInf (neg : bool)
| FFin (neg : bool) (m : N) (e : Z).

(** The values [json.load] can return, which are also the values
    [json.dump] accepts: [None], [bool], [int], [float], [str] (a UTF-8 byte
    string), [list], and [dict] with [str] keys in insertion order (keys are
    pairwise distinct in a dict Python builds). *)
Inductive pyval :=
| VNone
| VBool (b : bool)
| VInt (z : Z)
| VFloat (f : pyfloat)
| VStr (s : string)
| VList (l : list pyval)
| VDict (kvs : list (string * pyval)).

(** An exception in flight: the built-in ones the scripts can provoke, the
    ones raised inside an external library ([LibraryError cls msg] is an
    instance of the library's class [cls], a subclass of [Exception], with
    [str(e) = msg]), the ones the storage raises when a file is opened for
    writing or written ([OSError cls msg] is an instance of [cls], which is
    [OSError] or one of its subclasses, with [str(e) = msg]), and
    [SystemExit], which [sys.exit] and [argparse] raise and which is not an
    [Exception]. *)
Inductive exn :=
| KeyError (key : string)
| TypeError (msg : string)
| FileNotFoundError (path : string)
| IndexError
| LibraryError (cls msg : string)
| OSError (cls msg : string)
| SystemExit (code : Z).

(** [isinstance(e, Exception)] *)
Definition is_Exception (e : exn) : bool :=
  match e with
  | SystemExit _ => false
  | _ => true
  end.

(** The result of an evaluation that may raise. *)
Inductive res (A : Type) :=
| Ret (a : A)
| Raise (e : exn).
Arguments Ret {A} a.
Arguments Raise {A} e.

Definition res_bind {A B} (r : res A) (k : A → res B) : res B :=
  match r with
  | Ret a => k a
  | Raise e => Raise e
  end.

Definition is_ret {A} (r : res A) : bool :=
  match r with Ret _ => true | Raise _ => false end.

#[global] Instance res_ret : MRet res := @Ret.
#[global] Instance res_mbind : MBind res := λ A B k r, res_bind r k.

(** *** Built-in operations on values *)

(** [d[k]] on the items of a dict. *)
Fixpoint assoc (k : string) (kvs : list (string * pyval)) : option pyval :=
  match kvs with
  | [] => None
  | (k', v) :: kvs' => if String.eqb k' k then Some v else assoc k kvs'
  end.

(** [d[k] = v]: the value of an existing key is replaced in place, a new
    key goes last. *)
Fixpoint dict_set (k : string) (v : pyval) (kvs : list (string * pyval))
  : list (string * pyval) :=
  match kvs with
  | [] => [(k, v)]
  | (k', v') :: kvs' =>
      if String.eqb k' k then (k, v) :: kvs' else (k', v') :: dict_set k v kvs'
  end.

(** [v[k]] for a [str] key [k]. *)
Definition getitem (v : pyval) (k : string) : res pyval :=
  match v with
  | VDict kvs =>
      match assoc k kvs with
      | Some x => Ret x
      | None => Raise (KeyError k)
      end
  | VStr _ => Raise (TypeError "string indices must be integers")
  | VList _ => Raise (TypeError "list indices must be integers or slices, not str")
  | _ => Raise (TypeError "object is not subscriptable")
  end.

(** [v == s] for a [str] literal [s]. *)
Definition eq_str (v : pyval) (s : string) : bool :=
  match v with
  | VStr t => String.eqb t s
  | _ => false
  end.

(** [needle in s] on two [str]. *)
Fixpoint contains_str (needle s : string) : bool :=
  String.prefix needle s ||
  match s with
  | EmptyString => false
  | String _ s' => contains_str needle s'
  end.

(** [k in v] for a [str] literal [k]: a key of a dict, an element of a
    list, a substring of a [str]. *)
Definition contains (k : string) (v : pyval) : res bool :=
  match v with
  | VDict kvs => Ret (bool_decide (is_Some (assoc k kvs)))
  | VList l => Ret (existsb (λ x, eq_str x k) l)
  | VStr s => Ret (contains_str k s)
  | _ => Raise (TypeError "argument is not iterable")
  end.

(** The characters of a [str]: a byte of the form [10xxxxxx] continues the
    character before it. *)
Definition is_continuation (a : Ascii.ascii) : bool :=
  let n := Ascii.N_of_ascii a in ((128 <=? n) && (n <? 192))%N.

Fixpoint utf8_chars (s : string) : list string :=
  match s with
  | EmptyString => []
  | String a s' =>
      match s' with
      | String b _ =>
          if is_continuation b then
            match utf8_chars s' with
            | c :: cs => String a c :: cs
            | [] => [String a EmptyString]
            end
          else String a EmptyString :: utf8_chars s'
      | EmptyString => [String a EmptyString]
      end
  end.

(** [for x in v]: the elements of a list, the keys of a dict, the
    characters of a [str]. *)
Definition iter (v : pyval) : res (list pyval) :=
  match v with
  | VList l => Ret l
  | VDict kvs => Ret (map (λ kv, VStr kv.1) kvs)
  | VStr s => Ret (map VStr (utf8_chars s))
  | _ => Raise (TypeError "object is not iterable")
  end.

(** [sep.join(l)]: every item must be a [str]. *)
Fixpoint strs_of (l : list pyval) : res (list string) :=
  match l with
  | [] => Ret []
  | VStr s :: l' => ss ← strs_of l'; Ret (s :: ss)
  | _ :: _ => Raise (TypeError "sequence item: expected str instance")
  end.

Definition join (sep : string) (l : list pyval) : res string :=
  ss ← strs_of l; Ret (String.concat sep ss).

(** Keys of a dict: lists and dicts are unhashable. *)
Definition hashable (v : pyval) : bool :=
  match v with
  | VList _ | VDict _ => false
  | _ => true
  end.

(** The finite float [(-1)^neg * m * 2^e] as an integer multiple of
    [2^e0], for [e0 <= e]. *)
Definition scaled (neg : bool) (m : N) (e e0 : Z) : Z :=
  (if neg then -1 else 1) * Z.of_N m * 2 ^ (e - e0).

Definition float_eq_int (f : pyfloat) (z : Z) : bool :=
  match f with
  | FFin neg m e => let e0 := Z.min e 0 in scaled neg m e e0 =? z * 2 ^ (0 - e0)
  | _ => false
  end.

(** Equality of two floats as keys of one dict.  [json.load] returns the
    same object for every [NaN], and a dict finds a key that is the very
    object it holds. *)
Definition float_eq (f g : pyfloat) : bool :=
  match f, g with
  | FNan, FNan => true
  | FInf a, FInf b => Bool.eqb a b
  | FFin n1 m1 e1, FFin n2 m2 e2 =>
      let e0 := Z.min e1 e2 in scaled n1 m1 e1 e0 =? scaled n2 m2 e2 e0
  | _, _ => false
  end.

(** [a == b] on hashable values, as a dict compares its keys: [True == 1
    == 1.0]. *)
Definition key_eq (a b : pyval) : bool :=
  let int_of v :=
    match v with
    | VBool b => Some (if b then 1 else 0)
    | VInt z => Some z
    | _ => None
    end in
  match a, b with
  | VNone, VNone => true
  | VStr s, VStr t => String.eqb s t
  | VFloat f, VFloat g => float_eq f g
  | VFloat f, _ => from_option (float_eq_int f) false (int_of b)
  | _, VFloat g => from_option (float_eq_int g) false (int_of a)
  | _, _ =>
      match int_of a, int_of b with
      | Some x, Some y => x =? y
      | _, _ => false
      end
  end.

(** The part of the machine a script changes: the files, by path, with
    their content as stored, and what was written to standard output, one
    entry per call of [print] (the text of the call, which may hold line
    feeds, without the line feed [print] ends it with). *)
Record world := World {
  fs : gmap string string;
  stdout : list string
}.

(** A script fragment: it runs in a world, returns or raises, and leaves a
    world behind.  What was written before an exception stays written. *)
Definition M (A : Type) : Type := world → res A * world.

Definition ret {A} (a : A) : M A := λ w, (Ret a, w).
Definition raise {A} (e : exn) : M A := λ w, (Raise e, w).
Definition bind {A B} (m : M A) (k : A → M B) : M B :=
  λ w, match m w with
       | (Ret a, w') => k a w'
       | (Raise e, w') => (Raise e, w')
       end.
Definition lift {A} (r : res A) : M A := λ w, (r, w).

(** [try: body except Exception as e: handler(e)].  [SystemExit] passes
    through. *)
Definition try_except {A} (body : M A) (handler : exn → M A) : M A :=
  λ w, match body w with
       | (Ret a, w') => (Ret a, w')
       | (Raise e, w') => if is_Exception e then handler e w' else (Raise e, w')
       end.

(** [try: body except: handler], the bare handler, which catches
    everything. *)
Definition try_bare {A} (body : M A) (handler : M A) : M A :=
  λ w, match body w with
       | (Ret a, w') => (Ret a, w')
       | (Raise _, w') => handler w'
       end.

Definition print (s : string) : M unit :=
  λ w, (Ret tt, World (fs w) (stdout w ++ [s])).

(** [open(path, 'r')]: the content of the file, as stored. *)
Definition open_r (path : string) : M string :=
  λ w, match fs w !! path with
       | Some c => (Ret c, w)
       | None => (Raise (FileNotFoundError path), w)
       end.

(** What [f.read()] makes of the content of a file opened for reading in
    text mode: a carriage return, alone or followed by a line feed, is
    read as one line feed. *)
Definition cr : Ascii.ascii := Ascii.ascii_of_nat 13.
Definition lf : Ascii.ascii := Ascii.ascii_of_nat 10.

Fixpoint universal_newlines (s : string) : string :=
  match s with
  | EmptyString => EmptyString
  | String a s' =>
      if Ascii.eqb a cr then
        match s' with
        | String b s'' =>
            if Ascii.eqb b lf then String lf (universal_newlines s'')
            else String lf (universal_newlines s')
        | EmptyString => String lf EmptyString
        end
      else String a (universal_newlines s')
  end.

(** [open(path, 'r').read()] *)
Definition read_file (path : string) : M string :=
  λ w, match fs w !! path with
       | Some c => (Ret (universal_newlines c), w)
       | None => (Raise (FileNotFoundError path), w)
       end.

(** What the storage of the machine answers when a file is opened for
    writing, and when text is written to a file that holds [cur]: it
    accepts, or the call raises an [OSError] of some class, with some
    message.  After a refused write the file holds what the storage says: how
    much of the text reached it is not the script's to know.  [json.dump]
    and the closing of the file count as writes. *)
Class Disk := {
  open_refused : string → option (string * string);
  write_refused : string → string → string → option (string * string * string)
}.

(** A storage that accepts every file and every text. *)
Class Reliable (disk : Disk) : Prop := {
  opens : ∀ path, open_refused path = None;
  writes : ∀ path cur s, write_refused path cur s = None
}.

(** [open(path, 'w')]: the file is created or truncated, unless the
    storage refuses it. *)
Definition open_w `{Disk} (path : string) : M unit :=
  λ w, match open_refused path with
       | Some (cls, msg) => (Raise (OSError cls msg), w)
       | None => (Ret tt, World (<[path := ""]> (fs w)) (stdout w))
       end.

(** [f.write(s)] on a file opened at [path]: [s] is appended, unless the
    storage refuses it. *)
Definition write `{Disk} (path : string) (s : string) : M unit :=
  λ w, let cur := default "" (fs w !! path) in
       match write_refused path cur s with
       | Some (cls, msg, held) =>
           (Raise (OSError cls msg), World (<[path := held]> (fs w)) (stdout w))
       | None => (Ret tt, World (<[path := cur +:+ s]> (fs w)) (stdout w))
       end.

(** The exit code of the process whose main program ran as [r]: [0] on a
    normal return, the code of a [SystemExit], [1] after an uncaught
    exception. *)
Definition exit_code {A} (r : res A) : Z :=
  match r with
  | Ret _ => 0
  | Raise (SystemExit c) => c
  | Raise _ => 1
  end.

#[global] Instance M_ret : MRet M := @ret.
#[global] Instance M_mbind : MBind M := λ A B k m, bind m k.

(** [for x in l: body(x)] *)
Fixpoint for_each {A} (l : list A) (body : A → M unit) : M unit :=
  match l with
  | [] => ret tt
  | x :: l' => body x;; for_each l' body
  end.

(** *** Text *)

(** The line feed, and [s * n] on a [str]. *)
Definition nl : string := String (Ascii.ascii_of_nat 10) EmptyString.

Fixpoint repeat_str (s : string) (n : nat) : string :=
  match n with
  | O => EmptyString
  | S n' => s +:+ repeat_str s n'
  end.

(** [s.split(c)] for a one-character separator [c]. *)
Fixpoint split_on (c : Ascii.ascii) (s : string) : list string :=
  match s with
  | EmptyString => [EmptyString]
  | String a s' =>
      if Ascii.eqb a c then EmptyString :: split_on c s'
      else match split_on c s' with
           | x :: xs => String a x :: xs
           | [] => [String a EmptyString]
           end
  end.

(** [s.split(c, 1)]: at most one split, at the first [c]. *)
Fixpoint split_once (c : Ascii.ascii) (s : string) : list string :=
  match s with
  | EmptyString => [EmptyString]
  | String a s' =>
      if Ascii.eqb a c then [EmptyString; s']
      else match split_once c s' with
           | x :: xs => String a x :: xs
           | [] => [String a EmptyString]
           end
  end.

(** [l[i]] on a list. *)
Definition index {A} (l : list A) (i : nat) : res A :=
  match l !! i with
  | Some x => Ret x
  | None => Raise IndexError
  end.

(** *** The libraries

    What the scripts use of Python's standard library and cannot be
    written here from their own text: the JSON codec ([json.dump] with
    [indent=2], as the text it writes, and [json.load(f)], as a function of
    the content of the file [f], which it reads itself), [repr] of a [str]
    and of a [float], [str.strip], [traceback.format_exc] for the
    exception being handled, and the help message [argparse] writes for
    the parser with a given description (without its last line feed). *)
Class Lib := {
  json_dump : pyval → string;
  json_load : string → res pyval;
  repr_str : string → string;
  repr_float : pyfloat → string;
  strip : string → string;
  format_exc : exn → string;
  format_help : string → string
}.

Section with_lib.
Context {lib : Lib}.

(** [repr(v)] and [str(v)], which is also how an f-string formats [v]. *)
Fixpoint py_repr (v : pyval) : string :=
  match v with
  | VNone => "None"
  | VBool true => "True"
  | VBool false => "False"
  | VInt z => pretty z
  | VFloat f => repr_float f
  | VStr s => repr_str s
  | VList l => "[" +:+ String.concat ", " (map py_repr l) +:+ "]"
  | VDict kvs =>
      "{" +:+ String.concat ", "
                (map (λ kv, match kv with
                            | (k, x) => repr_str k +:+ ": " +:+ py_repr x
                            end) kvs) +:+ "}"
  end.

Definition py_str (v : pyval) : string :=
  match v with
  | VStr s => s
  | _ => py_repr v
  end.

(** [str(e)] of an exception. *)
Definition exn_str (e : exn) : string :=
  match e with
  | KeyError k => repr_str k
  | TypeError msg => msg
  | FileNotFoundError path =>
      "[Errno 2] No such file or directory: " +:+ repr_str path
  | IndexError => "list index out of range"
  | LibraryError _ msg => msg
  | OSError _ msg => msg
  | SystemExit c => pretty c
  end.

End with_lib.

End Py.

(** ** A reference instance of the libraries

    An executable [Lib], to run the scripts on concrete inputs: a JSON
    printer that lays text out as [json.dump(..., indent=2)] does, a JSON
    parser, and plain versions of [repr], [str.strip] and
    [traceback.format_exc].  The properties below are proved for every
    [Lib]; this one shows on examples what they say. *)

Module RefLib.
Import Py.

Definition chr (n : N) : string := String (ascii_of_N n) EmptyString.
Definition dquote : string := chr 34.
Definition backslash : string := chr 92.

Definition bytes (s : string) : list N := map N_of_ascii (String.list_ascii_of_string s).

Definition hex_digit (n : N) : string :=
  if (n <? 10)%N then chr (48 + n) else chr (87 + n).

Definition hex (width : nat) (n : N) : string :=
  String.concat EmptyString
    (map (λ i, hex_digit ((n / 16 ^ N.of_nat i) mod 16)%N) (rev (seq 0 width))).

(** The code point of one UTF-8 character. *)
Definition code_point (c : string) : N :=
  match bytes c with
  | [b0; b1] => (b0 mod 32 * 64 + b1 mod 64)%N
  | [b0; b1; b2] => (b0 mod 16 * 4096 + b1 mod 64 * 64 + b2 mod 64)%N
  | [b0; b1; b2; b3] =>
      (b0 mod 8 * 262144 + b1 mod 64 * 4096 + b2 mod 64 * 64 + b3 mod 64)%N
  | b0 :: _ => b0
  | [] => 0%N
  end.

(** The UTF-8 character of a code point. *)
Definition utf8 (cp : N) : string :=
  (if cp <? 128 then chr cp
   else if cp <? 2048 then chr (192 + cp / 64) +:+ chr (128 + cp mod 64)
   else if cp <? 65536 then
     chr (224 + cp / 4096) +:+ chr (128 + cp / 64 mod 64) +:+ chr (128 + cp mod 64)
   else
     chr (240 + cp / 262144) +:+ chr (128 + cp / 4096 mod 64) +:+
     chr (128 + cp / 64 mod 64) +:+ chr (128 + cp mod 64))%N.

(** *** Printing *)

(** A character inside a JSON string, with [ensure_ascii=True]. *)
Definition json_escape (c : string) : string :=
  let cp := code_point c in
  (if cp =? 34 then backslash +:+ dquote
   else if cp =? 92 then backslash +:+ backslash
   else if cp =? 10 then backslash +:+ "n"
   else if cp =? 13 then backslash +:+ "r"
   else if cp =? 9 then backslash +:+ "t"
   else if cp =? 8 then backslash +:+ "b"
   else if cp =? 12 then backslash +:+ "f"
   else if (32 <=? cp) && (cp <? 127) then c
   else if cp <? 65536 then backslash +:+ "u" +:+ hex 4 cp
   else
     let v := cp - 65536 in
     backslash +:+ "u" +:+ hex 4 (55296 + v / 1024) +:+
     backslash +:+ "u" +:+ hex 4 (56320 + v mod 1024))%N.

Definition json_string (s : string) : string :=
  dquote +:+ String.concat EmptyString (map json_escape (utf8_chars s)) +:+ dquote.

(** The decimal expansion of [m * 2^e], exact: [repr] would stop at the
    shortest prefix that reads back as the same float. *)
Definition decimal (m : N) (e : Z) : string :=
  if (0 <=? e)%Z then pretty (Z.of_N m * 2 ^ e)%Z +:+ ".0"
  else
    let k := Z.to_nat (- e) in
    let n := (Z.of_N m * 5 ^ (- e))%Z in
    let q := (n / 10 ^ (- e))%Z in
    let r := (n mod 10 ^ (- e))%Z in
    let digits := pretty r in
    let padded := repeat_str "0" (k - String.length digits) +:+ digits in
    let fix strip (fuel : nat) (s : string) : string :=
      match fuel with
      | O => s
      | S fuel' =>
          match s with
          | String "0" EmptyString => s
          | String "0" s' => strip fuel' s'
          | _ => s
          end
      end in
    pretty q +:+ "." +:+ String.rev (strip k (String.rev padded)).

Definition ref_repr_float (f : pyfloat) : string :=
  match f with
  | FNan => "nan"
  | FInf false => "inf"
  | FInf true => "-inf"
  | FFin neg m e => (if neg then "-" else EmptyString) +:+ decimal m e
  end.

Definition json_float (f : pyfloat) : string :=
  match f with
  | FNan => "NaN"
  | FInf false => "Infinity"
  | FInf true => "-Infinity"
  | _ => ref_repr_float f
  end.

Definition indent (level : nat) : string := nl +:+ repeat_str "  " level.

Fixpoint dump (level : nat) (v : pyval) : string :=
  match v with
  | VNone => "null"
  | VBool true => "true"
  | VBool false => "false"
  | VInt z => pretty z
  | VFloat f => json_float f
  | VStr s => json_string s
  | VList [] => "[]"
  | VList l =>
      "[" +:+ indent (S level) +:+
      String.concat ("," +:+ indent (S level)) (map (dump (S level)) l) +:+
      indent level +:+ "]"
  | VDict [] => "{}"
  | VDict kvs =>
      "{" +:+ indent (S level) +:+
      String.concat ("," +:+ indent (S level))
        (map (λ kv, match kv with
                    | (k, x) => json_string k +:+ ": " +:+ dump (S level) x
                    end) kvs) +:+
      indent level +:+ "}"
  end.

(** *** Reading *)

Definition is_ws (a : ascii) : bool :=
  let n := N_of_ascii a in
  ((n =? 32) || (n =? 9) || (n =? 10) || (n =? 13))%N.

Fixpoint skip_ws (s : string) : string :=
  match s with
  | String a s' => if is_ws a then skip_ws s' else s
  | EmptyString => s
  end.

Definition digit (a : ascii) : option Z :=
  let n := N_of_ascii a in
  if ((48 <=? n) && (n <? 58))%N then Some (Z.of_N n - 48) else None.

Definition hex_value (a : ascii) : option N :=
  let n := N_of_ascii a in
  (if (48 <=? n) && (n <? 58) then Some (n - 48)
   else if (97 <=? n) && (n <? 103) then Some (n - 87)
   else if (65 <=? n) && (n <? 71) then Some (n - 55)
   else None)%N.

(** The digits at the head of [s], and what follows them. *)
Fixpoint read_digits (s : string) : list Z * string :=
  match s with
  | String a s' =>
      match digit a with
      | Some d => let '(ds, rest) := read_digits s' in (d :: ds, rest)
      | None => ([], s)
      end
  | EmptyString => ([], s)
  end.

Definition number_of (ds : list Z) : Z :=
  fold_left (λ acc d, acc * 10 + d) ds 0.

(** [a / b] rounded to the nearest integer, ties to even. *)
Definition div_half_even (a b : Z) : Z :=
  let q := a / b in
  let r := a mod b in
  if 2 * r <? b then q
  else if b <? 2 * r then q + 1
  else if Z.even q then q else q + 1.

Fixpoint odd_part (m : positive) (e : Z) : positive * Z :=
  match m with
  | xO m' => odd_part m' (e + 1)
  | _ => (m, e)
  end.

(** The binary64 float nearest to [p / q], for [0 <= p] and [0 < q]. *)
Definition round_float (neg : bool) (p q : Z) : pyfloat :=
  if p =? 0 then FFin neg 0 0
  else
    let l := Z.log2 p - Z.log2 q in
    let below := if 0 <=? l then p <? q * 2 ^ l else p * 2 ^ (- l) <? q in
    let e0 := if below then l - 1 else l in
    let e := Z.max (e0 - 52) (-1074) in
    let m :=
      if 0 <=? e then div_half_even p (q * 2 ^ e)
      else div_half_even (p * 2 ^ (- e)) q in
    if 1024 <=? Z.log2 m + e then FInf neg
    else
      match m with
      | Zpos mp => let '(m', e') := odd_part mp e in FFin neg (Npos m') e'
      | _ => FFin neg 0 0
      end.

(** A JSON number at the head of [s]: an [int] when it has neither a
    fraction nor an exponent, a [float] otherwise. *)
Definition parse_number (s : string) : option (pyval * string) :=
  let '(neg, s1) :=
    match s with
    | String "-" r => (true, r)
    | _ => (false, s)
    end in
  let '(int_ds, s2) :=
    match s1 with
    | String "0" r => ([0], r)
    | _ => read_digits s1
    end in
  match int_ds with
  | [] => None
  | _ :: _ =>
      let '(frac_ds, s3) :=
        match s2 with
        | String "." r =>
            match read_digits r with
            | ([], _) => ([], s2)
            | (ds, rest) => (ds, rest)
            end
        | _ => ([], s2)
        end in
      let '(exp, s4) :=
        match s3 with
        | String c r =>
            if (N_of_ascii c =? 101)%N || (N_of_ascii c =? 69)%N then
              let '(eneg, r') :=
                match r with
                | String "-" r' => (true, r')
                | String "+" r' => (false, r')
                | _ => (false, r)
                end in
              match read_digits r' with
              | ([], _) => (None, s3)
              | (ds, rest) => (Some (if eneg then - number_of ds else number_of ds), rest)
              end
            else (None, s3)
        | EmptyString => (None, s3)
        end in
      match frac_ds, exp with
      | [], None =>
          Some (VInt (if neg then - number_of int_ds else number_of int_ds), s4)
      | _, _ =>
          let mant := number_of (int_ds ++ frac_ds) in
          let e10 := default 0 exp - Z.of_nat (length frac_ds) in
          Some (VFloat (if 0 <=? e10 then round_float neg (mant * 10 ^ e10) 1
                        else round_float neg mant (10 ^ (- e10))), s4)
      end
  end.

(** Four hexadecimal digits at the head of [s]. *)
Definition read_hex4 (s : string) : option (N * string) :=
  match s with
  | String a (String b (String c (String d rest))) =>
      x ← hex_value a; y ← hex_value b; z ← hex_value c; w ← hex_value d;
      Some (x * 4096 + y * 256 + z * 16 + w, rest)%N
  | _ => None
  end.

(** The characters of a JSON string up to its closing quote. *)
Fixpoint read_string (fuel : nat) (s : string) : option (string * string) :=
  match fuel, s with
  | S fuel', String c r =>
      let n := N_of_ascii c in
      if (n =? 34)%N then Some (EmptyString, r)
      else if (n =? 92)%N then
        match r with
        | String e r' =>
            let plain (t : string) :=
              '(body, rest) ← read_string fuel' r'; Some (t +:+ body, rest) in
            (if N_of_ascii e =? 34 then plain dquote
             else if N_of_ascii e =? 92 then plain backslash
             else if N_of_ascii e =? 47 then plain "/"
             else if N_of_ascii e =? 98 then plain (chr 8)
             else if N_of_ascii e =? 102 then plain (chr 12)
             else if N_of_ascii e =? 110 then plain (chr 10)
             else if N_of_ascii e =? 114 then plain (chr 13)
             else if N_of_ascii e =? 116 then plain (chr 9)
             else if N_of_ascii e =? 117 then
               '(hi, r1) ← read_hex4 r';
               let pair :=
                 if (55296 <=? hi) && (hi <? 56320) then
                   match r1 with
                   | String b (String u r2) =>
                       if (N_of_ascii b =? 92) && (N_of_ascii u =? 117) then
                         '(lo, r3) ← read_hex4 r2;
                         if (56320 <=? lo) && (lo <? 57344)
                         then Some (65536 + (hi - 55296) * 1024 + (lo - 56320), r3)
                         else None
                       else None
                   | _ => None
                   end
                 else None in
               let '(cp, r4) := default (hi, r1) pair in
               '(body, rest) ← read_string fuel' r4; Some (utf8 cp +:+ body, rest)
             else None)%N
        | EmptyString => None
        end
      else if (n <? 32)%N then None
      else '(body, rest) ← read_string fuel' r; Some (String c body, rest)
  | _, _ => None
  end.

(** [s] without its prefix [p]. *)
Fixpoint starts_with (p s : string) : option string :=
  match p, s with
  | EmptyString, _ => Some s
  | String a p', String b s' => if Ascii.eqb a b then starts_with p' s' else None
  | _, _ => None
  end.

(** A JSON value at the head of [s], and what follows it. *)
Fixpoint parse_value (fuel : nat) (s : string) : option (pyval * string) :=
  match fuel with
  | O => None
  | S fuel' =>
      match s with
      | String c r =>
          let n := N_of_ascii c in
          (if n =? 123 then
             match skip_ws r with
             | String "}" r' => Some (VDict [], r')
             | _ => parse_members fuel' r []
             end
           else if n =? 91 then
             match skip_ws r with
             | String "]" r' => Some (VList [], r')
             | _ => parse_elements fuel' r []
             end
           else if n =? 34 then
             '(t, r') ← read_string (String.length r) r; Some (VStr t, r')
           else
             match starts_with "null" s, starts_with "true" s, starts_with "false" s,
                   starts_with "NaN" s, starts_with "Infinity" s, starts_with "-Infinity" s with
             | Some r', _, _, _, _, _ => Some (VNone, r')
             | _, Some r', _, _, _, _ => Some (VBool true, r')
             | _, _, Some r', _, _, _ => Some (VBool false, r')
             | _, _, _, Some r', _, _ => Some (VFloat FNan, r')
             | _, _, _, _, Some r', _ => Some (VFloat (FInf false), r')
             | _, _, _, _, _, Some r' => Some (VFloat (FInf true), r')
             | _, _, _, _, _, _ => parse_number s
             end)%N
      | EmptyString => None
      end
  end
with parse_elements (fuel : nat) (s : string) (acc : list pyval)
  : option (pyval * string) :=
  match fuel with
  | O => None
  | S fuel' =>
      '(v, r) ← parse_value fuel' (skip_ws s);
      match skip_ws r with
      | String "," r' => parse_elements fuel' r' (acc ++ [v])
      | String "]" r' => Some (VList (acc ++ [v]), r')
      | _ => None
      end
  end
with parse_members (fuel : nat) (s : string) (acc : list (string * pyval))
  : option (pyval * string) :=
  match fuel with
  | O => None
  | S fuel' =>
      match skip_ws s with
      | String q r0 =>
          if (N_of_ascii q =? 34)%N then
            '(k, r1) ← read_string (String.length r0) r0;
            match skip_ws r1 with
            | String ":" r2 =>
                '(v, r3) ← parse_value fuel' (skip_ws r2);
                match skip_ws r3 with
                | String "," r' => parse_members fuel' r' (dict_set k v acc)
                | String "}" r' => Some (VDict (dict_set k v acc), r')
                | _ => None
                end
            | _ => None
            end
          else None
      | EmptyString => None
      end
  end.

Definition JSONDecodeError : exn :=
  LibraryError "JSONDecodeError" "Expecting value".

Definition load (content : string) : res pyval :=
  let text := universal_newlines content in
  match parse_value (2 * String.length text + 2) (skip_ws text) with
  | Some (v, rest) =>
      match skip_ws rest with
      | EmptyString => Ret v
      | _ => Raise (LibraryError "JSONDecodeError" "Extra data")
      end
  | None => Raise JSONDecodeError
  end.

(** *** [repr], [strip], [format_exc] *)

(** [repr] of a [str]: single quotes unless the text has one and no double
    quote; characters outside ASCII are left as they are. *)
Definition ref_repr_str (s : string) : string :=
  let bs := bytes s in
  let q : N := if existsb (N.eqb 39) bs && negb (existsb (N.eqb 34) bs) then 34%N else 39%N in
  let esc (b : N) : string :=
    (if (b =? q) || (b =? 92) then backslash +:+ chr b
     else if b =? 10 then backslash +:+ "n"
     else if b =? 13 then backslash +:+ "r"
     else if b =? 9 then backslash +:+ "t"
     else if (b <? 32) || (b =? 127) then backslash +:+ "x" +:+ hex 2 b
     else chr b)%N in
  chr q +:+ String.concat EmptyString (map esc bs) +:+ chr q.

Definition py_space (a : ascii) : bool :=
  let n := N_of_ascii a in
  (((9 <=? n) && (n <? 14)) || ((28 <=? n) && (n <? 33)))%N.

Fixpoint lstrip (s : string) : string :=
  match s with
  | String a s' => if py_space a then lstrip s' else s
  | EmptyString => s
  end.

Definition ref_strip (s : string) : string :=
  String.rev (lstrip (String.rev (lstrip s))).

Definition ref_format_exc (e : exn) : string :=
  "Traceback (most recent call last):" +:+ nl +:+
  match e with
  | KeyError k => "KeyError: " +:+ ref_repr_str k
  | TypeError msg => "TypeError: " +:+ msg
  | FileNotFoundError path => "FileNotFoundError: " +:+ ref_repr_str path
  | IndexError => "IndexError: list index out of range"
  | LibraryError cls msg => cls +:+ ": " +:+ msg
  | OSError cls msg => cls +:+ ": " +:+ msg
  | SystemExit c => "SystemExit: " +:+ pretty c
  end +:+ nl.

Definition ref_format_help (description : string) : string :=
  "usage: [-h] ..." +:+ nl +:+ nl +:+ description +:+ nl +:+ nl +:+
  "options:" +:+ nl +:+ "  -h, --help  show this help message and exit".

#[export] Instance ref_lib : Lib := {|
  json_dump := dump 0;
  json_load := load;
  repr_str := ref_repr_str;
  repr_float := ref_repr_float;
  strip := ref_strip;
  format_exc := ref_format_exc;
  format_help := ref_format_help
|}.

(** A storage that accepts everything, to run the scripts on. *)
#[export] Instance sound : Disk := {|
  open_refused := λ _, None;
  write_refused := λ _ _ _, None
|}.

#[export] Instance sound_reliable : Reliable sound.
Proof. by split. Qed.

End RefLib.

(** ** The per-node script, [test_gpu_node.py] *)

Module TestGpuNode.
Import Py.

(** *** What the node does

    The script probes the node through [torch], [cellpose], [numpy] and
    [pip].  Each external call either returns or raises an [Exception] of
    the library; the records below fix what every call of a run does. *)
Inductive outcome (A : Type) :=
| Returns (a : A)
| Fails (cls msg : string).
Arguments Returns {A} a.
Arguments Fails {A} cls msg.

Definition call {A} (o : outcome A) : M A :=
  match o with
  | Returns a => ret a
  | Fails cls msg => raise (LibraryError cls msg)
  end.

(** [torch.cuda.get_device_properties(i)]: [memory_gb] is
    [round(total_memory / 1e9, 2)]. *)
Record device_properties := {
  memory_gb : pyfloat;
  major : Z;
  minor : Z
}.

Record torch_module := {
  torch_version : string;                  (* torch.__version__ *)
  torch_version_cuda : option string;      (* torch.version.cuda *)
  cuda_is_available : outcome bool;
  cuda_device_count : outcome Z;
  cuda_get_device_name : nat → outcome string;
  cuda_get_device_properties : nat → outcome device_properties
}.

(** [cellpose.__version__], absent ([AttributeError]) in some releases. *)
Record cellpose_module := {
  cellpose_version : option string
}.

(** [model.net]: its [device] attribute when it has one, and the device of
    [next(model.net.parameters())]. *)
Record network := {
  net_device : option string;
  first_param_device : outcome string
}.

(** What [model.eval] returns: [len(np.unique(masks))] and
    [str(masks.shape)]. *)
Record masks := {
  unique_count : Z;
  shape : string
}.

Record model := {
  model_device : string;                   (* str(model.device) *)
  model_device_is_cpu : bool;              (* model.device == 'cpu' *)
  model_gpu : bool;                        (* model.gpu *)
  model_net : option network;              (* hasattr(model, 'net') and model.net is not None *)
  model_eval : outcome masks
}.

Record node := {
  hostname : string;                       (* socket.gethostname() *)
  sys_executable : string;
  sys_version : string;
  environ : gmap string string;            (* os.environ *)
  (* test_pytorch *)
  import_torch : outcome torch_module;
  (* test_cellpose *)
  import_cellpose : outcome cellpose_module;
  pip_show_cellpose : outcome string;      (* the stdout of [pip show cellpose] *)
  (* test_model_loading *)
  import_torch_and_models : outcome torch_module;
  CellposeModel : outcome model;
  (* test_inference *)
  numpy_dummy_img : outcome unit           (* import numpy; np.random.randint(...) *)
}.

(** The command line as [argparse] reads it: one that asks for help with
    [-h] or [--help], or the values given to [--node] and to [--output]. *)
Inductive cmdline :=
| Help
| Options (node output : option string).

Definition opt_node (c : cmdline) : option string :=
  match c with
  | Help => None
  | Options node _ => node
  end.

Definition opt_output (c : cmdline) : option string :=
  match c with
  | Help => None
  | Options _ output => output
  end.

Record args := {
  args_node : string;
  args_output : string
}.

(** The result record, the dict [result] of [main]. *)
Record result := {
  node_name : string;
  host : string;
  status : string;
  tests : list (string * pyval);
  errors : list string
}.

Definition to_json (r : result) : pyval :=
  VDict [("node", VStr (node_name r));
         ("hostname", VStr (host r));
         ("status", VStr (status r));
         ("tests", VDict (tests r));
         ("errors", VList (map VStr (errors r)))].

Section script.
Context {lib : Lib} {disk : Disk}.
Variable N : node.

(** [parser.parse_args()].  Asked for help, [argparse] writes the help
    message to standard output and exits with code 0.  Both options are
    [required=True]: it exits with code 2 when one is missing. *)
Definition parse_args (c : cmdline) : M args :=
  match c with
  | Help =>
      print (format_help "Test GPU node for Cellpose-SAM");;
      raise (SystemExit 0)
  | Options (Some n) (Some o) => ret {| args_node := n; args_output := o |}
  | Options _ _ => raise (SystemExit 2)
  end.

(** [os.environ.get(k, "N/A")] *)
Definition environ_get (k : string) : string :=
  default "N/A" (environ N !! k).

Definition test_environment : pyval :=
  VDict [("python_executable", VStr (sys_executable N));
         ("python_version", VStr (sys_version N));
         ("slurm_job_id", VStr (environ_get "SLURM_JOB_ID"));
         ("slurm_nodelist", VStr (environ_get "SLURM_NODELIST"));
         ("cuda_visible_devices", VStr (environ_get "CUDA_VISIBLE_DEVICES"))].

(** The handlers of the four checks share their shape: they print, and
    return the error entry for [tests] and the one string for [errors]. *)
Definition error_entry (e : exn) : pyval :=
  VDict [("error", VStr (exn_str e)); ("traceback", VStr (format_exc e))].

Definition opt_str (o : option string) : pyval :=
  match o with
  | Some s => VStr s
  | None => VNone
  end.

(** One turn of the loop over [range(device_count)] in [test_pytorch]. *)
Definition probe_device (torch : torch_module) (i : nat) : M pyval :=
  name ← call (cuda_get_device_name torch i);
  props ← call (cuda_get_device_properties torch i);
  let device_info :=
    VDict [("index", VInt (Z.of_nat i));
           ("name", VStr name);
           ("memory_gb", VFloat (memory_gb props));
           ("compute_capability", VStr (pretty (major props) +:+ "." +:+ pretty (minor props)))] in
  print ("  ✓ GPU " +:+ pretty i +:+ ": " +:+ name +:+ " (" +:+ repr_float (memory_gb props) +:+ "GB)");;
  ret device_info.

Fixpoint probe_devices (torch : torch_module) (range : list nat) : M (list pyval) :=
  match range with
  | [] => ret []
  | i :: range' =>
      d ← probe_device torch i;
      ds ← probe_devices torch range';
      ret (d :: ds)
  end.

Definition test_pytorch : M (pyval * list string) :=
  print (nl +:+ "[TEST 1] PyTorch and CUDA availability");;
  try_except
    (torch ← call (import_torch N);
     cuda_available ← call (cuda_is_available torch);
     device_count ← (if cuda_available : bool then call (cuda_device_count torch) else ret 0);
     let result :=
       [("version", VStr (torch_version torch));
        ("cuda_compiled_version", opt_str (torch_version_cuda torch));
        ("cuda_available", VBool cuda_available);
        ("device_count", VInt device_count)] in
     if cuda_available then
       devices ← probe_devices torch (seq 0 (Z.to_nat device_count));
       ret (VDict (result ++ [("devices", VList devices)]), [])
     else
       print "  ✗ CUDA not available!";;
       ret (VDict result, ["CUDA not available despite GPU partition"]))
    (λ e,
     print ("  ✗ PyTorch test failed: " +:+ exn_str e);;
     ret (error_entry e, ["PyTorch error: " +:+ exn_str e])).

(** The version in the output of [pip show]: the text after the colon of
    the first line that starts with [Version:], stripped. *)
Fixpoint version_of_lines (lines : list string) : res string :=
  match lines with
  | [] => Ret "unknown"
  | line :: lines' =>
      if String.prefix "Version:" line then
        v ← index (split_once ":"%char line) 1; Ret (strip v)
      else version_of_lines lines'
  end.

Definition test_cellpose : M (pyval * list string) :=
  print (nl +:+ "[TEST 2] Cellpose import");;
  try_except
    (cellpose ← call (import_cellpose N);
     version ←
       match cellpose_version cellpose with
       | Some v => ret v
       | None =>
           out ← call (pip_show_cellpose N);
           lift (version_of_lines (split_on (Ascii.ascii_of_nat 10) out))
       end;
     let result := VDict [("version", VStr version); ("imported", VBool true)] in
     print ("  ✓ Cellpose version: " +:+ version);;
     ret (result, []))
    (λ e,
     print ("  ✗ Cellpose import failed: " +:+ exn_str e);;
     ret (error_entry e, ["Cellpose import error: " +:+ exn_str e])).

Definition test_model_loading : M (option model * pyval * list string) :=
  print (nl +:+ "[TEST 3] CellposeSAM model loading");;
  try_except
    (torch ← call (import_torch_and_models N);
     print "  Loading CellposeModel with GPU=True, pretrained_model='cpsam'...";;
     model ← call (CellposeModel N);
     let result :=
       [("success", VBool true);
        ("device", VStr (model_device model));
        ("gpu_flag", VBool (model_gpu model))] in
     result ←
       match model_net model with
       | Some net =>
           let result :=
             match net_device net with
             | Some d => result ++ [("network_device", VStr d)]
             | None => result
             end in
           try_bare
             (d ← call (first_param_device net);
              print ("  ✓ Model loaded on: " +:+ d);;
              ret (result ++ [("parameter_device", VStr d)]))
             (ret result)
       | None => ret result
       end;
     on_cpu_despite_cuda ←
       (if model_device_is_cpu model then call (cuda_is_available torch) else ret false);
     if on_cpu_despite_cuda : bool then
       let warning := "Model loaded on CPU despite CUDA being available!" in
       print ("  ⚠️  " +:+ warning);;
       ret (Some model, VDict (result ++ [("warning", VStr warning)]), [warning])
     else
       print ("  ✓ Model successfully loaded on: " +:+ model_device model);;
       ret (Some model, VDict result, []))
    (λ e,
     print ("  ✗ Model loading failed: " +:+ exn_str e);;
     ret (None, error_entry e, ["Model loading error: " +:+ exn_str e])).

Definition test_inference (model : model) : M (pyval * list string) :=
  print (nl +:+ "[TEST 4] Dummy inference");;
  try_except
    (call (numpy_dummy_img N);;
     print "  Running inference on 256x256 dummy image...";;
     masks ← call (model_eval model);
     let num_masks := unique_count masks - 1 in
     let result :=
       VDict [("success", VBool true);
              ("num_masks_found", VInt num_masks);
              ("output_shape", VStr (shape masks))] in
     print "  ✓ Inference successful";;
     print ("  ✓ Found " +:+ pretty num_masks +:+ " masks");;
     ret (result, []))
    (λ e,
     print ("  ✗ Inference failed: " +:+ exn_str e);;
     ret (error_entry e, ["Inference error: " +:+ exn_str e])).

(** [result["tests"][name] = v], [result["errors"].extend(errs)] and
    [result["status"] = s] *)
Definition set_test (r : result) (name : string) (v : pyval) : result :=
  {| node_name := node_name r; host := host r; status := status r;
     tests := dict_set name v (tests r); errors := errors r |}.

Definition extend_errors (r : result) (errs : list string) : result :=
  {| node_name := node_name r; host := host r; status := status r;
     tests := tests r; errors := errors r ++ errs |}.

Definition set_status (r : result) (s : string) : result :=
  {| node_name := node_name r; host := host r; status := s;
     tests := tests r; errors := errors r |}.

Definition skipped_inference : pyval :=
  VDict [("error", VStr "Model not loaded, skipping inference")].

Definition main (c : cmdline) : M unit :=
  args ← parse_args c;
  let result :=
    {| node_name := args_node args; host := hostname N; status := "unknown";
       tests := []; errors := [] |} in
  print (repeat_str "=" 60);;
  print ("TESTING GPU NODE: " +:+ args_node args);;
  print ("Actual hostname: " +:+ hostname N);;
  print (repeat_str "=" 60);;
  (* Test 1: Environment info *)
  let result := set_test result "environment" test_environment in
  (* Test 2: PyTorch and CUDA *)
  '(pytorch_result, pytorch_errors) ← test_pytorch;
  let result := set_test result "pytorch" pytorch_result in
  let result := extend_errors result pytorch_errors in
  (* Test 3: Cellpose import *)
  '(cellpose_result, cellpose_errors) ← test_cellpose;
  let result := set_test result "cellpose" cellpose_result in
  let result := extend_errors result cellpose_errors in
  (* Test 4: Model loading *)
  '(model, model_result, model_errors) ← test_model_loading;
  let result := set_test result "model_loading" model_result in
  let result := extend_errors result model_errors in
  (* Test 5: Inference (only if model loaded successfully) *)
  result ←
    match model with
    | Some model =>
        '(inference_result, inference_errors) ← test_inference model;
        let result := set_test result "inference" inference_result in
        ret (extend_errors result inference_errors)
    | None => ret (set_test result "inference" skipped_inference)
    end;
  (* Determine overall status *)
  result ←
    (if bool_decide (length (errors result) = 0%nat) then
       print (nl +:+ repeat_str "=" 60);;
       print "ALL TESTS PASSED ✓";;
       print (repeat_str "=" 60);;
       ret (set_status result "SUCCESS")
     else
       print (nl +:+ repeat_str "=" 60);;
       print ("TESTS FAILED: " +:+ pretty (length (errors result)) +:+ " error(s)");;
       print (repeat_str "=" 60);;
       ret (set_status result "FAILED"));
  (* Save result to JSON *)
  open_w (args_output args);;
  write (args_output args) (json_dump (to_json result));;
  print (nl +:+ "Results saved to: " +:+ args_output args);;
  (* Exit with error code if tests failed *)
  raise (SystemExit (if String.eqb (status result) "SUCCESS" then 0 else 1)).

End script.

End TestGpuNode.

(** ** The aggregator, [summarize_results.py] *)

Module SummarizeResults.
Import Py.

(** The command line as [argparse] reads it: one that asks for help with
    [-h] or [--help], or the values given to [--input-dir] and to
    [--output], and the arguments of [--input-files]. *)
Inductive cmdline :=
| Help
| Options (input_dir output : option string) (input_files : option (list string)).

Definition opt_input_dir (c : cmdline) : option string :=
  match c with
  | Help => None
  | Options input_dir _ _ => input_dir
  end.

Definition opt_output (c : cmdline) : option string :=
  match c with
  | Help => None
  | Options _ output _ => output
  end.

Definition opt_input_files (c : cmdline) : option (list string) :=
  match c with
  | Help => None
  | Options _ _ input_files => input_files
  end.

Record args := {
  input_dir : string;
  output : string;
  input_files : option (list string)
}.

(** [c] occurs in [s]. *)
Fixpoint has_char (c : Ascii.ascii) (s : string) : bool :=
  match s with
  | EmptyString => false
  | String a s' => Ascii.eqb a c || has_char c s'
  end.

(** What the machine answers: the time of the run, as
    [datetime.now().isoformat()], which holds no carriage return, and the
    names of the entries of a directory (none when it does not exist). *)
Record host := {
  now_isoformat : string;
  now_isoformat_plain : has_char cr now_isoformat = false;
  listdir : string → list string
}.

(** [name] ends with [suffix]. *)
Definition ends_with (suffix name : string) : bool :=
  String.prefix (String.rev suffix) (String.rev name).

(** A path of [pathlib], printed; [dir] is taken in normal form. *)
Definition path_join (dir name : string) : string :=
  dir +:+ "/" +:+ name.

(** [sorted(Path(dir).glob("*_result.json"))] *)
Definition glob_results (H : host) (dir : string) : list string :=
  merge_sort String.le
    (map (path_join dir) (filter (λ n, ends_with "_result.json" n) (listdir H dir))).

(** The dict [error_categories]: hashable keys in insertion order, each
    with its list of nodes. *)
Definition categories : Type := list (pyval * list pyval).

(** [if error not in cats: cats[error] = []] and then
    [cats[error].append(node)] *)
Fixpoint cat_append (error node : pyval) (cats : categories) : categories :=
  match cats with
  | [] => [(error, [node])]
  | (k, nodes) :: cats' =>
      if key_eq k error then (k, nodes ++ [node]) :: cats'
      else (k, nodes) :: cat_append error node cats'
  end.

Section script.
Context {lib : Lib} {disk : Disk}.
Variable H : host.

(** [parser.parse_args()].  Asked for help, [argparse] writes the help
    message to standard output and exits with code 0.  [--input-dir] and
    [--output] are [required=True]; [--input-files] is optional and takes
    one argument or more ([nargs='+']).  [argparse] exits with code 2 on a
    command line that breaks this. *)
Definition parse_args (c : cmdline) : M args :=
  match c with
  | Help =>
      print (format_help "Summarize GPU test results");;
      raise (SystemExit 0)
  | Options (Some d) (Some o) None =>
      ret {| input_dir := d; output := o; input_files := None |}
  | Options (Some d) (Some o) (Some (f :: fs)) =>
      ret {| input_dir := d; output := o; input_files := Some (f :: fs) |}
  | Options _ _ _ => raise (SystemExit 2)
  end.

(** The loop that loads the result files: [json.load(f)] on each file
    opened for reading. *)
Fixpoint load_results (result_files : list string) : M (list pyval) :=
  match result_files with
  | [] => ret []
  | result_file :: rest =>
      content ← open_r result_file;
      r ← lift (json_load content);
      rs ← load_results rest;
      ret (r :: rs)
  end.

(** [[r for r in results if r['status'] == st]] *)
Fixpoint with_status (st : string) (results : list pyval) : res (list pyval) :=
  match results with
  | [] => Ret []
  | r :: results' =>
      s ← getitem r "status";
      rs ← with_status st results';
      Ret (if eq_str s st then r :: rs else rs)
  end.

Definition successes (results : list pyval) : res (list pyval) :=
  with_status "SUCCESS" results.

Definition failures (results : list pyval) : res (list pyval) :=
  with_status "FAILED" results.

(** The two nested loops that fill [error_categories]. *)
Fixpoint add_errors (r : pyval) (errs : list pyval) (cats : categories)
  : res categories :=
  match errs with
  | [] => Ret cats
  | error :: errs' =>
      if hashable error then
        node ← getitem r "node";
        add_errors r errs' (cat_append error node cats)
      else Raise (TypeError "unhashable type")
  end.

Fixpoint categorize (failed : list pyval) (cats : categories) : res categories :=
  match failed with
  | [] => Ret cats
  | r :: failed' =>
      errors ← getitem r "errors";
      errs ← iter errors;
      cats' ← add_errors r errs cats;
      categorize failed' cats'
  end.

Definition error_categories (failed : list pyval) : res categories :=
  categorize failed [].

Definition rule (c : string) : string := repeat_str c 80 +:+ nl.

(** The lines of one successful node. *)
Definition write_success (out : string) (r : pyval) : M unit :=
  node ← lift (getitem r "node");
  hostname ← lift (getitem r "hostname");
  write out ("  ✓ " +:+ py_str node +:+ " (hostname: " +:+ py_str hostname +:+ ")" +:+ nl);;
  tests ← lift (getitem r "tests");
  has_pytorch ← lift (contains "pytorch" tests);
  has_devices ←
    (if has_pytorch : bool then
       pytorch ← lift (getitem tests "pytorch");
       lift (contains "devices" pytorch)
     else ret false);
  if has_devices : bool then
    pytorch ← lift (getitem tests "pytorch");
    devices ← lift (getitem pytorch "devices");
    devs ← lift (iter devices);
    for_each devs (λ dev,
      name ← lift (getitem dev "name");
      memory_gb ← lift (getitem dev "memory_gb");
      write out ("      GPU: " +:+ py_str name +:+ " (" +:+ py_str memory_gb +:+ "GB)" +:+ nl))
  else ret tt.

(** The lines of one failed node. *)
Definition write_failure (out : string) (r : pyval) : M unit :=
  node ← lift (getitem r "node");
  hostname ← lift (getitem r "hostname");
  write out ("  ✗ " +:+ py_str node +:+ " (hostname: " +:+ py_str hostname +:+ ")" +:+ nl);;
  errors ← lift (getitem r "errors");
  errs ← lift (iter errors);
  for_each errs (λ error, write out ("      ERROR: " +:+ py_str error +:+ nl));;
  write out nl.

(** The lines of one entry of the breakdown. *)
Definition write_category (out : string) (entry : pyval * list pyval) : M unit :=
  let '(error, nodes) := entry in
  write out (nl +:+ py_str error +:+ nl);;
  joined ← lift (join ", " nodes);
  write out ("  Affected nodes (" +:+ pretty (length nodes) +:+ "): " +:+ joined +:+ nl).

(** The body of [with open(args.output, 'w') as f]. *)
Definition write_summary (out : string) (results : list pyval) : M unit :=
  write out (rule "=");;
  write out ("CELLPOSE-SAM GPU TEST SUMMARY" +:+ nl);;
  write out ("Generated: " +:+ now_isoformat H +:+ nl);;
  write out ("Total nodes tested: " +:+ pretty (length results) +:+ nl);;
  write out (rule "=" +:+ nl);;
  (* Count successes and failures *)
  successes ← lift (successes results);
  failures ← lift (failures results);
  write out ("✓ SUCCESS: " +:+ pretty (length successes) +:+ " nodes" +:+ nl);;
  write out ("✗ FAILED:  " +:+ pretty (length failures) +:+ " nodes" +:+ nl +:+ nl);;
  (* List successful nodes *)
  (match successes with
   | [] => ret tt
   | _ :: _ =>
       write out ("SUCCESSFUL NODES:" +:+ nl);;
       write out (rule "-");;
       for_each successes (write_success out);;
       write out nl
   end);;
  (* List failed nodes with details *)
  (match failures with
   | [] => ret tt
   | _ :: _ =>
       write out ("FAILED NODES:" +:+ nl);;
       write out (rule "-");;
       for_each failures (write_failure out)
   end);;
  (* Detailed breakdown by error type *)
  write out (nl +:+ "DETAILED ERROR BREAKDOWN:" +:+ nl);;
  write out (rule "-");;
  error_categories ← lift (error_categories failures);
  for_each error_categories (write_category out);;
  write out (nl +:+ rule "=").

(** The files to read: the list of [--input-files] when it was given,
    the matching files of the directory otherwise. *)
Definition result_files (args : args) : list string :=
  match input_files args with
  | Some (f :: fs) => f :: fs
  | _ => glob_results H (input_dir args)
  end.

Definition main (c : cmdline) : M unit :=
  args ← parse_args c;
  (* Load all results *)
  results ← load_results (result_files args);
  (* Write summary *)
  open_w (output args);;
  write_summary (output args) results;;
  print (nl +:+ "Summary written to: " +:+ output args);;
  (* Also print to console *)
  text ← read_file (output args);
  print text.

End script.

End SummarizeResults.

(** ** The result record as the aggregator reads it

    The shape of section 3 of the specification: a dict with the node and
    host names, a status, the mapping of test outputs, and the list of
    error strings.  Of the test outputs the aggregator reads the devices
    of [pytorch] only, each with a name and a memory size. *)

Module DataModel.
Import Py.

Definition is_str (v : pyval) : bool :=
  match v with
  | VStr _ => true
  | _ => false
  end.

Definition device_shape (d : pyval) : bool :=
  match d with
  | VDict f =>
      bool_decide (is_Some (assoc "name" f)) &&
      bool_decide (is_Some (assoc "memory_gb" f))
  | _ => false
  end.

Definition pytorch_shape (p : pyval) : bool :=
  match p with
  | VDict kvs =>
      match assoc "devices" kvs with
      | None => true
      | Some (VList l) => forallb device_shape l
      | Some _ => false
      end
  | _ => false
  end.

Definition tests_shape (ts : list (string * pyval)) : bool :=
  match assoc "pytorch" ts with
  | None => true
  | Some p => pytorch_shape p
  end.

Definition record_shape (r : pyval) : bool :=
  match r with
  | VDict kvs =>
      match assoc "node" kvs, assoc "hostname" kvs, assoc "status" kvs,
            assoc "tests" kvs, assoc "errors" kvs with
      | Some (VStr _), Some (VStr _), Some (VStr _), Some (VDict ts), Some (VList errs) =>
          forallb is_str errs && tests_shape ts
      | _, _, _, _, _ => false
      end
  | _ => false
  end.

(** The fields of a record of that shape. *)
Definition str_field (k : string) (r : pyval) : string :=
  match r with
  | VDict kvs =>
      match assoc k kvs with
      | Some (VStr s) => s
      | _ => EmptyString
      end
  | _ => EmptyString
  end.

Definition error_strings (r : pyval) : list string :=
  match r with
  | VDict kvs =>
      match assoc "errors" kvs with
      | Some (VList errs) =>
          omap (λ e, match e with VStr s => Some s | _ => None end) errs
      | _ => []
      end
  | _ => []
  end.

(** The invariant of section 3: the status is [FAILED] exactly when the
    error list is not empty, and [SUCCESS] otherwise. *)
Definition status_invariant (r : pyval) : Prop :=
  (error_strings r = [] ∧ str_field "status" r = "SUCCESS") ∨
  (error_strings r ≠ [] ∧ str_field "status" r = "FAILED").

End DataModel.

(** ** The vocabulary of the properties of the per-node script *)

Module NodeSpec.
Import Py DataModel TestGpuNode.

(** Inside a check every line printed after the banner is indented. *)
Definition detail (s : string) : Prop := ∃ t, s = "  " +:+ t.

(** [quiet m P]: in every world the fragment [m] leaves the files alone
    and prints the same detail lines, and it either returns one value, in
    [P], or raises one [Exception] (never [SystemExit]). *)
Definition quiet {A} (m : M A) (P : A → Prop) : Prop :=
  ∃ r details,
    (∀ w, m w = (r, World (fs w) (stdout w ++ details))) ∧
    Forall detail details ∧
    match r with
    | Ret a => P a
    | Raise e => is_Exception e = true
    end.

(** [check banner m P]: the check [m] prints its banner, then detail lines,
    leaves the files alone, and returns, with a value in [P]. *)
Definition check {A} (banner : string) (m : M A) (P : A → Prop) : Prop :=
  ∃ a details,
    (∀ w, m w = (Ret a, World (fs w) (stdout w ++ banner :: details))) ∧
    Forall detail details ∧ P a.

Section run.
Context {lib : Lib}.
Variable N : node.

(** What a check hands to [main]: its entry and no error, or its entry
    and the strings it recorded. *)
Definition passed_or (label : string) (out : pyval * list string) : Prop :=
  out.2 = [] ∨
  ∃ e, out = (error_entry e, [label +:+ exn_str e]).

(** What [test_model_loading] hands to [main]: the model the constructor
    returned, with an entry that says [success]; or no model, with the
    error entry and the error string of the handler. *)
Definition loaded_or_error (out : option model * pyval * list string) : Prop :=
  match out.1.1 with
  | Some m =>
      CellposeModel N = Returns m ∧
      ∃ kvs, out.1.2 = VDict kvs ∧ assoc "success" kvs = Some (VBool true)
  | None =>
      ∃ e, out.1.2 = error_entry e ∧
           out.2 = ["Model loading error: " +:+ exn_str e]
  end.

(** The lines [main] prints around the checks. *)
Definition header (n : string) : list string :=
  [repeat_str "=" 60; "TESTING GPU NODE: " +:+ n;
   "Actual hostname: " +:+ hostname N; repeat_str "=" 60].

Definition footer (o : string) (errs : list string) : list string :=
  [nl +:+ repeat_str "=" 60;
   match errs with
   | [] => "ALL TESTS PASSED ✓"
   | _ :: _ => "TESTS FAILED: " +:+ pretty (length errs) +:+ " error(s)"
   end;
   repeat_str "=" 60;
   nl +:+ "Results saved to: " +:+ o].

(** What the checks of one run handed to [main], and the lines each
    printed after its banner ([lines4]: all the lines of the inference
    check, banner included, none when it is skipped). *)
Record handed := Handed {
  pytorch : pyval * list string;
  cellpose : pyval * list string;
  loading : option model * pyval * list string;
  inference : pyval * list string;
  details1 : list string;
  details2 : list string;
  details3 : list string;
  lines4 : list string
}.

(** [hands banner lines m a]: in every world the check [m] returns [a]
    after printing [banner] and [lines], and touches no file. *)
Definition hands {A} (banner : string) (lines : list string) (m : M A) (a : A)
  : Prop :=
  ∀ w, m w = (Ret a, World (fs w) (stdout w ++ banner :: lines)).

Definition banner1 : string := nl +:+ "[TEST 1] PyTorch and CUDA availability".
Definition banner2 : string := nl +:+ "[TEST 2] Cellpose import".
Definition banner3 : string := nl +:+ "[TEST 3] CellposeSAM model loading".
Definition banner4 : string := nl +:+ "[TEST 4] Dummy inference".

(** A complete run of [main] for the node name [n] and the output path
    [o]: every check ran and handed over what [h] says (the inference
    check only with a model), the record [r] is made of that, and
    [printed] are the texts the run prints when its file is written, the
    last of them the path of the file. *)
Record run (n o : string) (h : handed) (r : result) (printed : list string)
  : Prop := Run {
  ran_pytorch : hands banner1 (details1 h) (test_pytorch N) (pytorch h);
  ran_cellpose : hands banner2 (details2 h) (test_cellpose N) (cellpose h);
  ran_loading : hands banner3 (details3 h) (test_model_loading N) (loading h);
  ran_inference :
    match (loading h).1.1 with
    | Some m =>
        ∃ details4,
          hands banner4 details4 (test_inference N m) (inference h) ∧
          lines4 h = banner4 :: details4 ∧
          Forall detail details4 ∧
          passed_or "Inference error: " (inference h)
    | None => inference h = (skipped_inference, []) ∧ lines4 h = []
    end;
  run_pytorch :
    pytorch_shape (pytorch h).1 = true ∧
    (passed_or "PyTorch error: " (pytorch h) ∨
     (pytorch h).2 = ["CUDA not available despite GPU partition"]);
  run_cellpose : passed_or "Cellpose import error: " (cellpose h);
  run_loading : loaded_or_error (loading h);
  run_details :
    Forall detail (details1 h) ∧ Forall detail (details2 h) ∧
    Forall detail (details3 h);
  run_node : node_name r = n;
  run_host : host r = hostname N;
  run_tests :
    tests r = [("environment", test_environment N);
               ("pytorch", (pytorch h).1);
               ("cellpose", (cellpose h).1);
               ("model_loading", (loading h).1.2);
               ("inference", (inference h).1)];
  run_errors :
    errors r = (pytorch h).2 ++ (cellpose h).2 ++ (loading h).2 ++ (inference h).2;
  run_status :
    status r = match errors r with [] => "SUCCESS" | _ :: _ => "FAILED" end;
  run_printed :
    printed =
      header n ++ banner1 :: details1 h ++ banner2 :: details2 h ++
      banner3 :: details3 h ++ lines4 h ++ footer o (errors r)
}.

End run.

End NodeSpec.

(** ** The vocabulary of the properties of the aggregator *)

Module SummarySpec.
Import Py DataModel SummarizeResults.

(** [emits out m a t]: the fragment [m] returns [a], appends the text [t]
    to the file open at [out], and does nothing else. *)
Definition emits {A} (out : string) (m : M A) (a : A) (t : string) : Prop :=
  ∀ w cur,
    fs w !! out = Some cur →
    m w = (Ret a, World (<[out := cur +:+ t]> (fs w)) (stdout w)).

Section report.
Context {lib : Lib}.
Variable H : host.

(** The status of a record, as the aggregator compares it. *)
Definition has_status (st : string) (r : pyval) : bool :=
  match getitem r "status" with
  | Ret s => eq_str s st
  | Raise _ => false
  end.

(** Reading files that hold what [json.load] turns into [results]. *)
Definition holds (files : gmap string string) (path : string) (r : pyval) : Prop :=
  ∃ text, files !! path = Some text ∧ json_load text = Ret r.

(** *** The text of the report, section by section *)

(** [v[k]], or [None] where Python raises. *)
Definition field (k : string) (v : pyval) : pyval :=
  match getitem v k with
  | Ret x => x
  | Raise _ => VNone
  end.

Definition devices_of (r : pyval) : list pyval :=
  match field "devices" (field "pytorch" (field "tests" r)) with
  | VList l => l
  | _ => []
  end.

Definition device_line (dev : pyval) : string :=
  "      GPU: " +:+ py_str (field "name" dev) +:+ " (" +:+
  py_str (field "memory_gb" dev) +:+ "GB)" +:+ nl.

Definition success_lines (r : pyval) : string :=
  ("  ✓ " +:+ str_field "node" r +:+ " (hostname: " +:+
   str_field "hostname" r +:+ ")" +:+ nl) +:+
  String.concat "" (map device_line (devices_of r)).

Definition error_line (error : string) : string :=
  "      ERROR: " +:+ error +:+ nl.

Definition failure_lines (r : pyval) : string :=
  ("  ✗ " +:+ str_field "node" r +:+ " (hostname: " +:+
   str_field "hostname" r +:+ ")" +:+ nl) +:+
  String.concat "" (map error_line (error_strings r)) +:+ nl.

(** *** The breakdown by error string *)

(** [error_categories] over strings: the groups in insertion order, each
    an error string with the names of the nodes it was recorded for. *)
Definition groups : Type := list (string * list string).

Fixpoint group_append (error node : string) (g : groups) : groups :=
  match g with
  | [] => [(error, [node])]
  | (k, nodes) :: g' =>
      if String.eqb k error then (k, nodes ++ [node]) :: g'
      else (k, nodes) :: group_append error node g'
  end.

Definition group_record (g : groups) (r : pyval) : groups :=
  fold_left (λ g error, group_append error (str_field "node" r) g)
            (error_strings r) g.

Definition group_all (failed : list pyval) : groups :=
  fold_left group_record failed [].

Definition embed (g : groups) : categories :=
  map (λ eg, (VStr eg.1, map VStr eg.2)) g.

Definition category_lines (eg : string * list string) : string :=
  (nl +:+ eg.1 +:+ nl) +:+
  "  Affected nodes (" +:+ pretty (length eg.2) +:+ "): " +:+
  String.concat ", " eg.2 +:+ nl.

(** *** The whole report *)

(** A record the aggregator can summarise: it has a status, and the shape
    of section 3 when that status is SUCCESS or FAILED.  A record with
    another status is never looked at again. *)
Definition summarizable (r : pyval) : bool :=
  match getitem r "status" with
  | Ret s => if eq_str s "SUCCESS" || eq_str s "FAILED" then record_shape r else true
  | Raise _ => false
  end.

Definition with_status_of (st : string) (results : list pyval) : list pyval :=
  filter (λ r, has_status st r = true) results.

(** The head of the report, up to the two counts. *)
Definition report_head (total ok failed : nat) : string :=
  String.concat ""
    [rule "=";
     "CELLPOSE-SAM GPU TEST SUMMARY" +:+ nl;
     "Generated: " +:+ now_isoformat H +:+ nl;
     "Total nodes tested: " +:+ pretty total +:+ nl;
     rule "=" +:+ nl;
     "✓ SUCCESS: " +:+ pretty ok +:+ " nodes" +:+ nl;
     "✗ FAILED:  " +:+ pretty failed +:+ " nodes" +:+ nl +:+ nl].

Definition successful_section (ok : list pyval) : string :=
  match ok with
  | [] => ""
  | _ :: _ =>
      String.concat ""
        ["SUCCESSFUL NODES:" +:+ nl; rule "-";
         String.concat "" (map success_lines ok); nl]
  end.

Definition failed_section (failed : list pyval) : string :=
  match failed with
  | [] => ""
  | _ :: _ =>
      String.concat ""
        ["FAILED NODES:" +:+ nl; rule "-";
         String.concat "" (map failure_lines failed)]
  end.

(** The end of the report: the breakdown and the closing rule. *)
Definition breakdown (g : groups) : string :=
  String.concat ""
    [nl +:+ "DETAILED ERROR BREAKDOWN:" +:+ nl; rule "-";
     String.concat "" (map category_lines g);
     nl +:+ rule "="].

Definition summary_text (results : list pyval) : string :=
  let ok := with_status_of "SUCCESS" results in
  let failed := with_status_of "FAILED" results in
  String.concat ""
    [report_head (length results) (length ok) (length failed);
     successful_section ok;
     failed_section failed;
     breakdown (group_all failed)].

(** Which node is listed under which error string. *)
Definition listed (g : groups) (error node : string) : Prop :=
  ∃ nodes, (error, nodes) ∈ g ∧ node ∈ nodes.

(** The number of records of [results] with the status [st]. *)
Definition count_status (st : string) (results : list pyval) : nat :=
  length (filter (λ r, str_field "status" r = st) results).

(** A record written by a complete run of the per-node script. *)
Definition written_by_script (v : pyval) : Prop :=
  ∃ N n o h r printed,
    NodeSpec.run N n o h r printed ∧ v = TestGpuNode.to_json r.

(** A file that holds the JSON text of [r], which reads back as [r]. *)
Definition stores (files : gmap string string) (path : string) (r : pyval) : Prop :=
  files !! path = Some (json_dump r) ∧ json_load (json_dump r) = Ret r.

End report.

End SummarySpec.

(** ** The outcome of each check, read off the node

    What the properties of the checks, case by case, are stated with: when
    an external call answers, what a device adds to the PyTorch entry, and
    when every probe of a check answers so that the check passes. *)

Module NodeOutcome.
Import Py DataModel TestGpuNode NodeSpec.

(** Whether an external call returns. *)
Definition returns {A} (o : outcome A) : bool :=
  match o with
  | Returns _ => true
  | Fails _ _ => false
  end.

(** Both probes of device [i] return. *)
Definition device_answers (t : torch_module) (i : nat) : bool :=
  returns (cuda_get_device_name t i) && returns (cuda_get_device_properties t i).

Definition device_info (i : nat) (name : string) (props : device_properties) : pyval :=
  VDict [("index", VInt (Z.of_nat i));
         ("name", VStr name);
         ("memory_gb", VFloat (memory_gb props));
         ("compute_capability",
          VStr (pretty (major props) +:+ "." +:+ pretty (minor props)))].

Definition pytorch_fields (t : torch_module) (available : bool) (count : Z)
  : list (string * pyval) :=
  [("version", VStr (torch_version t));
   ("cuda_compiled_version", opt_str (torch_version_cuda t));
   ("cuda_available", VBool available);
   ("device_count", VInt count)].

Definition cpu_warning : string := "Model loaded on CPU despite CUDA being available!".

(** The storage takes the file: it lets [path] be opened for writing and
    [text] be written to it. *)
Definition accepted `{Disk} (path text : string) : Prop :=
  open_refused path = None ∧ write_refused path "" text = None.

(** The verdict [main] prints for an error list, between two rules. *)
Definition verdict (errs : list string) : string :=
  match errs with
  | [] => "ALL TESTS PASSED ✓"
  | _ :: _ => "TESTS FAILED: " +:+ pretty (length errs) +:+ " error(s)"
  end.

Section outcome.
Context {lib : Lib} {disk : Disk}.
Variable N : node.

(** The end of [main], from the opening of the output file on, for the
    record [r] it has made. *)
Definition save (o : string) (r : result) : M unit :=
  open_w o;;
  write o (json_dump (to_json r));;
  print (nl +:+ "Results saved to: " +:+ o);;
  raise (SystemExit (if String.eqb (status r) "SUCCESS" then 0 else 1)).

Definition gpu_line (i : nat) (name : string) (props : device_properties) : string :=
  "  ✓ GPU " +:+ pretty i +:+ ": " +:+ name +:+ " (" +:+
  repr_float (memory_gb props) +:+ "GB)".

Definition pytorch_passes : bool :=
  match import_torch N with
  | Returns t =>
      match cuda_is_available t, cuda_device_count t with
      | Returns true, Returns n => forallb (device_answers t) (seq 0 (Z.to_nat n))
      | _, _ => false
      end
  | Fails _ _ => false
  end.

Definition cellpose_passes : bool :=
  match import_cellpose N with
  | Returns cp =>
      match cellpose_version cp with
      | Some _ => true
      | None => returns (pip_show_cellpose N)
      end
  | Fails _ _ => false
  end.

Definition loading_passes : bool :=
  match import_torch_and_models N, CellposeModel N with
  | Returns t, Returns m =>
      if model_device_is_cpu m then
        match cuda_is_available t with
        | Returns available => negb available
        | Fails _ _ => false
        end
      else true
  | _, _ => false
  end.

Definition inference_passes : bool :=
  match CellposeModel N with
  | Returns m => returns (numpy_dummy_img N) && returns (model_eval m)
  | Fails _ _ => false
  end.

Definition healthy_node : bool :=
  pytorch_passes && cellpose_passes && loading_passes && inference_passes.

End outcome.
End NodeOutcome.

(** ** What the aggregator appends to its output file *)

Module ReportDetail.
Import Py DataModel SummarizeResults SummarySpec.

(** An evaluation that raises nothing but an [Exception]. *)
Definition safe {A} (r : res A) : Prop :=
  match r with
  | Ret _ => True
  | Raise e => is_Exception e = true
  end.


(** [confined out m]: on every storage, whatever it returns or raises, the
    fragment [m] changes no file but the one open at [out], which it leaves
    in place, prints nothing, and raises nothing but an [Exception]. *)
Definition confined {A} (out : string) (m : M A) : Prop :=
  ∀ w, is_Some (fs w !! out) →
    ∃ r files,
      m w = (r, World files (stdout w)) ∧
      is_Some (files !! out) ∧
      (∀ path, path ≠ out → files !! path = fs w !! path) ∧
      safe r.

Section detail.
Context {lib : Lib}.
Variable H : host.

(** The first five lines of the report, written before any record is
    looked at. *)
Definition report_top (total : nat) : string :=
  String.concat ""
    [rule "=";
     "CELLPOSE-SAM GPU TEST SUMMARY" +:+ nl;
     "Generated: " +:+ now_isoformat H +:+ nl;
     "Total nodes tested: " +:+ pretty total +:+ nl;
     rule "=" +:+ nl].

(** The records with the status FAILED, by their status field. *)
Definition failed_records (results : list pyval) : list pyval :=
  filter (λ r, str_field "status" r = "FAILED") results.

(** The node names an error string stands for: one per occurrence of the
    string in the error lists of the failed records, in their order. *)
Definition occurrences (error : string) (failed : list pyval) : list string :=
  flat_map (λ r, map (λ _, str_field "node" r)
                     (filter (λ e, e = error) (error_strings r))) failed.

(** The distinct strings of a list, in the order of their first
    occurrence. *)
Fixpoint first_seen (l : list string) : list string :=
  match l with
  | [] => []
  | e :: l' => e :: filter (λ x, x ≠ e) (first_seen l')
  end.

(** The nodes of the group of an error string. *)
Fixpoint group_nodes (error : string) (g : groups) : list string :=
  match g with
  | [] => []
  | (k, nodes) :: g' => if String.eqb k error then nodes else group_nodes error g'
  end.

End detail.
End ReportDetail.

(** ** Concrete runs

    Two nodes, one healthy and one where [torch] cannot be imported, the
    records the per-node script writes for them, and the report of the
    aggregator over these records, all computed with [RefLib]. *)

Module Examples.
Import Py RefLib.

Definition torch : TestGpuNode.torch_module := {|
  TestGpuNode.torch_version := "2.3.0";
  TestGpuNode.torch_version_cuda := Some "12.1";
  TestGpuNode.cuda_is_available := TestGpuNode.Returns true;
  TestGpuNode.cuda_device_count := TestGpuNode.Returns 2;
  TestGpuNode.cuda_get_device_name := λ i, TestGpuNode.Returns ("A100-" +:+ pretty i);
  TestGpuNode.cuda_get_device_properties := λ i,
    TestGpuNode.Returns
      {| TestGpuNode.memory_gb := FFin false 85 (-1);
         TestGpuNode.major := 8; TestGpuNode.minor := 0 |}
|}.

Definition cpsam : TestGpuNode.model := {|
  TestGpuNode.model_device := "cuda:0";
  TestGpuNode.model_device_is_cpu := false;
  TestGpuNode.model_gpu := true;
  TestGpuNode.model_net :=
    Some {| TestGpuNode.net_device := Some "cuda:0";
            TestGpuNode.first_param_device := TestGpuNode.Returns "cuda:0" |};
  TestGpuNode.model_eval :=
    TestGpuNode.Returns {| TestGpuNode.unique_count := 4; TestGpuNode.shape := "(256, 256)" |}
|}.

Definition healthy : TestGpuNode.node := {|
  TestGpuNode.hostname := "gpu-01";
  TestGpuNode.sys_executable := "/usr/bin/python3";
  TestGpuNode.sys_version := "3.11.4";
  TestGpuNode.environ := {[ "SLURM_JOB_ID" := "42" ]};
  TestGpuNode.import_torch := TestGpuNode.Returns torch;
  TestGpuNode.import_cellpose :=
    TestGpuNode.Returns {| TestGpuNode.cellpose_version := None |};
  TestGpuNode.pip_show_cellpose :=
    TestGpuNode.Returns ("Name: cellpose" +:+ nl +:+ "Version: 4.0.1 " +:+ nl);
  TestGpuNode.import_torch_and_models := TestGpuNode.Returns torch;
  TestGpuNode.CellposeModel := TestGpuNode.Returns cpsam;
  TestGpuNode.numpy_dummy_img := TestGpuNode.Returns tt
|}.

Definition no_torch : TestGpuNode.outcome TestGpuNode.torch_module :=
  TestGpuNode.Fails "ModuleNotFoundError" "No module named 'torch'".

Definition broken : TestGpuNode.node := {|
  TestGpuNode.hostname := "gpu-02";
  TestGpuNode.sys_executable := "/usr/bin/python3";
  TestGpuNode.sys_version := "3.11.4";
  TestGpuNode.environ := ∅;
  TestGpuNode.import_torch := no_torch;
  TestGpuNode.import_cellpose :=
    TestGpuNode.Returns {| TestGpuNode.cellpose_version := Some "4.0.1" |};
  TestGpuNode.pip_show_cellpose := TestGpuNode.Fails "FileNotFoundError" "pip";
  TestGpuNode.import_torch_and_models := no_torch;
  TestGpuNode.CellposeModel := TestGpuNode.Returns cpsam;
  TestGpuNode.numpy_dummy_img := TestGpuNode.Returns tt
|}.

Definition test_args (n o : string) : TestGpuNode.cmdline :=
  TestGpuNode.Options (Some n) (Some o).

Definition blank : world := World ∅ [].

(** A storage on which no file can be opened for writing, as in a
    directory the user may not write to. *)
Definition read_only : Disk := {|
  open_refused := λ path,
    Some ("PermissionError", "[Errno 13] Permission denied: '" +:+ path +:+ "'");
  write_refused := λ _ _ _, None
|}.

(** The files after the script ran on both nodes. *)
Definition tested : world :=
  let w1 := (TestGpuNode.main healthy (test_args "n1" "out/n1_result.json") blank).2 in
  let w2 := (TestGpuNode.main broken (test_args "n2" "out/n2_result.json") w1).2 in
  World (fs w2) [].

(** What [json.load] makes of the file at [path]. *)
Definition loaded (w : world) (path : string) : pyval :=
  match fs w !! path with
  | Some text =>
      match json_load text with
      | Ret v => v
      | Raise _ => VNone
      end
  | None => VNone
  end.

Definition record1 : pyval := Eval vm_compute in loaded tested "out/n1_result.json".
Definition record2 : pyval := Eval vm_compute in loaded tested "out/n2_result.json".

Definition cluster : SummarizeResults.host := {|
  SummarizeResults.now_isoformat := "2025-01-01T00:00:00";
  SummarizeResults.now_isoformat_plain := eq_refl;
  SummarizeResults.listdir := λ d,
    if String.eqb d "out" then ["notes.txt"; "n2_result.json"; "n1_result.json"] else []
|}.

Definition summarize_dir : SummarizeResults.cmdline :=
  SummarizeResults.Options (Some "out") (Some "summary.txt") None.

Definition summarize_dir_args : SummarizeResults.args := {|
  SummarizeResults.input_dir := "out";
  SummarizeResults.output := "summary.txt";
  SummarizeResults.input_files := None
|}.


(** A hand-made record that says SUCCESS and yet lists an error. *)
Definition odd_record : pyval :=
  VDict [("node", VStr "n3"); ("hostname", VStr "gpu-03");
         ("status", VStr "SUCCESS"); ("tests", VDict []);
         ("errors", VList [VStr "boom"])].

(** A hand-made record whose status is the placeholder. *)
Definition unknown_record : pyval :=
  VDict [("node", VStr "n4"); ("status", VStr "unknown")].

Definition hand_made : world :=
  World {[ "out/n3_result.json" := json_dump odd_record;
           "out/n4_result.json" := json_dump unknown_record;
           "out/n5_result.json" := "{ not json" ]} [].

Definition summarize_files (files : list string) : SummarizeResults.cmdline :=
  SummarizeResults.Options (Some "out") (Some "summary.txt") (Some files).

Definition summarize_files_args (files : list string) : SummarizeResults.args := {|
  SummarizeResults.input_dir := "out";
  SummarizeResults.output := "summary.txt";
  SummarizeResults.input_files := Some files
|}.

End Examples.

(** ** More nodes and records

    Nodes that fail one check each in a way of their own, hand-made
    records that lack a field or repeat an error, and a directory without
    result files. *)

Module Cases.
Import Py RefLib Examples.

Definition a100 : TestGpuNode.device_properties := {|
  TestGpuNode.memory_gb := FFin false 85 (-1);
  TestGpuNode.major := 8; TestGpuNode.minor := 0
|}.

(** A [torch] built without CUDA: it reports that CUDA is not available,
    and counting the devices would raise. *)
Definition torch_without_cuda : TestGpuNode.torch_module := {|
  TestGpuNode.torch_version := "2.3.0+cpu";
  TestGpuNode.torch_version_cuda := None;
  TestGpuNode.cuda_is_available := TestGpuNode.Returns false;
  TestGpuNode.cuda_device_count :=
    TestGpuNode.Fails "RuntimeError" "No CUDA GPUs are available";
  TestGpuNode.cuda_get_device_name := λ _,
    TestGpuNode.Fails "RuntimeError" "No CUDA GPUs are available";
  TestGpuNode.cuda_get_device_properties := λ _,
    TestGpuNode.Fails "RuntimeError" "No CUDA GPUs are available"
|}.

(** Two devices, the second of which does not answer for its
    properties. *)
Definition torch_flaky : TestGpuNode.torch_module := {|
  TestGpuNode.torch_version := "2.3.0";
  TestGpuNode.torch_version_cuda := Some "12.1";
  TestGpuNode.cuda_is_available := TestGpuNode.Returns true;
  TestGpuNode.cuda_device_count := TestGpuNode.Returns 2;
  TestGpuNode.cuda_get_device_name := λ i, TestGpuNode.Returns ("A100-" +:+ pretty i);
  TestGpuNode.cuda_get_device_properties := λ i,
    if Nat.eqb i 1 then TestGpuNode.Fails "RuntimeError" "CUDA error: device lost"
    else TestGpuNode.Returns a100
|}.

(** A [torch] whose query for CUDA raises. *)
Definition torch_unsure : TestGpuNode.torch_module := {|
  TestGpuNode.torch_version := "2.3.0";
  TestGpuNode.torch_version_cuda := Some "12.1";
  TestGpuNode.cuda_is_available :=
    TestGpuNode.Fails "RuntimeError" "CUDA driver initialization failed";
  TestGpuNode.cuda_device_count := TestGpuNode.Returns 0;
  TestGpuNode.cuda_get_device_name := λ i, TestGpuNode.Returns ("A100-" +:+ pretty i);
  TestGpuNode.cuda_get_device_properties := λ _, TestGpuNode.Returns a100
|}.

(** A model that ended up on the CPU. *)
Definition cpu_model : TestGpuNode.model := {|
  TestGpuNode.model_device := "cpu";
  TestGpuNode.model_device_is_cpu := true;
  TestGpuNode.model_gpu := false;
  TestGpuNode.model_net :=
    Some {| TestGpuNode.net_device := Some "cpu";
            TestGpuNode.first_param_device := TestGpuNode.Returns "cpu" |};
  TestGpuNode.model_eval :=
    TestGpuNode.Returns {| TestGpuNode.unique_count := 1; TestGpuNode.shape := "(256, 256)" |}
|}.

(** A model whose network has no parameter to look at. *)
Definition bare_net : TestGpuNode.network := {|
  TestGpuNode.net_device := Some "cuda:0";
  TestGpuNode.first_param_device := TestGpuNode.Fails "StopIteration" ""
|}.

Definition bare_model : TestGpuNode.model := {|
  TestGpuNode.model_device := "cuda:0";
  TestGpuNode.model_device_is_cpu := false;
  TestGpuNode.model_gpu := true;
  TestGpuNode.model_net := Some bare_net;
  TestGpuNode.model_eval :=
    TestGpuNode.Returns {| TestGpuNode.unique_count := 1; TestGpuNode.shape := "(256, 256)" |}
|}.

(** A model whose evaluation runs out of memory. *)
Definition greedy_model : TestGpuNode.model := {|
  TestGpuNode.model_device := "cuda:0";
  TestGpuNode.model_device_is_cpu := false;
  TestGpuNode.model_gpu := true;
  TestGpuNode.model_net := None;
  TestGpuNode.model_eval := TestGpuNode.Fails "OutOfMemoryError" "CUDA out of memory"
|}.

Definition no_version : TestGpuNode.cellpose_module :=
  {| TestGpuNode.cellpose_version := None |}.

(** A node like the healthy one but for what the four arguments say. *)
Definition node_with (t : TestGpuNode.outcome TestGpuNode.torch_module)
    (pip : TestGpuNode.outcome string)
    (tm : TestGpuNode.outcome TestGpuNode.torch_module)
    (m : TestGpuNode.outcome TestGpuNode.model) : TestGpuNode.node := {|
  TestGpuNode.hostname := "gpu-03";
  TestGpuNode.sys_executable := "/usr/bin/python3";
  TestGpuNode.sys_version := "3.11.4";
  TestGpuNode.environ := {[ "SLURM_JOB_ID" := "43" ]};
  TestGpuNode.import_torch := t;
  TestGpuNode.import_cellpose := TestGpuNode.Returns no_version;
  TestGpuNode.pip_show_cellpose := pip;
  TestGpuNode.import_torch_and_models := tm;
  TestGpuNode.CellposeModel := m;
  TestGpuNode.numpy_dummy_img := TestGpuNode.Returns tt
|}.

Definition pip_text : string :=
  "Name: cellpose" +:+ nl +:+ "Version: 4.0.1 " +:+ nl +:+ "Summary: anatomical segmentation".

Definition pip_answers : TestGpuNode.outcome string := TestGpuNode.Returns pip_text.

Definition no_cuda : TestGpuNode.node :=
  node_with (TestGpuNode.Returns torch_without_cuda) pip_answers
            (TestGpuNode.Returns torch_without_cuda) (TestGpuNode.Returns cpsam).

Definition flaky : TestGpuNode.node :=
  node_with (TestGpuNode.Returns torch_flaky) pip_answers
            (TestGpuNode.Returns torch_flaky) (TestGpuNode.Returns cpsam).

Definition no_pip : TestGpuNode.node :=
  node_with (TestGpuNode.Returns torch)
            (TestGpuNode.Fails "FileNotFoundError"
               "[Errno 2] No such file or directory: 'pip'")
            (TestGpuNode.Returns torch) (TestGpuNode.Returns cpsam).

Definition on_cpu : TestGpuNode.node :=
  node_with (TestGpuNode.Returns torch) pip_answers
            (TestGpuNode.Returns torch) (TestGpuNode.Returns cpu_model).

Definition no_params : TestGpuNode.node :=
  node_with (TestGpuNode.Returns torch) pip_answers
            (TestGpuNode.Returns torch) (TestGpuNode.Returns bare_model).

Definition unsure : TestGpuNode.node :=
  node_with (TestGpuNode.Returns torch) pip_answers
            (TestGpuNode.Returns torch_unsure) (TestGpuNode.Returns cpu_model).

Definition greedy : TestGpuNode.node :=
  node_with (TestGpuNode.Returns torch) pip_answers
            (TestGpuNode.Returns torch) (TestGpuNode.Returns greedy_model).

(** Hand-made records: one without a status, one without a node name,
    and a failure that lists the same error twice. *)
Definition statusless : pyval :=
  VDict [("node", VStr "n6"); ("hostname", VStr "gpu-06")].

Definition nameless : pyval :=
  VDict [("status", VStr "SUCCESS"); ("hostname", VStr "gpu-08")].

Definition twice : pyval :=
  VDict [("node", VStr "n7"); ("hostname", VStr "gpu-07");
         ("status", VStr "FAILED"); ("tests", VDict []);
         ("errors", VList [VStr "boom"; VStr "bang"; VStr "boom"])].

Definition drafts : world :=
  World {[ "out/n3_result.json" := json_dump odd_record;
           "out/n6_result.json" := json_dump statusless;
           "out/n7_result.json" := json_dump twice;
           "out/n8_result.json" := json_dump nameless ]} [].

(** A machine whose directories hold no result file. *)
Definition laptop : SummarizeResults.host := {|
  SummarizeResults.now_isoformat := "2025-01-02T00:00:00";
  SummarizeResults.now_isoformat_plain := eq_refl;
  SummarizeResults.listdir := λ _, ["notes.txt"; "n1_result.json.bak"]
|}.

Definition summarize_empty : SummarizeResults.cmdline :=
  SummarizeResults.Options (Some "scratch") (Some "summary.txt") None.

End Cases.

(** ** Properties of the per-node script *)

Module NodeProperties.
Import Py DataModel TestGpuNode NodeSpec NodeOutcome.

Lemma world_eta w : World (fs w) (stdout w) = w.
Proof. by destruct w. Qed.

Lemma quiet_ret {A} (a : A) (P : A → Prop) : P a → quiet (ret a) P.
Proof.
  intros HP. exists (Ret a), []. split; [|done].
  intros w. by rewrite app_nil_r, world_eta.
Qed.

Lemma quiet_bind {A B} (m : M A) (k : A → M B) (Q : A → Prop) (P : B → Prop) :
  quiet m Q → (∀ a, Q a → quiet (k a) P) → quiet (m ≫= k) P.
Proof.
  intros (r & d1 & Em & Hd1 & Hr) Hk.
  unfold mbind, M_mbind, bind. destruct r as [a|e].
  - destruct (Hk a Hr) as (r' & d2 & Ek & Hd2 & Hr').
    exists r', (d1 ++ d2). split; [|split; [by apply Forall_app|done]].
    intros w. rewrite Em, Ek. simpl. by rewrite app_assoc.
  - exists (Raise e), d1. split; [|done]. intros w. by rewrite Em.
Qed.

Lemma quiet_print {A} (s : string) (k : M A) (P : A → Prop) :
  detail s → quiet k P → quiet (print s;; k) P.
Proof.
  intros Hs Hk. apply quiet_bind with (Q := λ _, True); [|done].
  exists (Ret tt), [s]. repeat split; [by constructor].
Qed.

Lemma quiet_call {A} (o : outcome A) (P : A → Prop) :
  (∀ a, o = Returns a → P a) → quiet (call o) P.
Proof.
  intros HP. destruct o as [a|cls msg]; simpl.
  - exists (Ret a), []. split; [|auto].
    intros w. by rewrite app_nil_r, world_eta.
  - exists (Raise (LibraryError cls msg)), []. split; [|done].
    intros w. by rewrite app_nil_r, world_eta.
Qed.

Lemma quiet_lift {A} (r : res A) (P : A → Prop) :
  match r with Ret a => P a | Raise e => is_Exception e = true end →
  quiet (lift r) P.
Proof.
  intros Hr. exists r, []. split; [|done].
  intros w. by rewrite app_nil_r, world_eta.
Qed.

(** A bare [try] catches whatever its body raises. *)
Lemma quiet_try_bare {A} (body handler : M A) (P : A → Prop) :
  quiet body P → quiet handler P → quiet (try_bare body handler) P.
Proof.
  intros (r & d1 & Eb & Hd1 & Hr) (r' & d2 & Eh & Hd2 & Hr').
  unfold try_bare. destruct r as [a|e].
  - exists (Ret a), d1. split; [|done]. intros w. by rewrite Eb.
  - exists r', (d1 ++ d2). split; [|split; [by apply Forall_app|done]].
    intros w. rewrite Eb, Eh. simpl. by rewrite app_assoc.
Qed.

(** The shape of the four checks: a banner, then a body under
    [try ... except Exception] whose handler prints one detail line and
    returns.  Such a check always returns. *)
Lemma check_try {A} (banner : string) (body : M A) (handler : exn → M A)
    (P : A → Prop) :
  quiet body P →
  (∀ e, ∃ line a, detail line ∧ P a ∧ handler e = (print line;; ret a)) →
  check banner (print banner;; try_except body handler) P.
Proof.
  intros (r & d & Eb & Hd & Hr) Hh.
  unfold mbind, M_mbind, bind, print, try_except.
  destruct r as [a|e].
  - exists a, d. split; [|done]. intros w. rewrite Eb. simpl.
    by rewrite <- app_assoc.
  - destruct (Hh e) as (line & a & Hline & Ha & Eh).
    exists a, (d ++ [line]). split.
    + intros w. rewrite Eb, Hr, Eh.
      unfold mbind, M_mbind, bind, print, ret. simpl.
      by rewrite <- !app_assoc.
    + split; [|done]. apply Forall_app. split; [done|]. by constructor.
Qed.

Ltac detail_line := unfold detail; eexists; simpl; reflexivity.

Ltac step :=
  lazy beta iota zeta;
  lazymatch goal with
  | |- quiet (print _;; _) _ => apply quiet_print; [detail_line|]
  | |- quiet (call ?o ≫= _) _ =>
      apply quiet_bind with (Q := λ a, o = Returns a);
      [by apply quiet_call|intros ? ?]
  | |- quiet (ret _) _ => apply quiet_ret
  end.

Section checks.
Context {lib : Lib} {disk : Disk}.
Variable N : node.

Lemma probe_devices_spec torch range :
  quiet (probe_devices torch range) (λ ds, forallb device_shape ds = true).
Proof.
  induction range as [|i range IH]; simpl.
  - by step.
  - eapply quiet_bind with (Q := λ d, device_shape d = true).
    + unfold probe_device. do 2 step. step. by step.
    + intros d Hd. eapply quiet_bind; [apply IH|]. intros ds Hds.
      step. simpl. by rewrite Hd, Hds.
Qed.

Lemma test_pytorch_spec :
  check (nl +:+ "[TEST 1] PyTorch and CUDA availability") (test_pytorch N)
    (λ out, pytorch_shape out.1 = true ∧
            (passed_or "PyTorch error: " out ∨
             out.2 = ["CUDA not available despite GPU partition"])).
Proof.
  apply check_try.
  - do 2 step. destruct a0.
    + step. eapply quiet_bind; [apply probe_devices_spec|].
      intros ds Hds. step. simpl. split; [done|]. left. by left.
    + apply quiet_bind with (Q := λ _, True); [by apply quiet_ret|].
      intros ? _. step. step. simpl. split; [done|]. by right.
  - intros e. eexists _, _. split; [|split; [|reflexivity]].
    + detail_line.
    + split; [done|]. left. right. by exists e.
Qed.

Lemma version_of_lines_exception lines :
  match version_of_lines lines with
  | Ret _ => True
  | Raise e => is_Exception e = true
  end.
Proof.
  induction lines as [|line lines IH]; simpl; [done|].
  destruct (String.prefix _ _); [|done].
  unfold index. by destruct (_ !! _).
Qed.

Lemma test_cellpose_spec :
  check (nl +:+ "[TEST 2] Cellpose import") (test_cellpose N)
    (passed_or "Cellpose import error: ").
Proof.
  apply check_try.
  - step. apply quiet_bind with (Q := λ _, True).
    + destruct (cellpose_version a); [by step|].
      step. apply quiet_lift.
      pose proof (version_of_lines_exception (split_on (ascii_of_nat 10) a0)) as Hv.
      by destruct (version_of_lines _).
    + intros version _. step. step. by left.
  - intros e. eexists _, _. split; [|split; [|reflexivity]].
    + detail_line.
    + right. by exists e.
Qed.

Lemma test_model_loading_spec :
  check (nl +:+ "[TEST 3] CellposeSAM model loading") (test_model_loading N)
    (loaded_or_error N).
Proof.
  apply check_try.
  - step. step. step.
    apply quiet_bind with (Q := λ kvs, assoc "success" kvs = Some (VBool true)).
    { destruct (model_net a0) as [net|]; [|by step].
      apply quiet_try_bare with (P := λ kvs, assoc "success" kvs = Some (VBool true)).
      - step. step. step. by destruct (net_device net).
      - step. by destruct (net_device net). }
    intros kvs Hkvs.
    apply quiet_bind with (Q := λ _, True).
    { destruct (model_device_is_cpu a0); [|by step]. by apply quiet_call. }
    intros [] _.
    + step. step. split; [done|]. eexists. split; [done|].
      simpl. clear -Hkvs. induction kvs as [|[k v] kvs IH]; [done|].
      simpl in *. destruct (String.eqb k "success"); [done|]. auto.
    + step. step. split; [done|]. by exists kvs.
  - intros e. eexists _, _. split; [|split; [|reflexivity]].
    + detail_line.
    + by exists e.
Qed.

Lemma test_inference_spec m :
  check (nl +:+ "[TEST 4] Dummy inference") (test_inference N m)
    (passed_or "Inference error: ").
Proof.
  apply check_try.
  - apply quiet_bind with (Q := λ _, True); [by apply quiet_call|].
    intros _ _. step. step. step. step. step. by left.
  - intros e. eexists _, _. split; [|split; [|reflexivity]].
    + detail_line.
    + right. by exists e.
Qed.

Local Opaque test_pytorch test_cellpose test_model_loading test_inference.
Local Opaque repeat_str.

Lemma saved (files : gmap string string) (o text : string) :
  <[o := default "" (<[o := ""]> files !! o) +:+ text]> (<[o := ""]> files)
  = <[o := text]> files.
Proof. by rewrite lookup_insert_eq, insert_insert_eq. Qed.

Lemma errors_nil_length (errs : list string) :
  length errs = 0%nat ↔ errs = [].
Proof. by destruct errs. Qed.

(** With both options on the command line, [main] runs every check and
    prints the verdict; what is left is to save the record it made. *)
Lemma main_checks c n o w :
  opt_node c = Some n → opt_output c = Some o →
  ∃ h r printed before,
    main N c w = save o r (World (fs w) (stdout w ++ before)) ∧
    printed = before ++ [nl +:+ "Results saved to: " +:+ o] ∧
    run N n o h r printed.
Proof.
  intros Hn Ho. destruct c as [|cn co]; [done|]. cbn in Hn, Ho. subst cn co.
  remember (main N (Options (Some n) (Some o)) w) as X eqn:EX.
  unfold main, parse_args in EX.
  unfold mbind, M_mbind, bind, print, ret, raise in EX.
  cbn [fs stdout args_node args_output] in EX.
  destruct test_pytorch_spec as ([pr pe] & d1 & E1 & Hd1 & HP1).
  destruct test_cellpose_spec as ([cr ce] & d2 & E2 & Hd2 & HP2).
  destruct test_model_loading_spec as ([[m mr] me] & d3 & E3 & Hd3 & HP3).
  rewrite E1 in EX. cbn [fs stdout] in EX. rewrite E2 in EX. cbn [fs stdout] in EX.
  rewrite E3 in EX. cbn [fs stdout] in EX.
  destruct m as [m|].
  - destruct (test_inference_spec m) as ([ir ie] & d4 & E4 & Hd4 & HP4).
    rewrite E4 in EX. cbn [fs stdout] in EX.
    exists (Handed (pr, pe) (cr, ce) (Some m, mr, me) (ir, ie) d1 d2 d3
              (banner4 :: d4)).
    case_bool_decide as Hlen; cbn [fs stdout] in EX; rewrite <- !app_assoc in EX;
      lazymatch type of EX with
      | _ = match open_w o (World _ (stdout w ++ ?before)) with _ => _ end =>
          lazymatch type of EX with
          | context [json_dump (to_json ?r)] =>
              exists r, (before ++ [nl +:+ "Results saved to: " +:+ o]), before
          end
      end;
      (split; [by rewrite EX|]); (split; [reflexivity|]);
      cbn in Hlen; rewrite errors_nil_length in Hlen;
      constructor; cbn; try done.
    all: try by exists d4.
    all: try by destruct (((pe ++ ce) ++ me) ++ ie).
    all: unfold footer; repeat (rewrite <- ?app_assoc; cbn [app]; f_equal).
    all: rewrite <- ?app_assoc in Hlen; by destruct (pe ++ ce ++ me ++ ie).
  - exists (Handed (pr, pe) (cr, ce) (None, mr, me) (skipped_inference, [])
              d1 d2 d3 []).
    case_bool_decide as Hlen; cbn [fs stdout] in EX; rewrite <- !app_assoc in EX;
      lazymatch type of EX with
      | _ = match open_w o (World _ (stdout w ++ ?before)) with _ => _ end =>
          lazymatch type of EX with
          | context [json_dump (to_json ?r)] =>
              exists r, (before ++ [nl +:+ "Results saved to: " +:+ o]), before
          end
      end;
      (split; [by rewrite EX|]); (split; [reflexivity|]);
      cbn in Hlen; rewrite errors_nil_length in Hlen;
      constructor; cbn; try done.
    all: try by destruct ((pe ++ ce) ++ me).
    all: unfold footer; rewrite ?app_nil_r;
      repeat (rewrite <- ?app_assoc; cbn [app]; f_equal).
    all: rewrite <- ?app_assoc in Hlen; by destruct (pe ++ ce ++ me).
Qed.

Local Transparent test_pytorch test_cellpose test_model_loading test_inference.
Local Transparent repeat_str.

(** What saving comes to, by the answers of the storage. *)
Lemma save_refused_open o r w cls msg :
  open_refused o = Some (cls, msg) →
  save o r w = (Raise (OSError cls msg), w).
Proof.
  intros Ho. unfold save, mbind, M_mbind, bind, open_w. by rewrite Ho.
Qed.

Lemma save_refused_write o r w cls msg held :
  open_refused o = None →
  write_refused o "" (json_dump (to_json r)) = Some (cls, msg, held) →
  save o r w = (Raise (OSError cls msg), World (<[o := held]> (fs w)) (stdout w)).
Proof.
  intros Ho Hw. unfold save, mbind, M_mbind, bind, open_w, write. rewrite Ho.
  cbn [fs stdout]. rewrite lookup_insert_eq. cbn [default from_option].
  unfold id. rewrite Hw. cbn [fs stdout]. by rewrite insert_insert_eq.
Qed.

Lemma save_accepted o r w :
  accepted o (json_dump (to_json r)) →
  save o r w =
    (Raise (SystemExit (if String.eqb (status r) "SUCCESS" then 0 else 1)),
     World (<[o := json_dump (to_json r)]> (fs w))
           (stdout w ++ [nl +:+ "Results saved to: " +:+ o])).
Proof.
  intros [Ho Hw]. unfold save, mbind, M_mbind, bind, open_w, write, print, raise.
  rewrite Ho. cbn [fs stdout]. rewrite lookup_insert_eq. cbn [default from_option].
  unfold id. rewrite Hw. cbn [fs stdout]. by rewrite insert_insert_eq.
Qed.

Lemma accepted_or_refused o text :
  accepted o text ∨
  (∃ cls msg, open_refused o = Some (cls, msg)) ∨
  (open_refused o = None ∧
   ∃ cls msg held, write_refused o "" text = Some (cls, msg, held)).
Proof.
  unfold accepted. destruct (open_refused o) as [[cls msg]|].
  - right. left. by eexists _, _.
  - destruct (write_refused o "" text) as [[[cls msg] held]|].
    + right. right. split; [done|]. by eexists _, _, _.
    + by left.
Qed.

(** Saving ends in one of two ways: with the record in the file, the path
    printed and the exit code of the status; or, when the storage does not
    take the file, with the [OSError] and nothing printed. *)
Lemma save_outcome o r w :
  (accepted o (json_dump (to_json r)) ∧
   save o r w =
     (Raise (SystemExit (if String.eqb (status r) "SUCCESS" then 0 else 1)),
      World (<[o := json_dump (to_json r)]> (fs w))
            (stdout w ++ [nl +:+ "Results saved to: " +:+ o]))) ∨
  (¬ accepted o (json_dump (to_json r)) ∧
   ∃ cls msg files,
     save o r w = (Raise (OSError cls msg), World files (stdout w)) ∧
     ∀ path, path ≠ o → files !! path = fs w !! path).
Proof.
  destruct (accepted_or_refused o (json_dump (to_json r)))
    as [Hacc|[(cls & msg & Hopen)|(Hopen & cls & msg & held & Hwrite)]].
  - left. split; [done|]. by apply save_accepted.
  - right. split; [intros [Hacc _]; by rewrite Hopen in Hacc|].
    exists cls, msg, (fs w). rewrite (save_refused_open _ _ _ _ _ Hopen).
    split; [by destruct w|done].
  - right. split; [intros [_ Hacc]; by rewrite Hwrite in Hacc|].
    exists cls, msg, (<[o := held]> (fs w)).
    rewrite (save_refused_write _ _ _ _ _ _ Hopen Hwrite).
    split; [done|]. intros path Hne. by rewrite lookup_insert_ne.
Qed.

(** C2, as amended.  For every run of the per-node script that gets past
    its command line: when an error was recorded the status is FAILED and
    the exit code is 1; the exit code is 0 exactly when the status is
    SUCCESS and the storage takes the result file; when the storage takes
    the file, the file holds the record and the exit code is 1 exactly when
    the status is FAILED; and when it does not, the run ends with the
    [OSError] of [open] or of the write, uncaught, and the exit code is 1
    whatever the status is. *)
Theorem exit_code_matches_status c n o w :
  opt_node c = Some n → opt_output c = Some o →
  ∃ h r printed,
    run N n o h r printed ∧
    (errors r ≠ [] → status r = "FAILED" ∧ exit_code (main N c w).1 = 1) ∧
    (exit_code (main N c w).1 = 0 ↔
     status r = "SUCCESS" ∧ accepted o (json_dump (to_json r))) ∧
    (accepted o (json_dump (to_json r)) →
     fs (main N c w).2 !! o = Some (json_dump (to_json r)) ∧
     (exit_code (main N c w).1 = 1 ↔ status r = "FAILED")) ∧
    (¬ accepted o (json_dump (to_json r)) →
     exit_code (main N c w).1 = 1 ∧
     ∃ cls msg, (main N c w).1 = Raise (OSError cls msg)).
Proof.
  intros Hn Ho.
  destruct (main_checks c n o w Hn Ho) as (h & r & printed & before & E & _ & Hrun).
  exists h, r, printed. split; [done|]. rewrite E.
  pose proof (run_status _ _ _ _ _ _ Hrun) as Hst.
  destruct (accepted_or_refused o (json_dump (to_json r)))
    as [Hacc|[(cls & msg & Hopen)|(Hopen & cls & msg & held & Hwrite)]].
  - rewrite (save_accepted _ _ _ Hacc). cbn [fst snd fs exit_code].
    rewrite lookup_insert_eq.
    destruct (errors r) as [|e errs]; rewrite Hst; cbn.
    + split; [done|]. split; [done|]. split; [done|]. by intros [].
    + split; [done|]. split; [split; [done|by intros [? _]]|].
      split; [done|]. by intros [].
  - rewrite (save_refused_open _ _ _ _ _ Hopen). cbn [fst snd exit_code].
    assert (¬ accepted o (json_dump (to_json r))) as Hno.
    { intros [Hacc _]. by rewrite Hopen in Hacc. }
    split; [intros Hne; split; [|done]; by destruct (errors r)|].
    split; [split; [done|by intros [_ ?]]|].
    split; [done|]. intros _. split; [done|]. by eexists _, _.
  - rewrite (save_refused_write _ _ _ _ _ _ Hopen Hwrite). cbn [fst snd exit_code].
    assert (¬ accepted o (json_dump (to_json r))) as Hno.
    { intros [_ Hacc]. by rewrite Hwrite in Hacc. }
    split; [intros Hne; split; [|done]; by destruct (errors r)|].
    split; [split; [done|by intros [_ ?]]|].
    split; [done|]. intros _. split; [done|]. by eexists _, _.
Qed.

(** From here on the storage is one that accepts every file and every
    text: the properties below are about the runs that write their
    file. *)
Context {reliable : Reliable disk}.

Lemma reliable_accepted o text : accepted o text.
Proof. split; [apply opens|apply writes]. Qed.

(** With both options on the command line, [main] runs every check, saves
    the record it made, and exits with [0] or [1] after the status. *)
Lemma main_run c n o w :
  opt_node c = Some n → opt_output c = Some o →
  ∃ h r printed,
    main N c w =
      (Raise (SystemExit (if String.eqb (status r) "SUCCESS" then 0 else 1)),
       World (<[o := json_dump (to_json r)]> (fs w)) (stdout w ++ printed)) ∧
    run N n o h r printed.
Proof.
  intros Hn Ho.
  destruct (main_checks c n o w Hn Ho) as (h & r & printed & before & E & -> & Hrun).
  exists h, r, (before ++ [nl +:+ "Results saved to: " +:+ o]).
  split; [|done]. rewrite E, (save_accepted _ _ _ (reliable_accepted _ _)).
  cbn [fs stdout]. by rewrite <- app_assoc.
Qed.

(** The record of a complete run has the shape of section 3, and its
    invariant. *)
Lemma run_record_shape n o h r printed :
  run N n o h r printed → record_shape (to_json r) = true.
Proof.
  intros Hrun. unfold record_shape, to_json. cbn.
  rewrite (run_tests _ _ _ _ _ _ Hrun). unfold tests_shape. cbn.
  rewrite (proj1 (run_pytorch _ _ _ _ _ _ Hrun)), andb_true_r.
  induction (errors r) as [|e errs IH]; [done|]. by cbn.
Qed.

Lemma run_status_invariant n o h r printed :
  run N n o h r printed → status_invariant (to_json r).
Proof.
  intros Hrun. unfold status_invariant, error_strings, str_field, to_json. cbn.
  assert (∀ errs : list string,
            omap (λ e, match e with VStr s => Some s | _ => None end) (map VStr errs) = errs)
    as ->.
  { induction errs as [|e errs IH]; [done|]. cbn. by rewrite IH. }
  rewrite (run_status _ _ _ _ _ _ Hrun). destruct (errors r); [by left|by right].
Qed.

(** C1.  For every run of the per-node script that gets past its command
    line, the record it writes has the status FAILED if and only if its
    error list is not empty; with an empty error list the status is
    SUCCESS. *)
Theorem status_failed_iff_errors c n o w :
  opt_node c = Some n → opt_output c = Some o →
  ∃ h r printed,
    run N n o h r printed ∧
    fs (main N c w).2 !! o = Some (json_dump (to_json r)) ∧
    (status r = "FAILED" ↔ errors r ≠ []) ∧
    (status r = "SUCCESS" ↔ errors r = []).
Proof.
  intros Hn Ho. destruct (main_run c n o w Hn Ho) as (h & r & printed & E & Hrun).
  exists h, r, printed. rewrite E. cbn [snd fs].
  split; [done|]. split; [by rewrite lookup_insert_eq|].
  pose proof (run_status _ _ _ _ _ _ Hrun) as Hst.
  destruct (errors r); rewrite Hst; by split.
Qed.

(** C8.  Whenever [main] runs to completion, the status of the record in
    the output file is SUCCESS or FAILED; the placeholder [unknown] of the
    initial record is never written. *)
Theorem written_status_is_final c n o w :
  opt_node c = Some n → opt_output c = Some o →
  ∃ h r printed,
    run N n o h r printed ∧
    fs (main N c w).2 !! o = Some (json_dump (to_json r)) ∧
    getitem (to_json r) "status" = Ret (VStr (status r)) ∧
    (status r = "SUCCESS" ∨ status r = "FAILED") ∧
    status r ≠ "unknown".
Proof.
  intros Hn Ho. destruct (main_run c n o w Hn Ho) as (h & r & printed & E & Hrun).
  exists h, r, printed. rewrite E. cbn [snd fs].
  split; [done|]. split; [by rewrite lookup_insert_eq|]. split; [done|].
  pose proof (run_status _ _ _ _ _ _ Hrun) as Hst.
  destruct (errors r); rewrite Hst; split; auto; done.
Qed.

Lemma banner_not_detail details :
  Forall detail details → banner4 ∉ details.
Proof.
  intros Hd Hin. rewrite Forall_forall in Hd.
  destruct (Hd _ Hin) as [t Ht]. discriminate Ht.
Qed.

Lemma banner4_outside n o errs :
  (banner4 ∉ header N n) ∧ (banner4 ∉ footer o errs).
Proof.
  split; intros Hin.
  - unfold header in Hin. rewrite !elem_of_cons, elem_of_nil in Hin.
    destruct Hin as [H|[H|[H|[H|[]]]]]; discriminate H.
  - unfold footer in Hin. rewrite !elem_of_cons, elem_of_nil in Hin.
    destruct Hin as [H|[H|[H|[H|[]]]]]; try discriminate H.
    destruct errs; discriminate H.
Qed.

(** C4.  In every run of the per-node script that gets past its command
    line, the PyTorch, Cellpose and model-loading checks each run and
    return, whatever failed before them, and with the environment entry
    all five entries of [tests] are written; the inference check runs too
    when model loading handed over a model, and is skipped (its banner is
    not printed, its entry is the fixed marker) exactly when model loading
    raised. *)
Theorem every_check_runs c n o w :
  opt_node c = Some n → opt_output c = Some o →
  ∃ h r printed code,
    main N c w =
      (Raise (SystemExit code),
       World (<[o := json_dump (to_json r)]> (fs w)) (stdout w ++ printed)) ∧
    hands banner1 (details1 h) (test_pytorch N) (pytorch h) ∧
    hands banner2 (details2 h) (test_cellpose N) (cellpose h) ∧
    hands banner3 (details3 h) (test_model_loading N) (loading h) ∧
    tests r = [("environment", test_environment N);
               ("pytorch", (pytorch h).1);
               ("cellpose", (cellpose h).1);
               ("model_loading", (loading h).1.2);
               ("inference", (inference h).1)] ∧
    banner1 ∈ printed ∧ banner2 ∈ printed ∧ banner3 ∈ printed ∧
    match (loading h).1.1 with
    | Some m =>
        CellposeModel N = Returns m ∧
        (∃ kvs, (loading h).1.2 = VDict kvs ∧
                assoc "success" kvs = Some (VBool true)) ∧
        (∃ details4, hands banner4 details4 (test_inference N m) (inference h)) ∧
        banner4 ∈ printed
    | None =>
        (∃ e, (loading h).1.2 = error_entry e ∧
              (loading h).2 = ["Model loading error: " +:+ exn_str e]) ∧
        inference h = (skipped_inference, []) ∧
        banner4 ∉ printed
    end.
Proof.
  intros Hn Ho. destruct (main_run c n o w Hn Ho) as (h & r & printed & E & Hrun).
  exists h, r, printed. eexists. split; [exact E|].
  destruct Hrun as [R1 R2 R3 R4 _ _ RL (D1 & D2 & D3) _ _ RT _ _ RP].
  do 4 (split; [done|]).
  split; [rewrite RP; set_solver|].
  split; [rewrite RP; set_solver|].
  split; [rewrite RP; set_solver|].
  {
    unfold loaded_or_error in RL. destruct ((loading h).1.1) as [m|].
    + destruct R4 as (d4 & H4 & L4 & _). destruct RL as [HC Hk].
      do 2 (split; [done|]). split; [by exists d4|].
      rewrite RP, L4. clear. set_solver.
    + destruct R4 as [Hi L4]. do 2 (split; [done|]).
      rewrite RP, L4, app_nil_l.
      destruct (banner4_outside n o (errors r)) as [Hh Hf].
      repeat first [rewrite elem_of_app | rewrite elem_of_cons].
      intros [?|[H|[?|[H|[?|[H|[?|?]]]]]]]; try done; try discriminate H.
      all: eapply banner_not_detail; [|eassumption]; assumption. }
Qed.

(** C10.  When model loading raises, so that [test_model_loading] hands
    over no model, the record written still has an [inference] entry, the
    fixed value [{"error": "Model not loaded, skipping inference"}], and
    its error list ends with the string of the model-loading failure:
    nothing is appended for the skipped check. *)
Theorem skipped_inference_is_recorded c n o w w0 entry errs :
  opt_node c = Some n → opt_output c = Some o →
  (test_model_loading N w0).1 = Ret (None, entry, errs) →
  ∃ h r printed,
    run N n o h r printed ∧
    fs (main N c w).2 !! o = Some (json_dump (to_json r)) ∧
    assoc "inference" (tests r) = Some skipped_inference ∧
    (getitem (to_json r) "tests" ≫= λ t, getitem t "inference")
      = Ret (VDict [("error", VStr "Model not loaded, skipping inference")]) ∧
    errors r = (pytorch h).2 ++ (cellpose h).2 ++ errs ∧
    ∃ e, errs = ["Model loading error: " +:+ exn_str e].
Proof.
  intros Hn Ho Hload.
  destruct (main_run c n o w Hn Ho) as (h & r & printed & E & Hrun).
  exists h, r, printed. rewrite E. cbn [snd fs].
  split; [done|]. split; [by rewrite lookup_insert_eq|].
  destruct Hrun as [_ _ R3 R4 _ _ RL _ _ _ RT RE _ _].
  rewrite (R3 w0) in Hload. cbn in Hload. injection Hload as Hl.
  unfold loaded_or_error in RL. rewrite Hl in RL, R4, RE. cbn in RL, R4, RE.
  destruct R4 as [Hi _]. rewrite Hi in RT, RE. cbn in RT, RE.
  rewrite app_nil_r in RE.
  split; [by rewrite RT|]. split; [by cbn; rewrite RT|]. split; [done|].
  destruct RL as (e & _ & He). by exists e.
Qed.

End checks.

End NodeProperties.

(** ** Properties of the aggregator *)

Module SummaryProperties.
Import Py DataModel SummarizeResults SummarySpec.

Lemma append_nil_r (s : string) : s +:+ "" = s.
Proof.
  induction s as [|a s IH]; [done|].
  unfold String.append; fold String.append. by rewrite IH.
Qed.

Lemma append_assoc (s t u : string) : (s +:+ t) +:+ u = s +:+ t +:+ u.
Proof.
  induction s as [|a s IH]; [done|].
  unfold String.append; fold String.append. by rewrite IH.
Qed.

(** On a storage that takes every text, a write appends its text. *)
Section storage.
Context {disk : Disk} {reliable : Reliable disk}.

Lemma emits_write out s : emits out (write out s) tt s.
Proof. intros w cur Hcur. unfold write. by rewrite Hcur, writes. Qed.

End storage.

Lemma emits_ret {A} out (a : A) : emits out (ret a) a "".
Proof.
  intros w cur Hcur. unfold ret.
  rewrite append_nil_r, insert_id by done. by destruct w.
Qed.

Lemma emits_lift {A} out (r : res A) (a : A) : r = Ret a → emits out (lift r) a "".
Proof. intros ->. apply emits_ret. Qed.

Lemma emits_bind {A B} out (m : M A) (k : A → M B) a b t1 t2 :
  emits out m a t1 → emits out (k a) b t2 → emits out (m ≫= k) b (t1 +:+ t2).
Proof.
  intros Hm Hk w cur Hcur. unfold mbind, M_mbind, bind.
  rewrite (Hm w cur Hcur).
  rewrite (Hk _ (cur +:+ t1)) by (cbn; by rewrite lookup_insert_eq).
  cbn. by rewrite insert_insert_eq, append_assoc.
Qed.

Lemma emits_for_each {A} out (l : list A) (body : A → M unit) (text : A → string) :
  Forall (λ x, emits out (body x) tt (text x)) l →
  emits out (for_each l body) tt (String.concat "" (map text l)).
Proof.
  induction 1 as [|x l Hx Hl IH]; cbn [for_each map].
  - apply emits_ret.
  - replace (String.concat "" (text x :: map text l))
      with (text x +:+ String.concat "" (map text l)).
    + by eapply emits_bind.
    + destruct l; simpl; [by rewrite append_nil_r|done].
Qed.

Lemma for_each_map {A B} (f : A → B) (l : list A) (body : B → M unit) :
  for_each (map f l) body = for_each l (λ x, body (f x)).
Proof. induction l as [|x l IH]; [done|]. cbn. by rewrite IH. Qed.

(** The properties of the report are those of a run whose storage takes
    every text; what happens before the output file is opened holds on
    every storage. *)
Section report.
Context {lib : Lib} {disk : Disk} {reliable : Reliable disk}.
Variable H : host.

Lemma with_status_filter st (results : list pyval) :
  Forall (λ r, is_ret (getitem r "status") = true) results →
  with_status st results = Ret (filter (λ r, has_status st r = true) results).
Proof.
  induction 1 as [|r results Hr _ IH]; [done|].
  cbn [with_status]. unfold has_status in *. rewrite filter_cons.
  destruct (getitem r "status") as [s|]; [|done].
  cbn. rewrite IH. cbn. by destruct (eq_str s st).
Qed.

Lemma load_results_returns w paths results :
  Forall2 (holds (fs w)) paths results →
  load_results paths w = (Ret results, w).
Proof.
  induction 1 as [|path r paths results (text & Hf & Hl) _ IH]; [done|].
  cbn [load_results]. unfold mbind, M_mbind, bind, open_r, lift, ret.
  by rewrite Hf, Hl, IH.
Qed.

Lemma emits_eq {A} out (m : M A) a t t' :
  emits out m a t → t = t' → emits out m a t'.
Proof. by intros ? <-. Qed.

Lemma all_str (l : list pyval) :
  forallb is_str l = true → ∃ ss, l = map VStr ss.
Proof.
  induction l as [|x l IH]; [by exists []|].
  destruct x as [| | | |s| |]; try done. cbn.
  intros Hl. destruct (IH Hl) as (ss & ->). by exists (s :: ss).
Qed.

Lemma record_shape_fields r :
  record_shape r = true →
  ∃ kvs n h s ts errs,
    r = VDict kvs ∧
    assoc "node" kvs = Some (VStr n) ∧
    assoc "hostname" kvs = Some (VStr h) ∧
    assoc "status" kvs = Some (VStr s) ∧
    assoc "tests" kvs = Some (VDict ts) ∧
    assoc "errors" kvs = Some (VList (map VStr errs)) ∧
    tests_shape ts = true.
Proof.
  destruct r as [| | | | | |kvs]; try done. cbn.
  destruct (assoc "node" kvs) as [[| | | |n| |]|] eqn:Hn; try done.
  destruct (assoc "hostname" kvs) as [[| | | |h| |]|] eqn:Hh; try done.
  destruct (assoc "status" kvs) as [[| | | |s| |]|] eqn:Hs; try done.
  destruct (assoc "tests" kvs) as [[| | | | | |ts]|] eqn:Ht; try done.
  destruct (assoc "errors" kvs) as [[| | | | |errs|]|] eqn:He; try done.
  intros [Hstr Hts]%andb_prop. destruct (all_str _ Hstr) as (ss & ->).
  by exists kvs, n, h, s, ts, ss.
Qed.

Lemma omap_VStr (ss : list string) :
  omap (λ e, match e with VStr s => Some s | _ => None end) (map VStr ss) = ss.
Proof. induction ss as [|s ss IH]; cbn; [done|]. by rewrite IH. Qed.

Lemma emits_lift_bind {A B} out (r : res A) (k : A → M B) a b t :
  r = Ret a → emits out (k a) b t → emits out (lift r ≫= k) b t.
Proof. intros -> Hk. exact (emits_bind _ _ _ _ _ _ _ (emits_ret _ _) Hk). Qed.

Lemma emits_ret_bind {A B} out (k : A → M B) a b t :
  emits out (k a) b t → emits out (ret a ≫= k) b t.
Proof. intros Hk. exact (emits_bind _ _ _ _ _ _ _ (emits_ret _ _) Hk). Qed.

Lemma emits_write_bind {B} out s (k : unit → M B) b t :
  emits out (k tt) b t → emits out (write out s ≫= k) b (s +:+ t).
Proof. intros Hk. exact (emits_bind _ _ _ _ _ _ _ (emits_write _ _) Hk). Qed.

Ltac emit :=
  lazy beta iota zeta;
  lazymatch goal with
  | |- emits _ (lift _ ≫= _) _ _ => eapply emits_lift_bind; [eassumption || reflexivity|]
  | |- emits _ (ret _ ≫= _) _ _ => eapply emits_ret_bind
  | |- emits _ (write _ _ ≫= _) _ _ => eapply emits_write_bind
  | |- emits _ (write _ _) _ _ => eapply emits_write
  | |- emits _ (ret _) _ _ => eapply emits_ret
  | |- emits _ (lift _) _ _ => eapply emits_lift; (eassumption || reflexivity)
  end.

Lemma write_device_emits out dev :
  device_shape dev = true →
  emits out
    (name ← lift (getitem dev "name");
     memory_gb ← lift (getitem dev "memory_gb");
     write out ("      GPU: " +:+ py_str name +:+ " (" +:+
                py_str memory_gb +:+ "GB)" +:+ nl))
    tt (device_line dev).
Proof.
  destruct dev as [| | | | | |f]; try done. cbn.
  intros [[x Hx]%bool_decide_eq_true [y Hy]%bool_decide_eq_true]%andb_prop.
  unfold device_line, field. cbn. rewrite Hx, Hy.
  eapply emits_eq; [do 3 emit|done].
Qed.

Lemma write_success_emits out r :
  record_shape r = true →
  emits out (write_success out r) tt (success_lines r).
Proof.
  intros (kvs & n & h & s & ts & errs & -> & Hn & Hh & Hs & Ht & He & Hts)%record_shape_fields.
  unfold write_success, success_lines, devices_of, field, str_field.
  cbn [getitem]. rewrite Hn, Hh, Ht. cbn [getitem contains py_str].
  unfold tests_shape in Hts.
  destruct (assoc "pytorch" ts) as [p|] eqn:Hp.
  - destruct p as [| | | | | |pk]; try done. cbn in Hts.
    destruct (assoc "devices" pk) as [[| | | | |l|]|] eqn:Hd; try done.
    + eapply emits_eq.
      { do 4 emit. cbn [contains getitem]. rewrite Hp. emit.
        rewrite bool_decide_eq_true_2 by eauto.
        eapply emits_bind.
        { emit. cbn [contains]. rewrite Hd. emit. }
        rewrite bool_decide_eq_true_2 by eauto.
        emit. cbn [getitem]. rewrite Hd. emit. cbn [iter]. emit.
        apply emits_for_each with (text := device_line).
        clear -Hts reliable. induction l as [|d l IH]; [done|].
        cbn in Hts. apply andb_prop in Hts as [Hd Hl].
        constructor; [by apply write_device_emits|auto]. }
      cbn [getitem]. by rewrite Hd.
    + eapply emits_eq.
      { do 4 emit. cbn [contains getitem]. rewrite Hp. emit.
        rewrite bool_decide_eq_true_2 by eauto.
        eapply emits_bind.
        { emit. cbn [contains]. rewrite Hd. emit. }
        rewrite bool_decide_eq_false_2 by (by intros [? ?]). emit. }
      cbn [getitem]. by rewrite Hd.
  - eapply emits_eq.
    { do 4 emit. cbn [contains getitem]. rewrite Hp. emit.
      rewrite bool_decide_eq_false_2 by (by intros [? ?]). do 2 emit. }
    done.
Qed.

Lemma write_failure_emits out r :
  record_shape r = true →
  emits out (write_failure out r) tt (failure_lines r).
Proof.
  intros (kvs & n & h & s & ts & errs & -> & Hn & Hh & Hs & Ht & He & Hts)%record_shape_fields.
  unfold write_failure, failure_lines, error_strings, str_field.
  cbn [getitem]. rewrite Hn, Hh, He, omap_VStr. cbn [iter py_str].
  eapply emits_eq.
  { do 5 emit. eapply emits_bind; [|emit].
    apply emits_for_each with (text := λ e, error_line (py_str e)).
    apply Forall_forall. intros e _. emit. }
  rewrite map_map. reflexivity.
Qed.

Lemma cat_append_embed error node g :
  cat_append (VStr error) (VStr node) (embed g) = embed (group_append error node g).
Proof.
  unfold embed. induction g as [|[k nodes] g IH]; [done|].
  cbn. destruct (String.eqb k error); cbn.
  - by rewrite map_app.
  - by rewrite IH.
Qed.

Lemma add_errors_embed r node errs g :
  getitem r "node" = Ret (VStr node) →
  add_errors r (map VStr errs) (embed g)
  = Ret (embed (fold_left (λ g error, group_append error node g) errs g)).
Proof.
  intros Hn. revert g. induction errs as [|e errs IH]; intros g; [done|].
  cbn. rewrite Hn. cbn. by rewrite cat_append_embed, IH.
Qed.

Lemma categorize_embed failed g :
  Forall (λ r, record_shape r = true) failed →
  categorize failed (embed g) = Ret (embed (fold_left group_record failed g)).
Proof.
  intros Hf. revert g. induction Hf as [|r failed Hr _ IH]; intros g; [done|].
  apply record_shape_fields in Hr
    as (kvs & n & h & s & ts & errs & -> & Hn & Hh & Hs & Ht & He & Hts).
  cbn [categorize fold_left getitem]. rewrite He. cbn.
  rewrite (add_errors_embed _ n) by (cbn; by rewrite Hn). cbn.
  rewrite IH. unfold group_record, error_strings, str_field.
  by rewrite He, Hn, omap_VStr.
Qed.

Lemma strs_of_strings (ss : list string) : strs_of (map VStr ss) = Ret ss.
Proof. induction ss as [|s ss IH]; [done|]. cbn. by rewrite IH. Qed.

Lemma write_category_emits out eg :
  emits out (write_category out (VStr eg.1, map VStr eg.2)) tt (category_lines eg).
Proof.
  unfold write_category, category_lines, join.
  rewrite strs_of_strings, length_map. cbn.
  eapply emits_eq; [do 3 emit|done].
Qed.

Lemma summarizable_status results :
  Forall (λ r, summarizable r = true) results →
  Forall (λ r, is_ret (getitem r "status") = true) results.
Proof.
  intros Hall. eapply Forall_impl; [done|]. intros r. unfold summarizable.
  by destruct (getitem r "status").
Qed.

Lemma with_status_shape st results :
  st = "SUCCESS" ∨ st = "FAILED" →
  Forall (λ r, summarizable r = true) results →
  Forall (λ r, record_shape r = true) (with_status_of st results).
Proof.
  intros Hst Hall. apply Forall_forall. intros r [Hr Hin]%list_elem_of_filter.
  rewrite Forall_forall in Hall. specialize (Hall r Hin).
  unfold summarizable in Hall. unfold has_status in Hr.
  destruct (getitem r "status") as [s|]; [|done].
  destruct Hst as [-> | ->]; rewrite Hr in Hall; [done|].
  by rewrite orb_true_r in Hall.
Qed.

Local Opaque rule.

Lemma write_summary_emits out results :
  Forall (λ r, summarizable r = true) results →
  emits out (write_summary H out results) tt (summary_text H results).
Proof.
  intros Hall.
  pose proof (with_status_shape "SUCCESS" results (or_introl eq_refl) Hall) as Hok.
  pose proof (with_status_shape "FAILED" results (or_intror eq_refl) Hall) as Hfailed.
  pose proof (categorize_embed _ [] Hfailed) as Hcat.
  unfold write_summary, successes, failures, error_categories, summary_text.
  rewrite !with_status_filter by by apply summarizable_status.
  fold (with_status_of "SUCCESS" results) (with_status_of "FAILED" results).
  fold (group_all (with_status_of "FAILED" results)) in Hcat.
  set (ok := with_status_of "SUCCESS" results) in *.
  set (failed := with_status_of "FAILED" results) in *.
  assert (∃ t, emits out
            (match ok with
             | [] => ret tt
             | _ :: _ =>
                 write out ("SUCCESSFUL NODES:" +:+ nl);;
                 write out (rule "-");;
                 for_each ok (write_success out);;
                 write out nl
             end) tt t ∧ t = successful_section ok) as (t1 & Ht1 & Et1).
  { destruct ok as [|r ok'] eqn:Eok.
    - eexists. split; [emit|done].
    - rewrite <- Eok in *. eexists. split.
      + do 2 emit. eapply emits_bind; [|emit].
        apply emits_for_each. eapply Forall_impl; [done|].
        apply write_success_emits.
      + by rewrite Eok. }
  assert (∃ t, emits out
            (match failed with
             | [] => ret tt
             | _ :: _ =>
                 write out ("FAILED NODES:" +:+ nl);;
                 write out (rule "-");;
                 for_each failed (write_failure out)
             end) tt t ∧ t = failed_section failed) as (t2 & Ht2 & Et2).
  { destruct failed as [|r failed'] eqn:Efailed.
    - eexists. split; [emit|done].
    - rewrite <- Efailed in *. eexists. split.
      + do 2 emit.
        apply emits_for_each. eapply Forall_impl; [done|].
        apply write_failure_emits.
      + by rewrite Efailed. }
  eapply emits_eq.
  { do 9 emit. eapply emits_bind; [exact Ht1|].
    eapply emits_bind; [exact Ht2|].
    do 2 emit. change (categorize failed []) with (categorize failed (embed [])).
    emit. eapply emits_bind; [|emit].
    unfold embed. rewrite for_each_map.
    apply emits_for_each, Forall_forall. intros eg _. apply write_category_emits. }
  rewrite Et1, Et2. unfold report_head, breakdown. cbn [String.concat].
  change (λ eg : string * list string, category_lines eg) with category_lines.
  generalize (successful_section ok) (failed_section failed)
    (String.concat "" (map category_lines (group_all failed))).
  intros. by rewrite !append_assoc.
Qed.

Local Transparent rule.

Lemma main_writes c a w results :
  parse_args c = ret a →
  Forall2 (holds (fs w)) (result_files H a) results →
  Forall (λ r, summarizable r = true) results →
  main H c w =
    (Ret tt,
     World (<[output a := summary_text H results]> (fs w))
           (stdout w ++ [nl +:+ "Summary written to: " +:+ output a;
                         universal_newlines (summary_text H results)])).
Proof.
  intros Hc Hfiles Hall. unfold main. rewrite Hc.
  unfold mbind, M_mbind, bind. unfold ret at 1.
  rewrite (load_results_returns _ _ _ Hfiles).
  unfold open_w at 1. rewrite opens. cbn [fs stdout].
  rewrite (write_summary_emits (output a) results Hall _ "")
    by (cbn; by rewrite lookup_insert_eq).
  cbn [fs stdout]. rewrite insert_insert_eq.
  unfold print, read_file. cbn [fs stdout]. rewrite lookup_insert_eq.
  cbn [fs stdout]. by rewrite <- app_assoc.
Qed.

Lemma listed_group_append g e n error node :
  listed (group_append e n g) error node ↔
  listed g error node ∨ (error = e ∧ node = n).
Proof.
  unfold listed. induction g as [|[k nodes] g IH]; cbn.
  - split.
    + intros (ns & Hin & Hn). apply list_elem_of_singleton in Hin.
      injection Hin as -> ->. apply list_elem_of_singleton in Hn. auto.
    + intros [(ns & Hin & _)|[-> ->]]; [by apply elem_of_nil in Hin|].
      exists [n]. split; by apply list_elem_of_singleton.
  - destruct (String.eqb_spec k e) as [->|Hne].
    + split.
      * intros (ns & Hin & Hn). apply elem_of_cons in Hin as [Heq|Hin].
        -- injection Heq as -> ->. apply elem_of_app in Hn as [Hn|Hn].
           ++ left. exists nodes. split; [by left|done].
           ++ apply list_elem_of_singleton in Hn. auto.
        -- left. exists ns. split; [by right|done].
      * intros [(ns & Hin & Hn)|[-> ->]].
        -- apply elem_of_cons in Hin as [Heq|Hin].
           ++ injection Heq as -> ->. exists (nodes ++ [n]).
              split; [by left|]. apply elem_of_app. by left.
           ++ exists ns. split; [by right|done].
        -- exists (nodes ++ [n]). split; [by left|].
           apply elem_of_app. right. by apply list_elem_of_singleton.
    + split.
      * intros (ns & Hin & Hn). apply elem_of_cons in Hin as [Heq|Hin].
        -- injection Heq as -> ->. left. exists nodes. split; [by left|done].
        -- destruct (proj1 IH) as [(ns' & Hin' & Hn')|Heq]; [by exists ns| |by right].
           left. exists ns'. split; [by right|done].
      * intros [(ns & Hin & Hn)|Heq].
        -- apply elem_of_cons in Hin as [Heq|Hin].
           ++ injection Heq as -> ->. exists nodes. split; [by left|done].
           ++ destruct (proj2 IH) as (ns' & Hin' & Hn'); [left; by exists ns|].
              exists ns'. split; [by right|done].
        -- destruct (proj2 IH) as (ns' & Hin' & Hn'); [by right|].
           exists ns'. split; [by right|done].
Qed.

Lemma group_append_keys g e n :
  NoDup g.*1 → NoDup (group_append e n g).*1 ∧
  ∀ k, k ∈ (group_append e n g).*1 ↔ k ∈ g.*1 ∨ k = e.
Proof.
  induction g as [|[k nodes] g IH]; cbn.
  - intros _. split; [apply NoDup_singleton|]. intros k. set_solver.
  - intros [Hk Hg]%NoDup_cons. destruct (IH Hg) as [IH1 IH2].
    destruct (String.eqb_spec k e) as [->|Hne]; cbn.
    + split; [by apply NoDup_cons|]. intros k. set_solver.
    + split.
      * apply NoDup_cons. split; [|done]. rewrite IH2. intros [?|?]; done.
      * intros k'. rewrite !elem_of_cons, IH2. tauto.
Qed.

Lemma group_record_listed g r error node :
  listed (group_record g r) error node ↔
  listed g error node ∨ (str_field "node" r = node ∧ error ∈ error_strings r).
Proof.
  unfold group_record. generalize (error_strings r) as errs. intros errs.
  revert g. induction errs as [|e errs IH]; intros g; cbn.
  - split; [auto|]. intros [?|[_ Hin]]; [done|]. by apply elem_of_nil in Hin.
  - rewrite IH, listed_group_append, elem_of_cons. split.
    + intros [[?|[-> ->]]|[? ?]]; auto.
    + intros [?|[<- [->|?]]]; auto.
Qed.

Lemma group_all_listed failed error node :
  listed (group_all failed) error node ↔
  ∃ r, r ∈ failed ∧ str_field "node" r = node ∧ error ∈ error_strings r.
Proof.
  unfold group_all.
  assert (∀ g, listed (fold_left group_record failed g) error node ↔
               listed g error node ∨
               ∃ r, r ∈ failed ∧ str_field "node" r = node ∧ error ∈ error_strings r) as Hgen.
  { induction failed as [|r failed IH]; intros g; cbn.
    - split; [auto|]. intros [?|(r & Hin & _)]; [done|]. by apply elem_of_nil in Hin.
    - rewrite IH, group_record_listed. split.
      + intros [[?|[? ?]]|(r' & ? & ? & ?)]; auto.
        * right. exists r. split; [by left|done].
        * right. exists r'. split; [by right|done].
      + intros [?|(r' & [->|?]%elem_of_cons & ? & ?)]; auto.
        right. by exists r'. }
  rewrite Hgen. split; [|auto]. intros [(ns & Hin & _)|?]; [|done].
  by apply elem_of_nil in Hin.
Qed.

Lemma group_all_keys failed : NoDup (group_all failed).*1.
Proof.
  unfold group_all.
  assert (∀ g, NoDup g.*1 → NoDup (fold_left group_record failed g).*1) as Hgen.
  { induction failed as [|r failed IH]; intros g Hg; [done|].
    cbn. apply IH. unfold group_record.
    generalize (error_strings r) as errs. intros errs. revert g Hg.
    induction errs as [|e errs IHe]; intros g Hg; [done|].
    cbn. apply IHe. by apply group_append_keys. }
  apply Hgen. constructor.
Qed.

Lemma shape_summarizable r : record_shape r = true → summarizable r = true.
Proof.
  intros Hr. unfold summarizable. rewrite Hr.
  apply record_shape_fields in Hr
    as (kvs & n & h & s & ts & errs & -> & Hn & Hh & Hs & Ht & He & Hts).
  cbn. rewrite Hs. by destruct (_ || _).
Qed.

Lemma has_status_field st r :
  record_shape r = true →
  has_status st r = true ↔ str_field "status" r = st.
Proof.
  intros (kvs & n & h & s & ts & errs & -> & Hn & Hh & Hs & Ht & He & Hts)%record_shape_fields.
  unfold has_status, str_field. cbn. rewrite Hs. cbn.
  by destruct (String.eqb_spec s st).
Qed.

Lemma count_with_status st results :
  Forall (λ r, record_shape r = true) results →
  length (with_status_of st results) = count_status st results.
Proof.
  unfold with_status_of, count_status.
  induction 1 as [|r results Hr _ IH]; [done|].
  rewrite !filter_cons. pose proof (has_status_field st r Hr) as Hiff.
  destruct (decide (has_status st r = true)), (decide (str_field "status" r = st));
    cbn; try congruence; tauto.
Qed.

Lemma load_results_raises w paths bad text e :
  bad ∈ paths → fs w !! bad = Some text → json_load text = Raise e →
  ∃ e', load_results paths w = (Raise e', w).
Proof.
  intros Hin Hbad He. induction paths as [|path paths IH]; [by apply elem_of_nil in Hin|].
  cbn [load_results]. unfold mbind, M_mbind, bind, open_r, lift, ret.
  destruct (fs w !! path) as [t|] eqn:Ht; [|by eexists].
  destruct (json_load t) as [r|e1] eqn:Hl; [|by eexists].
  apply elem_of_cons in Hin as [->|Hin]; [congruence|].
  destruct (IH Hin) as (e' & ->). by eexists.
Qed.

Lemma load_results_first_failure w pre bad post text e :
  Forall (λ path, ∃ r, holds (fs w) path r) pre →
  fs w !! bad = Some text → json_load text = Raise e →
  load_results (pre ++ bad :: post) w = (Raise e, w).
Proof.
  intros Hpre Hbad He. induction Hpre as [|path pre (r & t & Ht & Hl) _ IH]; cbn [app load_results].
  - unfold mbind, M_mbind, bind, open_r, lift. by rewrite Hbad, He.
  - unfold mbind, M_mbind, bind, open_r, lift, ret in *. by rewrite Ht, Hl, IH.
Qed.

Lemma elem_of_glob_results dir path :
  path ∈ glob_results H dir ↔
  ∃ name, name ∈ listdir H dir ∧ ends_with "_result.json" name = true ∧
          path = path_join dir name.
Proof.
  unfold glob_results. rewrite merge_sort_Permutation, list_elem_of_fmap.
  split.
  - intros (name & -> & [Hs%Is_true_true Hin]%list_elem_of_filter).
    by exists name.
  - intros (name & Hin & Hs%Is_true_true & ->). exists name. split; [done|].
    by apply list_elem_of_filter.
Qed.

Lemma has_status_disjoint r :
  has_status "SUCCESS" r = true → has_status "FAILED" r = true → False.
Proof.
  unfold has_status. destruct (getitem r "status") as [[| | | |t| |]|]; try done.
  cbn. by destruct (String.eqb_spec t "SUCCESS") as [->|?].
Qed.

Lemma counts_le results :
  (length (with_status_of "SUCCESS" results) +
   length (with_status_of "FAILED" results) ≤ length results)%nat.
Proof.
  unfold with_status_of. induction results as [|x results IH]; [done|].
  rewrite !filter_cons. repeat case_decide; cbn; try lia.
  by destruct (has_status_disjoint x).
Qed.

Lemma counts_lt results r :
  r ∈ results →
  has_status "SUCCESS" r = false → has_status "FAILED" r = false →
  (length (with_status_of "SUCCESS" results) +
   length (with_status_of "FAILED" results) < length results)%nat.
Proof.
  intros Hin H1 H2. induction results as [|x results IH]; [by apply elem_of_nil in Hin|].
  unfold with_status_of in *. rewrite !filter_cons.
  apply elem_of_cons in Hin as [<-|Hin].
  - rewrite !decide_False by congruence. pose proof (counts_le results).
    unfold with_status_of in *. cbn. lia.
  - specialize (IH Hin). repeat case_decide; cbn; try lia.
    by destruct (has_status_disjoint x).
Qed.

Lemma well_formed_shape v :
  record_shape v = true ∨ written_by_script v → record_shape v = true.
Proof.
  intros [?|(N & n & o & h & r & printed & Hrun & ->)]; [done|].
  by eapply NodeProperties.run_record_shape.
Qed.

Lemma stores_holds files paths results :
  Forall2 (stores files) paths results → Forall2 (holds files) paths results.
Proof.
  intros Hst. eapply Forall2_impl; [done|].
  intros path r [Hf Hl]. by exists (json_dump r).
Qed.

(** C6.  Round trip: when the input files hold the JSON text of
    well-formed result records (of the shape of section 3, written by hand
    or by the per-node script) and that text reads back as the records,
    the summary run completes and its report starts with the head whose
    SUCCESS count is the number of records with status SUCCESS and whose
    FAILED count is the number with status FAILED. *)
Theorem round_trip_counts c a w results :
  parse_args c = ret a →
  Forall (λ r, record_shape r = true ∨ written_by_script r) results →
  Forall2 (stores (fs w)) (result_files H a) results →
  ∃ sections,
    (main H c w).1 = Ret tt ∧
    fs (main H c w).2 !! output a =
      Some (report_head H (length results)
                        (count_status "SUCCESS" results)
                        (count_status "FAILED" results) +:+ sections).
Proof.
  intros Hc Hwf Hfiles.
  assert (Forall (λ r, record_shape r = true) results) as Hshape.
  { eapply Forall_impl; [done|]. apply well_formed_shape. }
  rewrite (main_writes c a w results Hc).
  - cbn [fst snd fs]. rewrite lookup_insert_eq. unfold summary_text.
    rewrite !count_with_status by done. cbn [String.concat].
    eexists. split; [done|]. reflexivity.
  - by apply stores_holds.
  - eapply Forall_impl; [done|]. apply shape_summarizable.
Qed.

(** The breakdown lists the records with the status FAILED: a node name
    is under an error string exactly when such a record has that name and
    that string in its error list. *)
Lemma breakdown_lists_failed_records c a w results :
  parse_args c = ret a →
  Forall (λ r, record_shape r = true) results →
  Forall2 (holds (fs w)) (result_files H a) results →
  ∃ before g,
    fs (main H c w).2 !! output a = Some (before +:+ breakdown g) ∧
    NoDup g.*1 ∧
    ∀ error node,
      listed g error node ↔
      ∃ r, r ∈ results ∧ str_field "status" r = "FAILED" ∧
           str_field "node" r = node ∧ error ∈ error_strings r.
Proof.
  intros Hc Hshape Hfiles.
  rewrite (main_writes c a w results Hc Hfiles)
    by (eapply Forall_impl; [done|]; apply shape_summarizable).
  cbn [snd fs]. rewrite lookup_insert_eq.
  eexists _, (group_all (with_status_of "FAILED" results)).
  split; [|split; [apply group_all_keys|]].
  - unfold summary_text. cbn [String.concat]. by rewrite <- !append_assoc.
  - intros error node. rewrite group_all_listed. unfold with_status_of.
    rewrite Forall_forall in Hshape. split.
    + intros (r & [Hst Hin]%list_elem_of_filter & Hn & He).
      exists r. by rewrite <- has_status_field by auto.
    + intros (r & Hin & Hst & Hn & He). exists r. split; [|done].
      apply list_elem_of_filter. by rewrite has_status_field by auto.
Qed.

(** C3.  For input records of the shape of section 3 that keep its
    invariant (the status is FAILED exactly when the error list is not
    empty), the summary run completes and its report ends with the
    breakdown of a list of groups, one per error string, in which a node
    name is listed under an error string exactly when some input record has
    that node name and that error string in its error list. *)
Theorem breakdown_groups_failed_nodes c a w results :
  parse_args c = ret a →
  Forall (λ r, record_shape r = true) results →
  Forall status_invariant results →
  Forall2 (holds (fs w)) (result_files H a) results →
  ∃ before g,
    (main H c w).1 = Ret tt ∧
    fs (main H c w).2 !! output a = Some (before +:+ breakdown g) ∧
    NoDup g.*1 ∧
    ∀ error node,
      listed g error node ↔
      ∃ r, r ∈ results ∧ str_field "node" r = node ∧ error ∈ error_strings r.
Proof.
  intros Hc Hshape Hinv Hfiles.
  destruct (breakdown_lists_failed_records c a w results Hc Hshape Hfiles)
    as (before & g & Hfile & Hdup & Hlisted).
  exists before, g. split.
  { rewrite (main_writes c a w results Hc Hfiles); [done|].
    eapply Forall_impl; [exact Hshape|]. apply shape_summarizable. }
  split; [done|]. split; [done|].
  intros error node. rewrite Hlisted. split.
  - intros (r & Hin & _ & Hn & He). by exists r.
  - intros (r & Hin & Hn & He). exists r. split; [done|]. split; [|done].
    rewrite Forall_forall in Hinv.
    destruct (Hinv r Hin) as [[Hnil _]|[_ Hst]]; [|done].
    rewrite Hnil in He. by apply elem_of_nil in He.
Qed.

(** C9.  An input record whose status is neither SUCCESS nor FAILED is
    counted in the total of the report, is in neither the list of
    successes nor the list of failures from which the two sections are
    written, and makes the two counts of the report sum to less than its
    total. *)
Theorem other_status_counted_not_listed c a w results r s :
  parse_args c = ret a →
  Forall (λ r, summarizable r = true) results →
  Forall2 (holds (fs w)) (result_files H a) results →
  r ∈ results →
  getitem r "status" = Ret s → eq_str s "SUCCESS" = false → eq_str s "FAILED" = false →
  ∃ ok failed,
    successes results = Ret ok ∧ failures results = Ret failed ∧
    fs (main H c w).2 !! output a =
      Some (String.concat ""
              [report_head H (length results) (length ok) (length failed);
               successful_section ok;
               failed_section failed;
               breakdown (group_all failed)]) ∧
    (r ∉ ok) ∧ (r ∉ failed) ∧
    (length ok + length failed < length results)%nat.
Proof.
  intros Hc Hall Hfiles Hin Hs Hok Hfailed.
  exists (with_status_of "SUCCESS" results), (with_status_of "FAILED" results).
  unfold successes, failures.
  rewrite !with_status_filter by by apply summarizable_status.
  do 2 (split; [done|]).
  rewrite (main_writes c a w results Hc Hfiles Hall).
  cbn [snd fs]. rewrite lookup_insert_eq. split; [done|].
  assert (has_status "SUCCESS" r = false) as Hr1 by (unfold has_status; by rewrite Hs).
  assert (has_status "FAILED" r = false) as Hr2 by (unfold has_status; by rewrite Hs).
  unfold with_status_of.
  split; [rewrite list_elem_of_filter; intros [? _]; congruence|].
  split; [rewrite list_elem_of_filter; intros [? _]; congruence|].
  by apply (counts_lt results r).
Qed.

(** C7.  When one of the input files holds text that [json.load] rejects,
    the summary run ends with an exception before the output file is
    opened: no file is written or changed and nothing is printed.  The
    exception is the one of that file when the files before it load. *)
Theorem malformed_input_aborts c a w bad text e :
  parse_args c = ret a →
  bad ∈ result_files H a →
  fs w !! bad = Some text → json_load text = Raise e →
  (∃ e', main H c w = (Raise e', w)) ∧
  ∀ before after,
    result_files H a = before ++ bad :: after →
    Forall (λ path, ∃ r, holds (fs w) path r) before →
    main H c w = (Raise e, w).
Proof.
  intros Hc Hin Hbad He. unfold main. rewrite Hc.
  unfold mbind, M_mbind, bind. change (ret a w) with (Ret a, w).
  lazy beta iota. split.
  - destruct (load_results_raises w _ bad text e Hin Hbad He) as (e' & ->).
    by exists e'.
  - intros before after -> Hbefore.
    by rewrite (load_results_first_failure w before bad after text e).
Qed.

End report.

Section selection.
Context {lib : Lib} {disk : Disk}.
Variable H : host.

Lemma parse_args_ret c a :
  parse_args c = ret a →
  c = Options (Some (input_dir a)) (Some (output a)) (input_files a) ∧
  input_files a ≠ Some [].
Proof.
  intros Hc.
  assert (parse_args c (World ∅ []) = (Ret a, World ∅ [])) as Ha by by rewrite Hc.
  destruct c as [|[d|] [o|] [[|f files]|]]; try done; by injection Ha as <-.
Qed.


End selection.


End SummaryProperties.

(** ** Facts about strings *)

Module TextFacts.
Import Py.

Lemma prefix_append (p s : string) :
  String.prefix p s = true ↔ ∃ rest, s = p +:+ rest.
Proof.
  revert s. induction p as [|a p IH]; intros s.
  - split; [by exists s|by destruct s].
  - destruct s as [|b s]; cbn; [split; [done|by intros [? ?]]|].
    destruct (ascii_dec a b) as [->|Hne].
    + rewrite IH. split; intros [rest Hr]; exists rest.
      * by rewrite Hr.
      * unfold String.append in Hr; fold String.append in Hr. by injection Hr.
    + split; [done|]. intros [rest Hr].
      unfold String.append in Hr; fold String.append in Hr. by injection Hr.
Qed.

Lemma rev_app_app s t : String.rev_app s t = String.rev s +:+ t.
Proof.
  unfold String.rev. revert t. induction s as [|a s IH]; intros t; cbn; [done|].
  rewrite IH, (IH (String a "")). by rewrite SummaryProperties.append_assoc.
Qed.

Lemma rev_append s t : String.rev (s +:+ t) = String.rev t +:+ String.rev s.
Proof.
  induction s as [|a s IH].
  - cbn. by rewrite SummaryProperties.append_nil_r.
  - unfold String.append; fold String.append. unfold String.rev at 1 3. cbn.
    rewrite !rev_app_app, IH. by rewrite SummaryProperties.append_assoc.
Qed.

Lemma rev_rev s : String.rev (String.rev s) = s.
Proof.
  induction s as [|a s IH]; [done|].
  change (String.rev (String a s)) with (String.rev_app s (String a "")).
  by rewrite rev_app_app, rev_append, IH.
Qed.

End TextFacts.

(** ** The per-node script, check by check *)

Module NodeCases.
Import Py DataModel TestGpuNode NodeSpec NodeOutcome NodeProperties.

Ltac run_check :=
  unfold mbind, M_mbind, bind, try_except, try_bare, call, print, ret, raise, lift;
  cbn [fs stdout is_Exception fst snd].

(** What a check does is independent of the storage.  The properties of
    the written record are those of a run whose storage takes the file;
    the exit code and the console are described on every storage. *)
Section cases.
Context {lib : Lib} {disk : Disk} {reliable : Reliable disk}.
Variable N : node.

Lemma probe_devices_all t range names props w :
  (∀ i, i ∈ range →
        cuda_get_device_name t i = Returns (names i) ∧
        cuda_get_device_properties t i = Returns (props i)) →
  probe_devices t range w =
    (Ret (map (λ i, device_info i (names i) (props i)) range),
     World (fs w) (stdout w ++ map (λ i, gpu_line i (names i) (props i)) range)).
Proof.
  revert w. induction range as [|i range IH]; intros w Hall.
  - cbn. by rewrite app_nil_r, world_eta.
  - destruct (Hall i) as [Hn Hp]; [by left|].
    cbn [probe_devices map]. unfold probe_device. run_check.
    rewrite Hn, Hp. run_check. rewrite IH by (intros j Hj; apply Hall; by right).
    cbn [fs stdout]. by rewrite <- app_assoc.
Qed.

Lemma probe_devices_stops t pre k post names props cls msg w :
  (∀ i, i ∈ pre →
        cuda_get_device_name t i = Returns (names i) ∧
        cuda_get_device_properties t i = Returns (props i)) →
  cuda_get_device_name t k = Fails cls msg ∨
  (returns (cuda_get_device_name t k) = true ∧
   cuda_get_device_properties t k = Fails cls msg) →
  probe_devices t (pre ++ k :: post) w =
    (Raise (LibraryError cls msg),
     World (fs w) (stdout w ++ map (λ i, gpu_line i (names i) (props i)) pre)).
Proof.
  revert w. induction pre as [|i pre IH]; intros w Hall Hk.
  - cbn [app probe_devices map]. unfold probe_device. run_check.
    destruct Hk as [Hn|[Hn Hp]].
    + rewrite Hn. run_check. by rewrite app_nil_r, world_eta.
    + destruct (cuda_get_device_name t k); [|done]. rewrite Hp. run_check.
      by rewrite app_nil_r, world_eta.
  - destruct (Hall i) as [Hn Hp]; [by left|].
    cbn [app probe_devices map]. unfold probe_device. run_check.
    rewrite Hn, Hp. run_check.
    rewrite IH by first [done | intros j Hj; apply Hall; by right].
    cbn [fs stdout]. by rewrite <- app_assoc.
Qed.

Lemma probe_devices_outcome t range w :
  (forallb (device_answers t) range = true ∧
   ∃ ds w', probe_devices t range w = (Ret ds, w')) ∨
  (forallb (device_answers t) range = false ∧
   ∃ cls msg w', probe_devices t range w = (Raise (LibraryError cls msg), w')).
Proof.
  revert w. induction range as [|i range IH]; intros w.
  - left. split; [done|]. by eexists _, _.
  - cbn [probe_devices forallb]. unfold probe_device, device_answers. run_check.
    destruct (cuda_get_device_name t i) as [nm|cls msg]; cbn [returns andb].
    2: { right. split; [done|]. by eexists _, _, _. }
    destruct (cuda_get_device_properties t i) as [pr|cls msg]; cbn [returns andb].
    2: { right. split; [done|]. by eexists _, _, _. }
    run_check.
    match goal with |- context [probe_devices t range ?w1] =>
      destruct (IH w1) as [[Hall (ds & w' & ->)]|[Hall (cls & msg & w' & ->)]]
    end.
    + left. split; [done|]. by eexists _, _.
    + right. split; [done|]. by eexists _, _, _.
Qed.

Lemma hands_eq {A} banner lines (m : M A) (a a' : A) w w' :
  hands banner lines m a → m w = (Ret a', w') →
  a = a' ∧ w' = World (fs w) (stdout w ++ banner :: lines).
Proof. intros Hm E. rewrite (Hm w) in E. by injection E as -> <-. Qed.

Lemma test_pytorch_passes_iff w out w' :
  test_pytorch N w = (Ret out, w') → (out.2 = [] ↔ pytorch_passes N = true).
Proof.
  unfold test_pytorch, pytorch_passes. run_check.
  destruct (import_torch N) as [t|cls msg]; run_check.
  2: { intros [= <- <-]. by split. }
  destruct (cuda_is_available t) as [[|]|cls msg]; run_check.
  2, 3: intros [= <- <-]; by split.
  destruct (cuda_device_count t) as [k|cls msg]; run_check.
  2: { intros [= <- <-]. by split. }
  match goal with |- context [probe_devices t ?range ?w1] =>
    destruct (probe_devices_outcome t range w1)
      as [[Hall (ds & w2 & ->)]|[Hall (cls & msg & w2 & ->)]]
  end; run_check; intros [= <- <-]; rewrite Hall; by split.
Qed.

(** The version line of [pip show] always splits in two at its colon, so
    reading the part after it never raises. *)
Lemma version_of_lines_total lines : ∃ v, version_of_lines lines = Ret v.
Proof.
  induction lines as [|line lines IH]; cbn [version_of_lines]; [by eexists|].
  destruct (String.prefix "Version:" line) eqn:Hp; [|done].
  apply TextFacts.prefix_append in Hp as [rest ->]. by eexists.
Qed.

Lemma version_of_lines_first pre rest post :
  Forall (λ line, String.prefix "Version:" line = false) pre →
  version_of_lines (pre ++ ("Version:" +:+ rest) :: post) = Ret (strip rest).
Proof.
  induction 1 as [|line pre Hline _ IH]; cbn [app version_of_lines].
  - by rewrite (proj2 (TextFacts.prefix_append "Version:" _)) by by eexists.
  - by rewrite Hline.
Qed.

Lemma version_of_lines_unknown lines :
  Forall (λ line, String.prefix "Version:" line = false) lines →
  version_of_lines lines = Ret "unknown".
Proof.
  induction 1 as [|line lines Hline _ IH]; cbn [version_of_lines]; [done|].
  by rewrite Hline.
Qed.

Lemma test_cellpose_passes_iff w out w' :
  test_cellpose N w = (Ret out, w') → (out.2 = [] ↔ cellpose_passes N = true).
Proof.
  unfold test_cellpose, cellpose_passes. run_check.
  destruct (import_cellpose N) as [cp|cls msg]; run_check.
  2: { intros [= <- <-]. by split. }
  destruct (cellpose_version cp) as [v|]; run_check.
  { intros [= <- <-]. by split. }
  destruct (pip_show_cellpose N) as [text|cls msg]; run_check.
  2: { intros [= <- <-]. by split. }
  destruct (version_of_lines_total (split_on (ascii_of_nat 10) text)) as [v ->].
  run_check. intros [= <- <-]. by split.
Qed.

Lemma test_model_loading_passes_iff w out w' :
  test_model_loading N w = (Ret out, w') → (out.2 = [] ↔ loading_passes N = true).
Proof.
  unfold test_model_loading, loading_passes. run_check.
  destruct (import_torch_and_models N) as [t|cls msg]; run_check.
  2: { intros [= <- <-]. by split. }
  destruct (CellposeModel N) as [m|cls msg]; run_check.
  2: { intros [= <- <-]. by split. }
  destruct (model_net m) as [net|]; run_check.
  - destruct (first_param_device net) as [d|cls msg]; run_check;
      destruct (model_device_is_cpu m); run_check;
      try (intros [= <- <-]; by split);
      destruct (cuda_is_available t) as [[|]|cls' msg']; run_check;
      intros [= <- <-]; by split.
  - destruct (model_device_is_cpu m); run_check;
      try (intros [= <- <-]; by split);
      destruct (cuda_is_available t) as [[|]|cls' msg']; run_check;
      intros [= <- <-]; by split.
Qed.

Lemma test_inference_passes_iff m w out w' :
  test_inference N m w = (Ret out, w') →
  (out.2 = [] ↔ returns (numpy_dummy_img N) && returns (model_eval m) = true).
Proof.
  unfold test_inference. run_check.
  destruct (numpy_dummy_img N) as [[]|cls msg]; run_check.
  2: { intros [= <- <-]. by split. }
  destruct (model_eval m) as [ms|cls msg]; run_check;
    intros [= <- <-]; by split.
Qed.

Lemma app_nil_4 (a b c d : list string) :
  a ++ b ++ c ++ d = [] ↔ a = [] ∧ b = [] ∧ c = [] ∧ d = [].
Proof.
  split.
  - intros (-> & (-> & (-> & ->)%app_eq_nil)%app_eq_nil)%app_eq_nil. done.
  - by intros (-> & -> & -> & ->).
Qed.

(** The record of a run has no error exactly on a healthy node. *)
Lemma errors_nil_iff_healthy n o h r printed :
  run N n o h r printed → (errors r = [] ↔ healthy_node N = true).
Proof.
  intros [R1 R2 R3 R4 _ _ RL _ _ _ _ RE RS _].
  pose proof (test_pytorch_passes_iff (World ∅ []) _ _ (R1 _)) as H1.
  pose proof (test_cellpose_passes_iff (World ∅ []) _ _ (R2 _)) as H2.
  pose proof (test_model_loading_passes_iff (World ∅ []) _ _ (R3 _)) as H3.
  rewrite RE, app_nil_4, H1, H2, H3. unfold healthy_node.
  rewrite !andb_true_iff.
  assert (loading_passes N = true →
          ((inference h).2 = [] ↔ inference_passes N = true)) as H4.
  { intros HL. unfold loaded_or_error in RL.
    destruct ((loading h).1.1) as [m|].
    - destruct R4 as (d4 & R4 & _). destruct RL as [HC _].
      rewrite (test_inference_passes_iff m (World ∅ []) _ _ (R4 _)).
      unfold inference_passes. by rewrite HC.
    - destruct RL as (e & _ & He). apply H3 in HL. by rewrite He in HL. }
  tauto.
Qed.

(** X1.  On every storage, the record says SUCCESS exactly for a node on
    which every probe of every check answers, CUDA is available, and the
    model is not on the CPU while CUDA is available; the exit code is [0]
    exactly when the node is such a one and the storage takes the result
    file, and [1] exactly when it is not, or the storage does not take the
    file. *)
Theorem exit_zero_iff_healthy c n o w :
  opt_node c = Some n → opt_output c = Some o →
  ∃ h r printed,
    run N n o h r printed ∧
    (status r = "SUCCESS" ↔ healthy_node N = true) ∧
    (exit_code (main N c w).1 = 0 ↔
     healthy_node N = true ∧ accepted o (json_dump (to_json r))) ∧
    (exit_code (main N c w).1 = 1 ↔
     healthy_node N = false ∨ ¬ accepted o (json_dump (to_json r))).
Proof.
  intros Hn Ho.
  destruct (main_checks N c n o w Hn Ho) as (h & r & printed & before & E & _ & Hrun).
  exists h, r, printed. split; [done|]. rewrite E.
  pose proof (errors_nil_iff_healthy _ _ _ _ _ Hrun) as Hiff.
  pose proof (run_status _ _ _ _ _ _ Hrun) as RS.
  assert (status r = "SUCCESS" ↔ healthy_node N = true) as Hst.
  { rewrite <- Hiff, RS. by destruct (errors r). }
  split; [done|].
  destruct (save_outcome o r (World (fs w) (stdout w ++ before)))
    as [[Hacc ->]|(Hno & cls & msg & files & -> & _)]; cbn [fst exit_code].
  - destruct (String.eqb_spec (status r) "SUCCESS") as [Hs|Hs].
    + split; [split; [by intros _; split; [apply Hst|]|done]|].
      split; [done|]. apply Hst in Hs. rewrite Hs. by intros [|].
    + split; [split; [done|]; intros [Hh _]; by apply Hst in Hh|].
      split; [intros _|done]. left. destruct (healthy_node N); [|done].
      destruct Hs. by apply Hst.
  - split; [split; [done|by intros [_ ?]]|]. split; [by right|done].
Qed.

(** *** The PyTorch check, case by case *)

Lemma test_pytorch_no_cuda t w :
  import_torch N = Returns t → cuda_is_available t = Returns false →
  test_pytorch N w =
    (Ret (VDict (pytorch_fields t false 0), ["CUDA not available despite GPU partition"]),
     World (fs w) (stdout w ++ [banner1; "  ✗ CUDA not available!"])).
Proof.
  intros Ht Ha. unfold test_pytorch. run_check. rewrite Ht. run_check.
  rewrite Ha. run_check. by rewrite <- app_assoc.
Qed.

(** X3.  Without CUDA the node fails, whatever the other checks find: the
    record says FAILED, its first error is the fixed message, the PyTorch
    entry reports no device and has no [devices] key, and the exit code is
    [1].  [torch.cuda.device_count] is not consulted. *)
Theorem no_cuda_fails_the_node c n o w t :
  opt_node c = Some n → opt_output c = Some o →
  import_torch N = Returns t → cuda_is_available t = Returns false →
  ∃ r rest,
    fs (main N c w).2 !! o = Some (json_dump (to_json r)) ∧
    exit_code (main N c w).1 = 1 ∧
    status r = "FAILED" ∧
    errors r = "CUDA not available despite GPU partition" :: rest ∧
    assoc "pytorch" (tests r) =
      Some (VDict [("version", VStr (torch_version t));
                   ("cuda_compiled_version", opt_str (torch_version_cuda t));
                   ("cuda_available", VBool false);
                   ("device_count", VInt 0)]).
Proof.
  intros Hn Ho Ht Ha.
  destruct (main_run N c n o w Hn Ho) as (h & r & printed & E & Hrun).
  rewrite E. cbn [fst snd fs exit_code].
  destruct Hrun as [R1 _ _ _ _ _ _ _ _ _ RT RE RS _].
  destruct (hands_eq _ _ _ _ _ w _ R1 (test_pytorch_no_cuda t w Ht Ha)) as [H1 _].
  rewrite H1 in RE, RT. cbn in RE. rewrite RE in RS.
  exists r. eexists. split; [by rewrite lookup_insert_eq|].
  rewrite RS. split; [done|]. split; [done|]. split; [exact RE|].
  by rewrite RT.
Qed.

(** X4.  When CUDA is available and every device answers, the [devices] list
    has one entry per device, in the order of their indices, one line is
    printed per device, and the check records no error. *)
Theorem devices_are_listed_in_order t count names props w :
  import_torch N = Returns t →
  cuda_is_available t = Returns true →
  cuda_device_count t = Returns count →
  (∀ i, (i < Z.to_nat count)%nat →
        cuda_get_device_name t i = Returns (names i) ∧
        cuda_get_device_properties t i = Returns (props i)) →
  test_pytorch N w =
    (Ret (VDict [("version", VStr (torch_version t));
                 ("cuda_compiled_version", opt_str (torch_version_cuda t));
                 ("cuda_available", VBool true);
                 ("device_count", VInt count);
                 ("devices",
                  VList (map (λ i, device_info i (names i) (props i))
                             (seq 0 (Z.to_nat count))))],
          []),
     World (fs w)
           (stdout w ++ banner1 ::
              map (λ i, gpu_line i (names i) (props i)) (seq 0 (Z.to_nat count)))).
Proof.
  intros Ht Ha Hc Hall. unfold test_pytorch. run_check. rewrite Ht. run_check.
  rewrite Ha. run_check. rewrite Hc. run_check.
  rewrite (probe_devices_all t _ names props).
  - run_check. by rewrite <- app_assoc.
  - intros i Hi%elem_of_seq. apply Hall. lia.
Qed.

(** X5.  When a probe of device [k] raises, the entries of the devices before
    it are dropped with the rest of the result: the check hands over the
    error entry and one error, while the lines already printed for these
    devices stay. *)
Theorem failed_probe_drops_devices t count k names props cls msg w :
  import_torch N = Returns t →
  cuda_is_available t = Returns true →
  cuda_device_count t = Returns count →
  (k < Z.to_nat count)%nat →
  (∀ i, (i < k)%nat →
        cuda_get_device_name t i = Returns (names i) ∧
        cuda_get_device_properties t i = Returns (props i)) →
  cuda_get_device_name t k = Fails cls msg ∨
  (returns (cuda_get_device_name t k) = true ∧
   cuda_get_device_properties t k = Fails cls msg) →
  test_pytorch N w =
    (Ret (VDict [("error", VStr msg);
                 ("traceback", VStr (format_exc (LibraryError cls msg)))],
          ["PyTorch error: " +:+ msg]),
     World (fs w)
           (stdout w ++ banner1 ::
              map (λ i, gpu_line i (names i) (props i)) (seq 0 k) ++
              ["  ✗ PyTorch test failed: " +:+ msg])).
Proof.
  intros Ht Ha Hc Hk Hall Hfail. unfold test_pytorch. run_check. rewrite Ht. run_check.
  rewrite Ha. run_check. rewrite Hc. run_check.
  replace (seq 0 (Z.to_nat count))
    with (seq 0 k ++ k :: seq (S k) (Z.to_nat count - S k)).
  - rewrite (probe_devices_stops t _ k _ names props cls msg); [| |done].
    + run_check. by rewrite <- !app_assoc.
    + intros i Hi%elem_of_seq. apply Hall. lia.
  - change (k :: seq (S k) (Z.to_nat count - S k))
      with (seq (0 + k) (S (Z.to_nat count - S k))).
    rewrite <- seq_app. f_equal. lia.
Qed.

(** *** The Cellpose check *)

(** X6.  Without [cellpose.__version__] the version comes from [pip show]:
    the stripped text after the colon of the first line that starts with
    [Version:], or [unknown] when there is no such line.  Whatever [pip]
    prints, reading it never raises and the check records no error. *)
Theorem version_is_read_from_pip cp text w :
  import_cellpose N = Returns cp → cellpose_version cp = None →
  pip_show_cellpose N = Returns text →
  ∃ version,
    test_cellpose N w =
      (Ret (VDict [("version", VStr version); ("imported", VBool true)], []),
       World (fs w) (stdout w ++ [banner2; "  ✓ Cellpose version: " +:+ version])) ∧
    (∀ pre rest post,
       split_on (ascii_of_nat 10) text = pre ++ ("Version:" +:+ rest) :: post →
       Forall (λ line, String.prefix "Version:" line = false) pre →
       version = strip rest) ∧
    (Forall (λ line, String.prefix "Version:" line = false)
            (split_on (ascii_of_nat 10) text) →
     version = "unknown").
Proof.
  intros Hcp Hv Hpip.
  destruct (version_of_lines_total (split_on (ascii_of_nat 10) text)) as [v Hlines].
  exists v. split; [|split].
  - unfold test_cellpose. run_check. rewrite Hcp. run_check. rewrite Hv, Hpip.
    run_check. rewrite Hlines. run_check. by rewrite <- app_assoc.
  - intros pre rest post Hsplit Hpre.
    rewrite Hsplit, (version_of_lines_first pre rest post Hpre) in Hlines.
    by injection Hlines.
  - intros Hall. rewrite (version_of_lines_unknown _ Hall) in Hlines.
    by injection Hlines.
Qed.

(** X7.  When [pip] itself fails (it is missing, or runs out of time), the
    check reports a Cellpose import error although the import succeeded,
    and the node fails. *)
Theorem pip_failure_fails_the_node c n o w cp cls msg :
  opt_node c = Some n → opt_output c = Some o →
  import_cellpose N = Returns cp → cellpose_version cp = None →
  pip_show_cellpose N = Fails cls msg →
  ∃ r,
    fs (main N c w).2 !! o = Some (json_dump (to_json r)) ∧
    exit_code (main N c w).1 = 1 ∧
    status r = "FAILED" ∧
    ("Cellpose import error: " +:+ msg) ∈ errors r ∧
    assoc "cellpose" (tests r) =
      Some (VDict [("error", VStr msg);
                   ("traceback", VStr (format_exc (LibraryError cls msg)))]).
Proof.
  intros Hn Ho Hcp Hv Hpip.
  destruct (main_run N c n o w Hn Ho) as (h & r & printed & E & Hrun).
  rewrite E. cbn [fst snd fs exit_code].
  destruct Hrun as [_ R2 _ _ _ _ _ _ _ _ RT RE RS _].
  assert (test_cellpose N w =
            (Ret (error_entry (LibraryError cls msg), ["Cellpose import error: " +:+ msg]),
             World (fs w) (stdout w ++ [banner2; "  ✗ Cellpose import failed: " +:+ msg])))
    as Hc.
  { unfold test_cellpose. run_check. rewrite Hcp. run_check. rewrite Hv, Hpip.
    run_check. by rewrite <- app_assoc. }
  destruct (hands_eq _ _ _ _ _ w _ R2 Hc) as [H2 _].
  rewrite H2 in RE, RT. cbn in RE.
  assert (("Cellpose import error: " +:+ msg) ∈ errors r) as Hin.
  { rewrite RE. set_solver. }
  exists r. split; [by rewrite lookup_insert_eq|].
  rewrite RS. destruct (errors r) as [|e errs]; [by apply elem_of_nil in Hin|].
  do 3 (split; [done|]). by rewrite RT.
Qed.

(** *** The model-loading check *)

Lemma test_model_loading_on_cpu t m w :
  import_torch_and_models N = Returns t → CellposeModel N = Returns m →
  model_device_is_cpu m = true → cuda_is_available t = Returns true →
  ∃ kvs lines,
    test_model_loading N w =
      (Ret (Some m, VDict kvs, [cpu_warning]),
       World (fs w) (stdout w ++ banner3 :: lines)) ∧
    assoc "success" kvs = Some (VBool true) ∧
    assoc "warning" kvs = Some (VStr cpu_warning).
Proof.
  intros Ht Hm Hcpu Ha. unfold test_model_loading. run_check.
  rewrite Ht. run_check. rewrite Hm. run_check.
  destruct (model_net m) as [net|]; run_check.
  - destruct (first_param_device net) as [d|cls msg]; run_check;
      rewrite Hcpu, Ha; run_check; rewrite <- !app_assoc;
      eexists _, _; (split; [reflexivity|]); by destruct (net_device net).
  - rewrite Hcpu, Ha. run_check. rewrite <- !app_assoc.
    eexists _, _. split; [reflexivity|]. done.
Qed.

(** X8.  A model that sits on the CPU while CUDA is available fails the node,
    yet it is handed over: the entry of model loading says [success] and
    carries the warning, the warning is one of the errors, and the
    inference check runs. *)
Theorem cpu_model_fails_but_infers c n o w t m :
  opt_node c = Some n → opt_output c = Some o →
  import_torch_and_models N = Returns t → CellposeModel N = Returns m →
  model_device_is_cpu m = true → cuda_is_available t = Returns true →
  ∃ r printed kvs,
    main N c w =
      (Raise (SystemExit 1),
       World (<[o := json_dump (to_json r)]> (fs w)) (stdout w ++ printed)) ∧
    status r = "FAILED" ∧
    "Model loaded on CPU despite CUDA being available!" ∈ errors r ∧
    assoc "model_loading" (tests r) = Some (VDict kvs) ∧
    assoc "success" kvs = Some (VBool true) ∧
    assoc "warning" kvs = Some (VStr "Model loaded on CPU despite CUDA being available!") ∧
    banner4 ∈ printed.
Proof.
  intros Hn Ho Ht Hm Hcpu Ha.
  destruct (main_run N c n o w Hn Ho) as (h & r & printed & E & Hrun).
  destruct Hrun as [_ _ R3 R4 _ _ _ _ _ _ RT RE RS RP].
  destruct (test_model_loading_on_cpu t m w Ht Hm Hcpu Ha)
    as (kvs & lines & Hl & Hs & Hw).
  destruct (hands_eq _ _ _ _ _ w _ R3 Hl) as [H3 _].
  rewrite H3 in RE, RT, R4. cbn in RE, R4.
  assert (cpu_warning ∈ errors r) as Hin by (rewrite RE; set_solver).
  exists r, printed, kvs. rewrite E.
  assert (status r = "FAILED") as Hst.
  { rewrite RS. destruct (errors r); [by apply elem_of_nil in Hin|done]. }
  rewrite Hst. do 3 (split; [done|]). split; [by rewrite RT|].
  do 2 (split; [done|]). destruct R4 as (d4 & _ & L4 & _).
  rewrite RP, L4. clear. set_solver.
Qed.

(** X9.  A failure while the device of the first parameter is read (the bare
    [except]) leaves no trace but the missing [parameter_device] key: the
    model is handed over and no error is recorded. *)
Theorem parameter_probe_failure_is_swallowed t m net cls msg w :
  import_torch_and_models N = Returns t → CellposeModel N = Returns m →
  model_net m = Some net → first_param_device net = Fails cls msg →
  model_device_is_cpu m = false →
  test_model_loading N w =
    (Ret (Some m,
          VDict ([("success", VBool true);
                  ("device", VStr (model_device m));
                  ("gpu_flag", VBool (model_gpu m))] ++
                 match net_device net with
                 | Some d => [("network_device", VStr d)]
                 | None => []
                 end),
          []),
     World (fs w)
           (stdout w ++
              [banner3;
               "  Loading CellposeModel with GPU=True, pretrained_model='cpsam'...";
               "  ✓ Model successfully loaded on: " +:+ model_device m])).
Proof.
  intros Ht Hm Hnet Hp Hcpu. unfold test_model_loading. run_check.
  rewrite Ht. run_check. rewrite Hm. run_check. rewrite Hnet. run_check.
  rewrite Hp. run_check. rewrite Hcpu. run_check. rewrite <- !app_assoc.
  by destruct (net_device net).
Qed.

(** X10.  When the model loaded on the CPU and the query for CUDA then raises,
    the model that was built is dropped with the result: the entry is the
    error entry of that exception and inference is skipped. *)
Theorem late_failure_drops_the_model c n o w t m cls msg :
  opt_node c = Some n → opt_output c = Some o →
  import_torch_and_models N = Returns t → CellposeModel N = Returns m →
  model_device_is_cpu m = true → cuda_is_available t = Fails cls msg →
  ∃ r printed,
    main N c w =
      (Raise (SystemExit 1),
       World (<[o := json_dump (to_json r)]> (fs w)) (stdout w ++ printed)) ∧
    assoc "model_loading" (tests r) =
      Some (VDict [("error", VStr msg);
                   ("traceback", VStr (format_exc (LibraryError cls msg)))]) ∧
    assoc "inference" (tests r) = Some skipped_inference ∧
    ("Model loading error: " +:+ msg) ∈ errors r ∧
    banner4 ∉ printed.
Proof.
  intros Hn Ho Ht Hm Hcpu Ha.
  destruct (main_run N c n o w Hn Ho) as (h' & r' & printed' & E' & Hrun).
  destruct Hrun as [_ _ R3 R4 _ _ _ (D1 & D2 & D3) _ _ RT RE RS RP].
  assert (∃ lines,
            test_model_loading N w =
              (Ret (None, error_entry (LibraryError cls msg),
                    ["Model loading error: " +:+ msg]),
               World (fs w) (stdout w ++ banner3 :: lines))) as [lines Hl].
  { unfold test_model_loading. run_check.
    rewrite Ht. run_check. rewrite Hm. run_check.
    destruct (model_net m) as [net|]; run_check.
    - destruct (first_param_device net) as [d|cls' msg']; run_check;
        rewrite Hcpu, Ha; run_check; rewrite <- !app_assoc; by eexists.
    - rewrite Hcpu, Ha. run_check. rewrite <- !app_assoc. by eexists. }
  destruct (hands_eq _ _ _ _ _ w _ R3 Hl) as [H3 _].
  rewrite H3 in RE, RT, R4. cbn in RE, R4, RT. destruct R4 as [Hi L4].
  rewrite Hi in RT, RE. cbn in RT, RE.
  assert (("Model loading error: " +:+ msg) ∈ errors r') as Hin by (rewrite RE; set_solver).
  exists r', printed'. rewrite E'.
  assert (status r' = "FAILED") as Hst.
  { rewrite RS. destruct (errors r'); [by apply elem_of_nil in Hin|done]. }
  rewrite Hst. split; [done|]. split; [by rewrite RT|]. split; [by rewrite RT|].
  split; [done|].
  rewrite RP, L4, app_nil_l.
  destruct (banner4_outside N n o (errors r')) as [Hh Hf].
  repeat first [rewrite elem_of_app | rewrite elem_of_cons].
  intros [?|[H|[?|[H|[?|[H|[?|?]]]]]]]; try done; try discriminate H.
  all: eapply banner_not_detail; [|eassumption]; assumption.
Qed.

(** *** The error list *)

Lemma test_model_loading_errors w out w' :
  test_model_loading N w = (Ret out, w') →
  out.2 = [] ∨ out.2 = [cpu_warning] ∨
  ∃ msg, out.2 = ["Model loading error: " +:+ msg].
Proof.
  unfold test_model_loading. run_check.
  destruct (import_torch_and_models N) as [t|cls msg]; run_check.
  2: { intros [= <- <-]. right. right. by eexists. }
  destruct (CellposeModel N) as [m|cls msg]; run_check.
  2: { intros [= <- <-]. right. right. by eexists. }
  destruct (model_net m) as [net|]; run_check.
  - destruct (first_param_device net) as [d|cls msg]; run_check;
      destruct (model_device_is_cpu m); run_check;
      try (intros [= <- <-]; by left);
      destruct (cuda_is_available t) as [[|]|cls' msg']; run_check;
      intros [= <- <-]; first [by left | by right; left | right; right; by eexists].
  - destruct (model_device_is_cpu m); run_check;
      try (intros [= <- <-]; by left);
      destruct (cuda_is_available t) as [[|]|cls' msg']; run_check;
      intros [= <- <-]; first [by left | by right; left | right; right; by eexists].
Qed.

Ltac distinct :=
  repeat (apply NoDup_cons; split;
          [rewrite ?elem_of_cons, elem_of_nil;
           let H := fresh in
           intros H; repeat (destruct H as [H|H]); first [discriminate H | exact H]|]);
  apply NoDup_nil_2.

Lemma one_error_per_check (e1 e2 e3 e4 : list string) :
  (e1 = [] ∨ e1 = ["CUDA not available despite GPU partition"] ∨
   ∃ msg, e1 = ["PyTorch error: " +:+ msg]) →
  (e2 = [] ∨ ∃ msg, e2 = ["Cellpose import error: " +:+ msg]) →
  (e3 = [] ∨ e3 = [cpu_warning] ∨ ∃ msg, e3 = ["Model loading error: " +:+ msg]) →
  (e4 = [] ∨ ∃ msg, e4 = ["Inference error: " +:+ msg]) →
  NoDup (e1 ++ e2 ++ e3 ++ e4) ∧ (length (e1 ++ e2 ++ e3 ++ e4) ≤ 4)%nat.
Proof.
  intros [->|[->|[m1 ->]]] [->|[m2 ->]] [->|[->|[m3 ->]]] [->|[m4 ->]];
    (split; [cbn [app]; distinct|cbn; lia]).
Qed.

(** X2.  Every check adds at most one string to the error list, in the order
    of the checks, and each string names its check: the list of a written
    record has at most four entries, and no string twice. *)
Theorem errors_one_per_check c n o w :
  opt_node c = Some n → opt_output c = Some o →
  ∃ r e1 e2 e3 e4,
    fs (main N c w).2 !! o = Some (json_dump (to_json r)) ∧
    errors r = e1 ++ e2 ++ e3 ++ e4 ∧
    (e1 = [] ∨ e1 = ["CUDA not available despite GPU partition"] ∨
     ∃ msg, e1 = ["PyTorch error: " +:+ msg]) ∧
    (e2 = [] ∨ ∃ msg, e2 = ["Cellpose import error: " +:+ msg]) ∧
    (e3 = [] ∨ e3 = ["Model loaded on CPU despite CUDA being available!"] ∨
     ∃ msg, e3 = ["Model loading error: " +:+ msg]) ∧
    (e4 = [] ∨ ∃ msg, e4 = ["Inference error: " +:+ msg]) ∧
    NoDup (errors r) ∧ (length (errors r) ≤ 4)%nat.
Proof.
  intros Hn Ho.
  destruct (main_run N c n o w Hn Ho) as (h & r & printed & E & Hrun).
  rewrite E. cbn [snd fs].
  destruct Hrun as [_ _ R3 R4 [_ P1] P2 RL _ _ _ _ RE _ _].
  assert ((pytorch h).2 = [] ∨
          (pytorch h).2 = ["CUDA not available despite GPU partition"] ∨
          ∃ msg, (pytorch h).2 = ["PyTorch error: " +:+ msg]) as H1.
  { destruct P1 as [[?|(e & He)]|?]; auto. right. right. exists (exn_str e).
    by rewrite He. }
  assert ((cellpose h).2 = [] ∨
          ∃ msg, (cellpose h).2 = ["Cellpose import error: " +:+ msg]) as H2.
  { destruct P2 as [?|(e & He)]; auto. right. exists (exn_str e). by rewrite He. }
  pose proof (test_model_loading_errors w _ _ (R3 w)) as H3.
  assert ((inference h).2 = [] ∨
          ∃ msg, (inference h).2 = ["Inference error: " +:+ msg]) as H4.
  { destruct ((loading h).1.1) as [m|].
    - destruct R4 as (d4 & _ & _ & _ & [?|(e & He)]); auto.
      right. exists (exn_str e). by rewrite He.
    - destruct R4 as [-> _]. by left. }
  exists r, (pytorch h).2, (cellpose h).2, (loading h).2, (inference h).2.
  split; [by rewrite lookup_insert_eq|]. do 5 (split; [done|]).
  rewrite RE. by apply one_error_per_check.
Qed.

(** *** The verdict *)

Lemma verdict_not_before n h :
  Forall detail (details1 h) → Forall detail (details2 h) →
  Forall detail (details3 h) →
  (lines4 h = [] ∨ ∃ d4, lines4 h = banner4 :: d4 ∧ Forall detail d4) →
  ∀ line,
    line ∈ header N n ++ banner1 :: details1 h ++ banner2 :: details2 h ++
           banner3 :: details3 h ++ lines4 h →
    line ≠ "ALL TESTS PASSED ✓" ∧ ∀ k, line ≠ "TESTS FAILED: " +:+ k.
Proof.
  intros D1 D2 D3 D4 line Hin.
  assert (∀ ds, Forall detail ds → line ∈ ds →
                line ≠ "ALL TESTS PASSED ✓" ∧ ∀ k, line ≠ "TESTS FAILED: " +:+ k) as Hd.
  { intros ds Hds Hl. rewrite Forall_forall in Hds.
    destruct (Hds _ Hl) as [t ->]. split; [done|]. intros k Hk. discriminate Hk. }
  unfold header in Hin.
  repeat first [rewrite elem_of_app in Hin | rewrite elem_of_cons in Hin].
  destruct Hin as [[->|[->|[->|[->|Hin]]]]|[->|[?|[->|[?|[->|[?|Hin]]]]]]]; eauto.
  all: try by (split; [done|]; intros k Hk; discriminate Hk).
  destruct D4 as [E4|(d4 & E4 & D4)]; rewrite E4 in Hin.
  - by apply elem_of_nil in Hin.
  - apply elem_of_cons in Hin as [->|Hin]; eauto.
Qed.

(** X12.  On every storage, the calls of [print] of a run end with a
    rule, the verdict and a rule, followed by the path of the file exactly
    when the storage takes the file; the verdict is [ALL TESTS PASSED]
    exactly when the record says SUCCESS, and otherwise gives the number of
    errors of the record; the exit code is [0] exactly when the verdict is
    [ALL TESTS PASSED] and the storage takes the file; and no call of
    [print] before them prints a verdict as its whole text. *)
Theorem console_verdict_matches_status c n o w :
  opt_node c = Some n → opt_output c = Some o →
  ∃ h r printed before saved,
    run N n o h r printed ∧
    stdout (main N c w).2 =
      stdout w ++ before ++
        [nl +:+ repeat_str "=" 60; verdict (errors r); repeat_str "=" 60] ++
        saved ∧
    (accepted o (json_dump (to_json r)) →
     saved = [nl +:+ "Results saved to: " +:+ o]) ∧
    (¬ accepted o (json_dump (to_json r)) → saved = []) ∧
    (verdict (errors r) = "ALL TESTS PASSED ✓" ↔ status r = "SUCCESS") ∧
    (verdict (errors r) =
       "TESTS FAILED: " +:+ pretty (length (errors r)) +:+ " error(s)" ↔
     status r = "FAILED") ∧
    (exit_code (main N c w).1 = 0 ↔
     verdict (errors r) = "ALL TESTS PASSED ✓" ∧
     accepted o (json_dump (to_json r))) ∧
    (∀ entry, entry ∈ before →
              entry ≠ "ALL TESTS PASSED ✓" ∧ ∀ k, entry ≠ "TESTS FAILED: " +:+ k).
Proof.
  intros Hn Ho.
  destruct (main_checks N c n o w Hn Ho)
    as (h & r & printed & before & E & Hprinted & Hrun).
  pose proof Hrun as [_ _ _ R4 _ _ _ (D1 & D2 & D3) _ _ _ _ RS RP].
  set (checks := header N n ++ banner1 :: details1 h ++ banner2 :: details2 h ++
                 banner3 :: details3 h ++ lines4 h) in *.
  assert (before =
            checks ++ [nl +:+ repeat_str "=" 60; verdict (errors r);
                       repeat_str "=" 60]) as Hbefore.
  { rewrite Hprinted in RP. unfold footer in RP.
    apply (app_inj_tail before _ (nl +:+ "Results saved to: " +:+ o)
                        (nl +:+ "Results saved to: " +:+ o)).
    rewrite RP. unfold checks, verdict.
    repeat (rewrite <- ?app_assoc; cbn [app]; f_equal). }
  assert (∃ saved,
            stdout (main N c w).2 = stdout w ++ before ++ saved ∧
            (accepted o (json_dump (to_json r)) →
             saved = [nl +:+ "Results saved to: " +:+ o]) ∧
            (¬ accepted o (json_dump (to_json r)) → saved = []) ∧
            (exit_code (main N c w).1 = 0 ↔
             status r = "SUCCESS" ∧ accepted o (json_dump (to_json r))))
    as (saved & Hout & Hyes & Hno & Hexit).
  { rewrite E.
    destruct (save_outcome o r (World (fs w) (stdout w ++ before)))
      as [[Hacc ->]|(Hrefused & cls & msg & files & -> & _)];
      cbn [fst snd stdout exit_code].
    - exists [nl +:+ "Results saved to: " +:+ o].
      split; [by rewrite <- app_assoc|]. split; [done|]. split; [done|].
      destruct (String.eqb_spec (status r) "SUCCESS"); by intuition.
    - exists []. split; [by rewrite app_nil_r|]. split; [done|]. split; [done|].
      by intuition. }
  exists h, r, printed, checks, saved. split; [done|].
  split; [by rewrite Hout, Hbefore, <- !app_assoc|].
  split; [done|]. split; [done|].
  assert (verdict (errors r) = "ALL TESTS PASSED ✓" ↔ status r = "SUCCESS") as Hv.
  { rewrite RS. destruct (errors r); cbn; by split. }
  split; [done|]. split.
  { rewrite RS. destruct (errors r); cbn; by split. }
  split; [by rewrite Hexit, Hv|].
  apply verdict_not_before; try done.
  destruct ((loading h).1.1).
  - destruct R4 as (d4 & _ & L4 & D4 & _). right. by exists d4.
  - destruct R4 as [_ L4]. by left.
Qed.

(** *** The inference check and the environment *)

(** X11.  When the model was handed over and inference then fails, in [numpy]
    or in [model.eval], the failure is the last error of the record, the
    entry of inference is its error entry, and the entry of model loading
    is the one handed over with the model. *)
Theorem inference_failure_is_recorded c n o w w0 m entry errs cls msg :
  opt_node c = Some n → opt_output c = Some o →
  (test_model_loading N w0).1 = Ret (Some m, entry, errs) →
  numpy_dummy_img N = Fails cls msg ∨
  (returns (numpy_dummy_img N) = true ∧ model_eval m = Fails cls msg) →
  ∃ r before,
    fs (main N c w).2 !! o = Some (json_dump (to_json r)) ∧
    exit_code (main N c w).1 = 1 ∧
    status r = "FAILED" ∧
    errors r = before ++ errs ++ ["Inference error: " +:+ msg] ∧
    assoc "model_loading" (tests r) = Some entry ∧
    assoc "inference" (tests r) =
      Some (VDict [("error", VStr msg);
                   ("traceback", VStr (format_exc (LibraryError cls msg)))]).
Proof.
  intros Hn Ho Hload Hfail.
  destruct (main_run N c n o w Hn Ho) as (h & r & printed & E & Hrun).
  rewrite E. cbn [fst snd fs exit_code].
  destruct Hrun as [_ _ R3 R4 _ _ _ _ _ _ RT RE RS _].
  rewrite (R3 w0) in Hload. cbn in Hload. injection Hload as Hl.
  rewrite Hl in R4, RE, RT. cbn in R4, RE, RT.
  destruct R4 as (d4 & R4 & _).
  assert (∃ lines,
            test_inference N m w =
              (Ret (error_entry (LibraryError cls msg), ["Inference error: " +:+ msg]),
               World (fs w) (stdout w ++ banner4 :: lines))) as [lines Hi].
  { unfold test_inference. run_check. destruct Hfail as [Hnp|[Hnp He]].
    - rewrite Hnp. run_check. rewrite <- !app_assoc. by eexists.
    - destruct (numpy_dummy_img N) as [[]|]; [|done]. run_check. rewrite He.
      run_check. rewrite <- !app_assoc. by eexists. }
  destruct (hands_eq _ _ _ _ _ w _ R4 Hi) as [H4 _].
  rewrite H4 in RE, RT. cbn in RE, RT.
  exists r, ((pytorch h).2 ++ (cellpose h).2).
  split; [by rewrite lookup_insert_eq|].
  assert (errors r ≠ []) as Hne.
  { rewrite RE. intros (_ & _ & _ & [=])%app_nil_4. }
  rewrite RS. destruct (errors r) as [|e0 errs0]; [done|].
  do 2 (split; [done|]). split; [by rewrite RE, <- !app_assoc|].
  by rewrite RT.
Qed.

(** X14.  The environment entry is written in every run, before any check: its
    three SLURM and CUDA fields hold the value of the environment
    variable, or [N/A] when the variable is not set. *)
Theorem environment_defaults_to_na c n o w :
  opt_node c = Some n → opt_output c = Some o →
  ∃ r env,
    fs (main N c w).2 !! o = Some (json_dump (to_json r)) ∧
    assoc "environment" (tests r) = Some (VDict env) ∧
    env.*1 = ["python_executable"; "python_version"; "slurm_job_id";
              "slurm_nodelist"; "cuda_visible_devices"] ∧
    ∀ key var,
      (key, var) ∈ [("slurm_job_id", "SLURM_JOB_ID");
                    ("slurm_nodelist", "SLURM_NODELIST");
                    ("cuda_visible_devices", "CUDA_VISIBLE_DEVICES")] →
      assoc key env =
        Some (VStr match environ N !! var with
                   | Some value => value
                   | None => "N/A"
                   end).
Proof.
  intros Hn Ho.
  destruct (main_run N c n o w Hn Ho) as (h & r & printed & E & Hrun).
  rewrite E. cbn [snd fs]. eexists r, _.
  split; [by rewrite lookup_insert_eq|].
  rewrite (run_tests _ _ _ _ _ _ Hrun). split; [reflexivity|]. split; [done|].
  intros key var Hin. unfold environ_get.
  rewrite !elem_of_cons, elem_of_nil in Hin.
  destruct Hin as [[= -> ->]|[[= -> ->]|[[= -> ->]|[]]]];
    by destruct (environ N !! _).
Qed.

End cases.
End NodeCases.

(** ** The aggregator on inputs of any kind *)

Module ReportCases.
Import Py DataModel SummarizeResults SummarySpec ReportDetail SummaryProperties.

Lemma safe_getitem v k : safe (getitem v k).
Proof. destruct v; cbn; try done. by destruct (assoc k kvs). Qed.

Lemma safe_contains k v : safe (contains k v).
Proof. by destruct v. Qed.

Lemma safe_iter v : safe (iter v).
Proof. by destruct v. Qed.

Lemma safe_strs_of l : safe (strs_of l).
Proof.
  induction l as [|x l IH]; [done|]. destruct x; cbn; try done.
  by destruct (strs_of l).
Qed.

Lemma safe_join sep l : safe (join sep l).
Proof. unfold join. pose proof (safe_strs_of l). by destruct (strs_of l). Qed.




Lemma confined_ret {A} out (a : A) : confined out (ret a).
Proof. intros w Hw. exists (Ret a), (fs w). by destruct w. Qed.

Lemma confined_lift {A} out (r : res A) : safe r → confined out (lift r).
Proof. intros Hr w Hw. exists r, (fs w). by destruct w. Qed.

Lemma confined_bind {A B} out (m : M A) (k : A → M B) :
  confined out m → (∀ a, confined out (k a)) → confined out (m ≫= k).
Proof.
  intros Hm Hk w Hw. unfold mbind, M_mbind, bind.
  destruct (Hm w Hw) as (r & files & -> & Hout & Hrest & Hr). destruct r as [a|e].
  - destruct (Hk a (World files (stdout w)) Hout)
      as (r' & files' & -> & Hout' & Hrest' & Hr').
    exists r', files'. do 2 (split; [done|]). split; [|done].
    intros path Hpath. by rewrite Hrest', Hrest.
  - by exists (Raise e), files.
Qed.

Lemma confined_for_each {A} out (l : list A) (body : A → M unit) :
  (∀ x, confined out (body x)) → confined out (for_each l body).
Proof.
  intros Hb. induction l as [|x l IH]; cbn [for_each].
  - apply confined_ret.
  - by apply confined_bind.
Qed.

Section storage.
Context {disk : Disk}.

Lemma confined_write out s : confined out (write out s).
Proof.
  intros w Hw. unfold write.
  destruct (write_refused out (default "" (fs w !! out)) s) as [[[cls msg] held]|].
  - exists (Raise (OSError cls msg)), (<[out := held]> (fs w)).
    split; [done|]. split; [by rewrite lookup_insert_eq|]. split; [|done].
    intros path Hpath. by rewrite lookup_insert_ne.
  - exists (Ret tt), (<[out := default "" (fs w !! out) +:+ s]> (fs w)).
    split; [done|]. split; [by rewrite lookup_insert_eq|]. split; [|done].
    intros path Hpath. by rewrite lookup_insert_ne.
Qed.

(** On a storage that takes every text, a write appends its text. *)
Context {reliable : Reliable disk}.




End storage.



Ltac conf_step :=
  lazy beta iota zeta;
  lazymatch goal with
  | |- confined _ (_ ≫= _) => apply confined_bind; [|intros ?]
  | |- confined _ (write _ _) => apply confined_write
  | |- confined _ (ret _) => apply confined_ret
  | |- confined _ (lift _) => apply confined_lift
  | |- confined _ (for_each _ _) => apply confined_for_each; intros ?
  | |- safe (getitem _ _) => apply safe_getitem
  | |- safe (contains _ _) => apply safe_contains
  | |- safe (iter _) => apply safe_iter
  | |- safe (join _ _) => apply safe_join
  end.

(** The properties of the content of the report are those of a run
    whose storage takes every text; the others hold on every storage. *)
Section cases.
Context {lib : Lib} {disk : Disk} {reliable : Reliable disk}.
Variable H : host.

Lemma safe_with_status st results : safe (with_status st results).
Proof.
  induction results as [|r results IH]; [done|]. cbn [with_status].
  pose proof (safe_getitem r "status"). destruct (getitem r "status"); [|done].
  cbn. by destruct (with_status st results).
Qed.

Lemma safe_add_errors r errs cats : safe (add_errors r errs cats).
Proof.
  revert cats. induction errs as [|e errs IH]; intros cats; [done|].
  cbn [add_errors]. destruct (hashable e); [|done].
  pose proof (safe_getitem r "node"). destruct (getitem r "node"); [|done].
  cbn. apply IH.
Qed.

Lemma safe_categorize failed cats : safe (categorize failed cats).
Proof.
  revert cats. induction failed as [|r failed IH]; intros cats; [done|].
  cbn [categorize].
  pose proof (safe_getitem r "errors"). destruct (getitem r "errors") as [errors|]; [|done].
  cbn. pose proof (safe_iter errors). destruct (iter errors) as [errs|]; [|done].
  cbn. pose proof (safe_add_errors r errs cats).
  destruct (add_errors r errs cats); [|done]. cbn. apply IH.
Qed.




Lemma write_success_confined out r : confined out (write_success out r).
Proof.
  unfold write_success.
  apply confined_bind; [apply confined_lift, safe_getitem|intros node].
  apply confined_bind; [apply confined_lift, safe_getitem|intros hostname].
  apply confined_bind; [apply confined_write|intros _].
  apply confined_bind; [apply confined_lift, safe_getitem|intros tests].
  apply confined_bind; [apply confined_lift, safe_contains|intros has_pytorch].
  apply confined_bind.
  { destruct has_pytorch; [|apply confined_ret]. repeat conf_step. }
  intros [|]; repeat conf_step.
Qed.

Lemma write_failure_confined out r : confined out (write_failure out r).
Proof. unfold write_failure. repeat conf_step. Qed.

Lemma write_category_confined out entry : confined out (write_category out entry).
Proof. destruct entry as [error nodes]. unfold write_category. repeat conf_step. Qed.

Lemma write_summary_confined out results : confined out (write_summary H out results).
Proof.
  unfold write_summary. do 5 (apply confined_bind; [apply confined_write|intros _]).
  apply confined_bind; [apply confined_lift, safe_with_status|intros ok].
  apply confined_bind; [apply confined_lift, safe_with_status|intros failed].
  do 2 (apply confined_bind; [apply confined_write|intros _]).
  apply confined_bind.
  { destruct ok; [apply confined_ret|].
    do 2 (apply confined_bind; [apply confined_write|intros _]).
    apply confined_bind; [|intros _; apply confined_write].
    apply confined_for_each. intros ?. apply write_success_confined. }
  intros _. apply confined_bind.
  { destruct failed; [apply confined_ret|].
    do 2 (apply confined_bind; [apply confined_write|intros _]).
    apply confined_for_each. intros ?. apply write_failure_confined. }
  intros _. do 2 (apply confined_bind; [apply confined_write|intros _]).
  apply confined_bind; [apply confined_lift, safe_categorize|intros cats].
  apply confined_bind; [|intros _; apply confined_write].
  apply confined_for_each. intros ?. apply write_category_confined.
Qed.

Local Opaque rule.


Local Transparent rule.

(** *** Reading the inputs *)

(** Loading never changes the world: it returns the records the files
    hold, or raises at the first file that is missing or does not load. *)
Lemma load_results_total paths w :
  (∃ results, load_results paths w = (Ret results, w) ∧
              Forall2 (holds (fs w)) paths results) ∨
  (∃ e, load_results paths w = (Raise e, w)).
Proof.
  induction paths as [|path paths IH]; cbn [load_results].
  - left. exists []. by split; [|constructor].
  - unfold mbind, M_mbind, bind, open_r, lift, ret.
    destruct (fs w !! path) as [text|] eqn:Hf; [|right; by eexists].
    destruct (json_load text) as [r|e] eqn:Hl; [|right; by eexists].
    destruct IH as [(results & -> & Hall)|(e & ->)]; [|right; by eexists].
    left. exists (r :: results). split; [done|]. constructor; [|done].
    by exists text.
Qed.

Lemma load_results_missing w pre missing post :
  Forall (λ path, ∃ r, holds (fs w) path r) pre →
  fs w !! missing = None →
  load_results (pre ++ missing :: post) w = (Raise (FileNotFoundError missing), w).
Proof.
  intros Hpre Hm.
  induction Hpre as [|path pre (r & t & Ht & Hl) _ IH]; cbn [app load_results].
  - unfold mbind, M_mbind, bind, open_r. by rewrite Hm.
  - unfold mbind, M_mbind, bind, open_r, lift, ret in *. by rewrite Ht, Hl, IH.
Qed.

Lemma parse_args_total c :
  c = Help ∨
  (∃ a, parse_args c = ret a ∧ opt_output c = Some (output a)) ∨
  (c ≠ Help ∧ parse_args c = raise (SystemExit 2)).
Proof.
  destruct c as [|[d|] [o|] [[|f files]|]]; [by left|..];
    right; try (by right); left; by eexists.
Qed.

(** Text without a carriage return is read as it is. *)
Lemma has_char_append c s t : has_char c (s +:+ t) = has_char c s || has_char c t.
Proof.
  induction s as [|a s IH]; [done|].
  unfold String.append; fold String.append. cbn [has_char].
  by rewrite IH, orb_assoc.
Qed.

Lemma universal_newlines_plain s :
  has_char cr s = false → universal_newlines s = s.
Proof.
  induction s as [|a s IH]; [done|]. cbn [has_char universal_newlines].
  intros [Ha Hs]%orb_false_elim. rewrite Ha. by rewrite IH.
Qed.


(** The ways a run can end, on every storage: with the help message; in
    [argparse]; while the inputs are loaded, with nothing changed; or after
    the inputs are loaded, with no file but the output file changed, and
    either an exception and nothing printed, or the path of the output
    file and its text, as read, printed. *)
Lemma main_outcome c w :
  (c = Help ∧
   main H c w =
     (Raise (SystemExit 0),
      World (fs w) (stdout w ++ [format_help "Summarize GPU test results"]))) ∨
  (c ≠ Help ∧ main H c w = (Raise (SystemExit 2), w)) ∨
  (∃ a e, c ≠ Help ∧ parse_args c = ret a ∧ opt_output c = Some (output a) ∧
          main H c w = (Raise e, w)) ∨
  (∃ a results files,
     c ≠ Help ∧ parse_args c = ret a ∧ opt_output c = Some (output a) ∧
     Forall2 (holds (fs w)) (result_files H a) results ∧
     (∀ path, path ≠ output a → files !! path = fs w !! path) ∧
     ((∃ e, is_Exception e = true ∧
            main H c w = (Raise e, World files (stdout w))) ∨
      (∃ text, files !! output a = Some text ∧
               main H c w =
                 (Ret tt,
                  World files
                    (stdout w ++ [nl +:+ "Summary written to: " +:+ output a;
                                  universal_newlines text]))))).
Proof.
  destruct (parse_args_total c) as [->|[(a & Hc & Ho)|[Hhelp Hc]]].
  - by left.
  - assert (c ≠ Help) as Hhelp by (by intros ->).
    right. right.
    destruct (load_results_total (result_files H a) w)
      as [(results & Hl & Hall)|(e & Hl)].
    + right. exists a, results.
      remember (main H c w) as X eqn:EX.
      unfold main in EX. rewrite Hc in EX.
      unfold mbind, M_mbind, bind in EX. unfold ret at 1 in EX.
      rewrite Hl in EX. unfold open_w at 1 in EX.
      destruct (open_refused (output a)) as [[cls msg]|].
      { exists (fs w). do 5 (split; [done|]). left.
        exists (OSError cls msg). split; [done|]. rewrite EX. by destruct w. }
      destruct (write_summary_confined (output a) results
                  (World (<[output a := ""]> (fs w)) (stdout w)))
        as (r & files & E & [text Hout] & Hrest & Hr);
        [cbn; by rewrite lookup_insert_eq|].
      rewrite E in EX. cbn [fs stdout] in *.
      exists files. do 4 (split; [done|]). split.
      { intros path Hpath. rewrite Hrest by done. by rewrite lookup_insert_ne. }
      destruct r as [[]|e].
      * right. exists text. split; [done|]. rewrite EX.
        unfold print, read_file. cbn [fs stdout]. rewrite Hout.
        cbn [fs stdout]. by rewrite <- app_assoc.
      * left. exists e. by rewrite EX.
    + left. exists a, e. do 3 (split; [done|]).
      unfold main. rewrite Hc. unfold mbind, M_mbind, bind. unfold ret at 1.
      by rewrite Hl.
  - right. left. split; [done|]. unfold main. by rewrite Hc.
Qed.

(** X15.  With no result file to read (an empty or missing directory, or no
    file name in it that ends with [_result.json]), the run completes and
    the report is the head with three zeros followed by an empty
    breakdown: neither list of nodes is written. *)
Theorem empty_input_gives_empty_report c d o w :
  opt_input_dir c = Some d → opt_output c = Some o → opt_input_files c = None →
  Forall (λ name, ends_with "_result.json" name = false) (listdir H d) →
  main H c w =
    (Ret tt,
     World (<[o := report_head H 0 0 0 +:+ breakdown []]> (fs w))
           (stdout w ++ [nl +:+ "Summary written to: " +:+ o;
                         report_head H 0 0 0 +:+ breakdown []])).
Proof.
  intros Hd Ho Hf Hnone.
  assert (parse_args c = ret {| input_dir := d; output := o; input_files := None |}) as Hc.
  { destruct c as [|cd co cf]; [done|]. cbn in Hd, Ho, Hf. by subst. }
  assert (result_files H {| input_dir := d; output := o; input_files := None |} = []) as Hfiles.
  { unfold result_files, glob_results. cbn [input_files input_dir].
    replace (filter (λ n, ends_with "_result.json" n) (listdir H d)) with (@nil string);
      [done|].
    induction Hnone as [|name names Hname _ IH]; [done|].
    rewrite filter_cons, decide_False by (rewrite Hname; auto). done. }
  rewrite (main_writes H c _ w [] Hc); [|rewrite Hfiles; constructor|constructor].
  cbn [output]. unfold summary_text, with_status_of. rewrite !filter_nil.
  cbn [length successful_section failed_section group_all fold_left String.concat].
  change ("" +:+ "" +:+ "" +:+ breakdown []) with (breakdown []).
  rewrite universal_newlines_plain; [done|].
  unfold report_head. cbn [String.concat].
  rewrite !has_char_append, now_isoformat_plain. by vm_compute.
Qed.

(** X16.  An input file that does not exist ends the run with
    [FileNotFoundError] before the output file is opened: nothing is
    written or printed, and the exit code is [1]. *)
Theorem missing_input_file_aborts c a w before missing after :
  parse_args c = ret a →
  result_files H a = before ++ missing :: after →
  Forall (λ path, ∃ r, holds (fs w) path r) before →
  fs w !! missing = None →
  main H c w = (Raise (FileNotFoundError missing), w) ∧
  exit_code (main H c w).1 = 1.
Proof.
  intros Hc Hfiles Hbefore Hm.
  assert (main H c w = (Raise (FileNotFoundError missing), w)) as E.
  { unfold main. rewrite Hc. unfold mbind, M_mbind, bind. unfold ret at 1.
    by rewrite Hfiles, (load_results_missing w before missing after). }
  by rewrite E.
Qed.



(** X20.  On every storage, when the run completes, the two things it
    printed are the line that names the output file and the text of that
    file as Python reads it back in text mode: every carriage return of
    the file, alone or followed by a line feed, is printed as one line
    feed. *)
Theorem console_echo_is_the_file_as_read c w :
  (main H c w).1 = Ret tt →
  ∃ o text,
    opt_output c = Some o ∧
    fs (main H c w).2 !! o = Some text ∧
    stdout (main H c w).2 =
      stdout w ++ [nl +:+ "Summary written to: " +:+ o; universal_newlines text].
Proof.
  destruct (main_outcome c w)
    as [[-> ->]|[[Hhelp ->]|[(a & e & Hhelp & _ & _ & ->)|
        (a & results & files & Hhelp & _ & Ho & _ & Hrest &
         [(e & _ & ->)|(text & Htext & ->)])]]];
    cbn [fst snd fs stdout]; try done.
  intros _. by exists (output a), text.
Qed.

Lemma with_status_first_failure st pre r post e :
  Forall (λ x, is_ret (getitem x "status") = true) pre →
  getitem r "status" = Raise e →
  with_status st (pre ++ r :: post) = Raise e.
Proof.
  intros Hpre Hr. induction Hpre as [|x pre Hx _ IH]; cbn [app with_status].
  - by rewrite Hr.
  - destruct (getitem x "status"); [|done]. cbn. by rewrite IH.
Qed.

(** X19.  A record without a readable status ends the run where the statuses
    are first compared: the output file has been replaced by then and is
    left with the five lines of the head only; nothing is printed. *)
Theorem record_without_status_leaves_head_only c a w pre r post e :
  parse_args c = ret a →
  Forall2 (holds (fs w)) (result_files H a) (pre ++ r :: post) →
  Forall (λ x, is_ret (getitem x "status") = true) pre →
  getitem r "status" = Raise e →
  main H c w =
    (Raise e,
     World (<[output a := report_top H (length (pre ++ r :: post))]> (fs w))
           (stdout w)).
Proof.
  intros Hc Hfiles Hpre Hr. unfold main. rewrite Hc.
  unfold mbind, M_mbind, bind. unfold ret at 1.
  rewrite (load_results_returns _ _ _ Hfiles).
  unfold open_w at 1. rewrite opens. cbn [fs stdout].
  unfold write_summary, successes. rewrite (with_status_first_failure _ _ _ _ e Hpre Hr).
  unfold mbind, M_mbind, bind, write, lift. cbn [fs stdout].
  rewrite lookup_insert_eq. cbn [default from_option]. unfold id.
  repeat (rewrite writes; cbn [fs stdout];
          rewrite ?insert_insert_eq, ?lookup_insert_eq; cbn [default from_option];
          unfold id).
  unfold id, report_top. cbn [String.concat].
  assert (∀ s : string, "" +:+ s = s) as Hnil by done.
  by rewrite !Hnil, !append_assoc.
Qed.

(** *** The breakdown, group by group *)

Lemma group_nodes_append e e' n g :
  group_nodes e (group_append e' n g)
  = group_nodes e g ++ (if String.eqb e' e then [n] else []).
Proof.
  induction g as [|[k nodes] g IH]; cbn.
  - by destruct (String.eqb e' e).
  - destruct (String.eqb_spec k e') as [->|Hne]; cbn.
    + destruct (String.eqb e' e); [done|by rewrite app_nil_r].
    + destruct (String.eqb_spec k e) as [->|Hne']; [|done].
      destruct (String.eqb_spec e' e) as [->|_]; [done|by rewrite app_nil_r].
Qed.

Lemma group_nodes_record e g r :
  group_nodes e (group_record g r)
  = group_nodes e g ++
    map (λ _, str_field "node" r) (filter (λ x, x = e) (error_strings r)).
Proof.
  unfold group_record. generalize (error_strings r) as errs. intros errs.
  revert g. induction errs as [|x errs IH]; intros g; cbn [fold_left].
  - by rewrite app_nil_r.
  - rewrite IH, group_nodes_append, filter_cons, <- app_assoc. f_equal.
    destruct (String.eqb_spec x e) as [->|Hne].
    + by rewrite decide_True.
    + by rewrite decide_False.
Qed.

Lemma group_nodes_all e failed :
  group_nodes e (group_all failed) = occurrences e failed.
Proof.
  unfold group_all, occurrences.
  assert (∀ g, group_nodes e (fold_left group_record failed g)
               = group_nodes e g ++
                 flat_map (λ r, map (λ _, str_field "node" r)
                                    (filter (λ x, x = e) (error_strings r))) failed)
    as Hgen.
  { induction failed as [|r failed IH]; intros g; cbn [fold_left flat_map].
    - by rewrite app_nil_r.
    - by rewrite IH, group_nodes_record, <- app_assoc. }
  apply Hgen.
Qed.

Lemma groups_by_key (g : groups) :
  NoDup g.*1 → g = map (λ e, (e, group_nodes e g)) g.*1.
Proof.
  induction g as [|[k nodes] g IH]; [done|].
  cbn. intros [Hk Hg]%NoDup_cons. rewrite String.eqb_refl. f_equal.
  rewrite (IH Hg) at 1. apply map_ext_in. intros e He%list_elem_of_In.
  destruct (String.eqb_spec k e) as [->|_]; done.
Qed.

Lemma group_append_fst e n (g : groups) :
  (group_append e n g).*1 = if decide (e ∈ g.*1) then g.*1 else g.*1 ++ [e].
Proof.
  induction g as [|[k nodes] g IH]; cbn.
  - rewrite decide_False; [done|]. apply not_elem_of_nil.
  - destruct (String.eqb_spec k e) as [->|Hne]; cbn.
    + rewrite decide_True; [done|]. by left.
    + rewrite IH. destruct (decide (e ∈ g.*1)) as [Hin|Hnin].
      * rewrite decide_True; [done|]. by right.
      * rewrite decide_False; [done|]. intros [->|?]%elem_of_cons; done.
Qed.

Lemma first_seen_fold (errs acc : list string) :
  fold_left (λ acc e, if decide (e ∈ acc) then acc else acc ++ [e]) errs acc
  = acc ++ filter (λ x, x ∉ acc) (first_seen errs).
Proof.
  revert acc. induction errs as [|e errs IH]; intros acc; cbn [fold_left first_seen].
  - by rewrite filter_nil, app_nil_r.
  - rewrite IH, filter_cons, list_filter_filter. destruct (decide (e ∈ acc)) as [Hin|Hnin].
    + rewrite decide_False by auto. f_equal. apply list_filter_iff.
      intros x. split; [by intros ?; split; [|intros ->]|by intros [? _]].
    + rewrite decide_True by done. rewrite <- app_assoc. cbn. do 2 f_equal.
      apply list_filter_iff. intros x. rewrite elem_of_app, list_elem_of_singleton.
      tauto.
Qed.

Lemma group_record_fst (g : groups) r :
  (group_record g r).*1
  = fold_left (λ acc e, if decide (e ∈ acc) then acc else acc ++ [e])
              (error_strings r) g.*1.
Proof.
  unfold group_record. generalize (error_strings r) as errs. intros errs.
  revert g. induction errs as [|e errs IH]; intros g; [done|].
  cbn [fold_left]. by rewrite IH, group_append_fst.
Qed.

Lemma group_all_fst failed :
  (group_all failed).*1 = first_seen (flat_map error_strings failed).
Proof.
  unfold group_all.
  assert (∀ g : groups,
            (fold_left group_record failed g).*1
            = fold_left (λ acc e, if decide (e ∈ acc) then acc else acc ++ [e])
                        (flat_map error_strings failed) g.*1) as Hgen.
  { induction failed as [|r failed IH]; intros g; [done|].
    cbn [fold_left flat_map]. by rewrite IH, group_record_fst, fold_left_app. }
  rewrite Hgen, first_seen_fold. cbn.
  generalize (first_seen (flat_map error_strings failed)) as l. intros l.
  induction l as [|x l IH]; [done|].
  rewrite filter_cons, decide_True by apply not_elem_of_nil. by rewrite IH.
Qed.

Lemma failed_records_filter results :
  Forall (λ r, record_shape r = true) results →
  with_status_of "FAILED" results = failed_records results.
Proof.
  unfold with_status_of, failed_records.
  induction 1 as [|r results Hr _ IH]; [done|].
  rewrite !filter_cons, IH. pose proof (has_status_field "FAILED" r Hr) as Hiff.
  destruct (decide (has_status "FAILED" r = true)),
    (decide (str_field "status" r = "FAILED")); tauto.
Qed.

(** X21.  The breakdown has one group per distinct error string of the failed
    records, in the order in which the strings are first met; under each
    string the name of a node stands once for every occurrence of the
    string in the error list of its record, so that the number shown
    counts occurrences: a record that lists a string twice is counted and
    named twice. *)
Theorem breakdown_counts_occurrences c a w results :
  parse_args c = ret a →
  Forall (λ r, record_shape r = true) results →
  Forall2 (holds (fs w)) (result_files H a) results →
  ∃ before,
    fs (main H c w).2 !! output a =
      Some (before +:+
            breakdown
              (map (λ error, (error, occurrences error (failed_records results)))
                   (first_seen (flat_map error_strings (failed_records results))))).
Proof.
  intros Hc Hshape Hfiles.
  rewrite (main_writes H c a w results Hc Hfiles)
    by (eapply Forall_impl; [done|]; apply shape_summarizable).
  cbn [snd fs]. rewrite lookup_insert_eq.
  unfold summary_text. rewrite (failed_records_filter results Hshape).
  rewrite (groups_by_key (group_all _) (group_all_keys _)), group_all_fst.
  cbn [String.concat]. eexists. f_equal. rewrite <- !append_assoc. f_equal.
  f_equal. apply map_ext. intros e. by rewrite group_nodes_all.
Qed.

(** *** Records written by the per-node script *)

Lemma count_status_total results :
  Forall (λ r, str_field "status" r = "SUCCESS" ∨ str_field "status" r = "FAILED")
         results →
  (count_status "SUCCESS" results + count_status "FAILED" results = length results)%nat.
Proof.
  unfold count_status. induction 1 as [|r results Hr _ IH]; [done|].
  rewrite !filter_cons.
  destruct Hr as [Hr|Hr]; rewrite Hr;
    [rewrite decide_True, decide_False by done|rewrite decide_False, decide_True by done];
    cbn; lia.
Qed.

(** X22.  Over records written by the per-node script the two counts of the
    report add up to its total: every node is counted as a success or as
    a failure. *)
Theorem script_records_fill_both_counts c a w results :
  parse_args c = ret a →
  Forall written_by_script results →
  Forall2 (stores (fs w)) (result_files H a) results →
  ∃ ok failed sections,
    fs (main H c w).2 !! output a =
      Some (report_head H (length results) ok failed +:+ sections) ∧
    ok = count_status "SUCCESS" results ∧
    failed = count_status "FAILED" results ∧
    (ok + failed = length results)%nat.
Proof.
  intros Hc Hwritten Hfiles.
  assert (Forall (λ r, record_shape r = true) results) as Hshape.
  { eapply Forall_impl; [done|]. intros r Hr. apply well_formed_shape. by right. }
  rewrite (main_writes H c a w results Hc).
  - cbn [snd fs]. rewrite lookup_insert_eq. unfold summary_text.
    rewrite !count_with_status by done. cbn [String.concat].
    eexists _, _, _. split; [reflexivity|]. do 2 (split; [done|]).
    apply count_status_total. eapply Forall_impl; [exact Hwritten|].
    intros r (N & n & o & h & x & printed & Hrun & ->).
    destruct (NodeProperties.run_status_invariant N n o h x printed Hrun)
      as [[_ ?]|[_ ?]]; auto.
  - by apply stores_holds.
  - eapply Forall_impl; [done|]. apply shape_summarizable.
Qed.

(** *** The directory *)

Lemma ends_with_append suffix name :
  ends_with suffix name = true ↔ ∃ stem, name = stem +:+ suffix.
Proof.
  unfold ends_with. rewrite TextFacts.prefix_append. split.
  - intros [rest Hr]. exists (String.rev rest).
    by rewrite <- (TextFacts.rev_rev name), Hr, TextFacts.rev_append, TextFacts.rev_rev.
  - intros [stem ->]. exists (String.rev stem). by rewrite TextFacts.rev_append.
Qed.

(** X23.  Without [--input-files] the files read are the entries of the
    directory whose name is some stem followed by [_result.json], each
    under the directory; any other entry is left alone. *)
Theorem only_result_files_are_read c a :
  parse_args c = ret a → opt_input_files c = None →
  ∀ path,
    path ∈ result_files H a ↔
    ∃ stem, (stem +:+ "_result.json") ∈ listdir H (input_dir a) ∧
            path = input_dir a +:+ "/" +:+ stem +:+ "_result.json".
Proof.
  intros Hc Hf path.
  assert (input_files a = None) as Ha.
  { destruct (parse_args_ret c a Hc) as [-> _]. by cbn in Hf. }
  unfold result_files. rewrite Ha, elem_of_glob_results. split.
  - intros (name & Hin & [stem ->]%ends_with_append & ->). by exists stem.
  - intros (stem & Hin & ->). exists (stem +:+ "_result.json").
    split; [done|]. split; [|done]. apply ends_with_append. by exists stem.
Qed.

End cases.
End ReportCases.

(** ** The properties on the concrete runs *)

Module Instances.
Import Py RefLib DataModel Examples.
Module T := TestGpuNode.
Module S := SummarizeResults.
Module NS := NodeSpec.
Module SS := SummarySpec.
Module NO := NodeOutcome.
Module NP := NodeProperties.
Module SP := SummaryProperties.

(** C1 on the node without [torch]. *)
Lemma status_failed_iff_errors_witness :
  ∃ h r printed,
    NS.run broken "n2" "out/n2_result.json" h r printed ∧
    fs (T.main broken (test_args "n2" "out/n2_result.json") blank).2
      !! "out/n2_result.json" = Some (json_dump (T.to_json r)) ∧
    (T.status r = "FAILED" ↔ T.errors r ≠ []) ∧
    (T.status r = "SUCCESS" ↔ T.errors r = []).
Proof.
  exact (NP.status_failed_iff_errors broken (test_args "n2" "out/n2_result.json")
           "n2" "out/n2_result.json" blank eq_refl eq_refl).
Defined.

(** C2, as amended, on the healthy node and a storage that takes every
    file. *)
Lemma exit_code_matches_status_witness :
  ∃ h r printed,
    NS.run healthy "n1" "out/n1_result.json" h r printed ∧
    (T.errors r ≠ [] →
     T.status r = "FAILED" ∧
     exit_code (T.main healthy (test_args "n1" "out/n1_result.json") blank).1 = 1) ∧
    (exit_code (T.main healthy (test_args "n1" "out/n1_result.json") blank).1 = 0 ↔
     T.status r = "SUCCESS" ∧
     NO.accepted "out/n1_result.json" (json_dump (T.to_json r))) ∧
    (NO.accepted "out/n1_result.json" (json_dump (T.to_json r)) →
     fs (T.main healthy (test_args "n1" "out/n1_result.json") blank).2
       !! "out/n1_result.json" = Some (json_dump (T.to_json r)) ∧
     (exit_code (T.main healthy (test_args "n1" "out/n1_result.json") blank).1 = 1 ↔
      T.status r = "FAILED")) ∧
    (¬ NO.accepted "out/n1_result.json" (json_dump (T.to_json r)) →
     exit_code (T.main healthy (test_args "n1" "out/n1_result.json") blank).1 = 1 ∧
     ∃ cls msg,
       (T.main healthy (test_args "n1" "out/n1_result.json") blank).1 =
       Raise (OSError cls msg)).
Proof.
  exact (NP.exit_code_matches_status healthy (test_args "n1" "out/n1_result.json")
           "n1" "out/n1_result.json" blank eq_refl eq_refl).
Defined.

(** C2 as stated fails: on the healthy node, with an output file that
    cannot be opened for writing, every check passes, the record has no
    error and the status SUCCESS, [ALL TESTS PASSED] is printed, and the
    run ends with the [PermissionError] of [open]: no file is written and
    the exit code is 1. *)
Lemma unwritable_output_exits_with_1 :
  ∃ h r printed,
    NS.run healthy "n1" "out/n1_result.json" h r printed ∧
    T.errors r = [] ∧ T.status r = "SUCCESS" ∧
    "ALL TESTS PASSED ✓" ∈
      stdout (@T.main ref_lib read_only healthy
                (test_args "n1" "out/n1_result.json") blank).2 ∧
    (@T.main ref_lib read_only healthy
       (test_args "n1" "out/n1_result.json") blank).1 =
      Raise (OSError "PermissionError"
               "[Errno 13] Permission denied: 'out/n1_result.json'") ∧
    fs (@T.main ref_lib read_only healthy
          (test_args "n1" "out/n1_result.json") blank).2 = ∅ ∧
    exit_code (@T.main ref_lib read_only healthy
                 (test_args "n1" "out/n1_result.json") blank).1 = 1.
Proof.
  destruct (@NP.main_checks ref_lib read_only healthy
              (test_args "n1" "out/n1_result.json")
              "n1" "out/n1_result.json" blank eq_refl eq_refl)
    as (h & r & printed & before & _ & _ & Hrun).
  exists h, r, printed. split; [done|].
  assert (T.errors r = []) as Hnil.
  { apply (NodeCases.errors_nil_iff_healthy _ _ _ _ _ _ Hrun).
    vm_compute. reflexivity. }
  split; [done|]. split; [by rewrite (NS.run_status _ _ _ _ _ _ Hrun), Hnil|].
  split; [vm_compute; set_solver|].
  split; [vm_compute; reflexivity|].
  split; vm_compute; reflexivity.
Qed.

(** C8 on the node without [torch]. *)
Lemma written_status_is_final_witness :
  ∃ h r printed,
    NS.run broken "n2" "out/n2_result.json" h r printed ∧
    fs (T.main broken (test_args "n2" "out/n2_result.json") blank).2
      !! "out/n2_result.json" = Some (json_dump (T.to_json r)) ∧
    getitem (T.to_json r) "status" = Ret (VStr (T.status r)) ∧
    (T.status r = "SUCCESS" ∨ T.status r = "FAILED") ∧
    T.status r ≠ "unknown".
Proof.
  exact (NP.written_status_is_final broken (test_args "n2" "out/n2_result.json")
           "n2" "out/n2_result.json" blank eq_refl eq_refl).
Defined.

(** C4 on the node without [torch]: PyTorch and model loading fail, the
    Cellpose check still runs, inference is skipped. *)
Lemma every_check_runs_witness :
  ∃ h r printed code,
    T.main broken (test_args "n2" "out/n2_result.json") blank =
      (Raise (SystemExit code),
       World (<["out/n2_result.json" := json_dump (T.to_json r)]> (fs blank))
             (stdout blank ++ printed)) ∧
    NS.hands NS.banner1 (NS.details1 h) (T.test_pytorch broken) (NS.pytorch h) ∧
    NS.hands NS.banner2 (NS.details2 h) (T.test_cellpose broken) (NS.cellpose h) ∧
    NS.hands NS.banner3 (NS.details3 h) (T.test_model_loading broken) (NS.loading h) ∧
    T.tests r = [("environment", T.test_environment broken);
                 ("pytorch", (NS.pytorch h).1);
                 ("cellpose", (NS.cellpose h).1);
                 ("model_loading", (NS.loading h).1.2);
                 ("inference", (NS.inference h).1)] ∧
    NS.banner1 ∈ printed ∧ NS.banner2 ∈ printed ∧ NS.banner3 ∈ printed ∧
    match (NS.loading h).1.1 with
    | Some m =>
        T.CellposeModel broken = T.Returns m ∧
        (∃ kvs, (NS.loading h).1.2 = VDict kvs ∧
                assoc "success" kvs = Some (VBool true)) ∧
        (∃ details4,
           NS.hands NS.banner4 details4 (T.test_inference broken m) (NS.inference h)) ∧
        NS.banner4 ∈ printed
    | None =>
        (∃ e, (NS.loading h).1.2 = T.error_entry e ∧
              (NS.loading h).2 = ["Model loading error: " +:+ exn_str e]) ∧
        NS.inference h = (T.skipped_inference, []) ∧
        NS.banner4 ∉ printed
    end.
Proof.
  exact (NP.every_check_runs broken (test_args "n2" "out/n2_result.json")
           "n2" "out/n2_result.json" blank eq_refl eq_refl).
Defined.

(** C10 on the node without [torch]. *)
Lemma skipped_inference_is_recorded_witness :
  ∃ h r printed,
    NS.run broken "n2" "out/n2_result.json" h r printed ∧
    fs (T.main broken (test_args "n2" "out/n2_result.json") blank).2
      !! "out/n2_result.json" = Some (json_dump (T.to_json r)) ∧
    assoc "inference" (T.tests r) = Some T.skipped_inference ∧
    (getitem (T.to_json r) "tests" ≫= λ t, getitem t "inference")
      = Ret (VDict [("error", VStr "Model not loaded, skipping inference")]) ∧
    T.errors r = (NS.pytorch h).2 ++ (NS.cellpose h).2 ++
                 ["Model loading error: No module named 'torch'"] ∧
    ∃ e, ["Model loading error: No module named 'torch'"]
         = ["Model loading error: " +:+ exn_str e].
Proof.
  exact (NP.skipped_inference_is_recorded broken
           (test_args "n2" "out/n2_result.json") "n2" "out/n2_result.json"
           blank blank
           (T.error_entry (LibraryError "ModuleNotFoundError" "No module named 'torch'"))
           ["Model loading error: No module named 'torch'"]
           eq_refl eq_refl eq_refl).
Defined.

Lemma tested_files :
  S.result_files cluster summarize_dir_args
  = ["out/n1_result.json"; "out/n2_result.json"].
Proof. vm_compute. reflexivity. Qed.

Lemma tested_stores :
  Forall2 (SS.stores (fs tested)) (S.result_files cluster summarize_dir_args)
          [record1; record2].
Proof.
  rewrite tested_files.
  constructor; [|constructor; [|constructor]]; split; vm_compute; reflexivity.
Qed.

Lemma tested_shape : Forall (λ r, record_shape r = true) [record1; record2].
Proof.
  constructor; [|constructor; [|constructor]]; vm_compute; reflexivity.
Qed.

(** C6 on the two records the script wrote: one success, one failure. *)
Lemma round_trip_counts_witness :
  ∃ sections,
    (S.main cluster summarize_dir tested).1 = Ret tt ∧
    fs (S.main cluster summarize_dir tested).2 !! "summary.txt" =
      Some (SS.report_head cluster 2
              (SS.count_status "SUCCESS" [record1; record2])
              (SS.count_status "FAILED" [record1; record2]) +:+ sections).
Proof.
  apply (SP.round_trip_counts cluster summarize_dir summarize_dir_args tested
           [record1; record2] eq_refl).
  - eapply Forall_impl; [apply tested_shape|]. by left.
  - apply tested_stores.
Defined.

Lemma tested_invariant : Forall status_invariant [record1; record2].
Proof.
  constructor; [left; split; vm_compute; reflexivity|].
  constructor; [right; split; [discriminate|vm_compute; reflexivity]|].
  constructor.
Qed.

(** C3 on the two records the script wrote. *)
Lemma breakdown_groups_failed_nodes_witness :
  ∃ before g,
    (S.main cluster summarize_dir tested).1 = Ret tt ∧
    fs (S.main cluster summarize_dir tested).2 !! "summary.txt"
      = Some (before +:+ SS.breakdown g) ∧
    NoDup g.*1 ∧
    ∀ error node,
      SS.listed g error node ↔
      ∃ r, r ∈ [record1; record2] ∧
           str_field "node" r = node ∧ error ∈ error_strings r.
Proof.
  apply (SP.breakdown_groups_failed_nodes cluster summarize_dir summarize_dir_args
           tested [record1; record2] eq_refl tested_shape tested_invariant).
  eapply SP.stores_holds, tested_stores.
Defined.

(** The invariant of section 3 is needed there: a hand-made record that
    says SUCCESS and yet has the error [boom] in its list is summarised
    with an empty breakdown. *)
Lemma success_record_with_errors_is_not_grouped :
  record_shape odd_record = true ∧
  ¬ status_invariant odd_record ∧
  str_field "node" odd_record = "n3" ∧
  error_strings odd_record = ["boom"] ∧
  fs (S.main cluster (summarize_files ["out/n3_result.json"]) hand_made).2
    !! "summary.txt"
  = Some (String.concat ""
            [SS.report_head cluster 1 1 0;
             SS.successful_section [odd_record];
             SS.breakdown []]).
Proof.
  split; [vm_compute; reflexivity|].
  split; [by intros [[? _]|[_ ?]]|].
  split; [vm_compute; reflexivity|].
  split; vm_compute; reflexivity.
Qed.

Lemma hand_made_holds :
  Forall2 (SS.holds (fs hand_made))
          ["out/n3_result.json"; "out/n4_result.json"]
          [odd_record; unknown_record].
Proof.
  constructor; [|constructor; [|constructor]].
  - exists (json_dump odd_record). split; vm_compute; reflexivity.
  - exists (json_dump unknown_record). split; vm_compute; reflexivity.
Qed.

(** C9 on a record with the status [unknown] beside one success. *)
Lemma other_status_counted_not_listed_witness :
  ∃ ok failed,
    S.successes [odd_record; unknown_record] = Ret ok ∧
    S.failures [odd_record; unknown_record] = Ret failed ∧
    fs (S.main cluster
          (summarize_files ["out/n3_result.json"; "out/n4_result.json"])
          hand_made).2 !! "summary.txt" =
      Some (String.concat ""
              [SS.report_head cluster 2 (length ok) (length failed);
               SS.successful_section ok;
               SS.failed_section failed;
               SS.breakdown (SS.group_all failed)]) ∧
    (unknown_record ∉ ok) ∧ (unknown_record ∉ failed) ∧
    (length ok + length failed < 2)%nat.
Proof.
  apply (SP.other_status_counted_not_listed cluster
           (summarize_files ["out/n3_result.json"; "out/n4_result.json"])
           (summarize_files_args ["out/n3_result.json"; "out/n4_result.json"])
           hand_made [odd_record; unknown_record] unknown_record (VStr "unknown")
           eq_refl).
  - repeat constructor.
  - apply hand_made_holds.
  - right. left.
  - reflexivity.
  - reflexivity.
  - reflexivity.
Defined.

(** C7 on a file that is not JSON, listed after a good one. *)
Lemma malformed_input_aborts_witness :
  (∃ e',
     S.main cluster
       (summarize_files ["out/n3_result.json"; "out/n5_result.json"]) hand_made
     = (Raise e', hand_made)) ∧
  ∀ before after,
    ["out/n3_result.json"; "out/n5_result.json"]
      = before ++ "out/n5_result.json" :: after →
    Forall (λ path, ∃ r, SS.holds (fs hand_made) path r) before →
    S.main cluster
      (summarize_files ["out/n3_result.json"; "out/n5_result.json"]) hand_made
    = (Raise JSONDecodeError, hand_made).
Proof.
  apply (SP.malformed_input_aborts cluster
           (summarize_files ["out/n3_result.json"; "out/n5_result.json"])
           (summarize_files_args ["out/n3_result.json"; "out/n5_result.json"])
           hand_made "out/n5_result.json" "{ not json" JSONDecodeError eq_refl).
  - right. left.
  - vm_compute. reflexivity.
  - vm_compute. reflexivity.
Defined.



End Instances.

(** ** The cases on the concrete nodes and records *)

Module CaseInstances.
Import Py RefLib DataModel Examples Cases.
Module T := TestGpuNode.
Module S := SummarizeResults.
Module NS := NodeSpec.
Module SS := SummarySpec.
Module NO := NodeOutcome.
Module RD := ReportDetail.
Module NC := NodeCases.
Module RC := ReportCases.

(** X1 on the healthy node and a storage that takes every file. *)
Lemma exit_zero_iff_healthy_witness :
  ∃ h r printed,
    NS.run healthy "n1" "out/n1_result.json" h r printed ∧
    (T.status r = "SUCCESS" ↔ NO.healthy_node healthy = true) ∧
    (exit_code (T.main healthy (test_args "n1" "out/n1_result.json") blank).1 = 0 ↔
     NO.healthy_node healthy = true ∧
     NO.accepted "out/n1_result.json" (json_dump (T.to_json r))) ∧
    (exit_code (T.main healthy (test_args "n1" "out/n1_result.json") blank).1 = 1 ↔
     NO.healthy_node healthy = false ∨
     ¬ NO.accepted "out/n1_result.json" (json_dump (T.to_json r))).
Proof.
  exact (NC.exit_zero_iff_healthy healthy (test_args "n1" "out/n1_result.json")
           "n1" "out/n1_result.json" blank eq_refl eq_refl).
Defined.

(** X3 on a node whose [torch] was built without CUDA. *)
Lemma no_cuda_fails_the_node_witness :
  ∃ r rest,
    fs (T.main no_cuda (test_args "n3" "out/n3_result.json") blank).2
      !! "out/n3_result.json" = Some (json_dump (T.to_json r)) ∧
    exit_code (T.main no_cuda (test_args "n3" "out/n3_result.json") blank).1 = 1 ∧
    T.status r = "FAILED" ∧
    T.errors r = "CUDA not available despite GPU partition" :: rest ∧
    assoc "pytorch" (T.tests r) =
      Some (VDict [("version", VStr "2.3.0+cpu");
                   ("cuda_compiled_version", VNone);
                   ("cuda_available", VBool false);
                   ("device_count", VInt 0)]).
Proof.
  exact (NC.no_cuda_fails_the_node no_cuda (test_args "n3" "out/n3_result.json")
           "n3" "out/n3_result.json" blank torch_without_cuda
           eq_refl eq_refl eq_refl eq_refl).
Defined.

(** X4 on the two devices of the healthy node. *)
Lemma devices_are_listed_in_order_witness :
  T.test_pytorch healthy blank =
    (Ret (VDict [("version", VStr "2.3.0");
                 ("cuda_compiled_version", VStr "12.1");
                 ("cuda_available", VBool true);
                 ("device_count", VInt 2);
                 ("devices",
                  VList (map (λ i, NO.device_info i ("A100-" +:+ pretty i) a100)
                             (seq 0 (Z.to_nat 2))))],
          []),
     World (fs blank)
           (stdout blank ++ NS.banner1 ::
              map (λ i, NO.gpu_line i ("A100-" +:+ pretty i) a100)
                  (seq 0 (Z.to_nat 2)))).
Proof.
  apply (NC.devices_are_listed_in_order healthy torch 2
           (λ i, "A100-" +:+ pretty i) (λ _, a100) blank eq_refl eq_refl eq_refl).
  intros i _. split; reflexivity.
Defined.

(** X5 on a node whose second device does not answer. *)
Lemma failed_probe_drops_devices_witness :
  T.test_pytorch flaky blank =
    (Ret (VDict [("error", VStr "CUDA error: device lost");
                 ("traceback",
                  VStr (format_exc (LibraryError "RuntimeError" "CUDA error: device lost")))],
          ["PyTorch error: " +:+ "CUDA error: device lost"]),
     World (fs blank)
           (stdout blank ++ NS.banner1 ::
              map (λ i, NO.gpu_line i ("A100-" +:+ pretty i) a100) (seq 0 1) ++
              ["  ✗ PyTorch test failed: " +:+ "CUDA error: device lost"])).
Proof.
  apply (NC.failed_probe_drops_devices flaky torch_flaky 2 1%nat
           (λ i, "A100-" +:+ pretty i) (λ _, a100)
           "RuntimeError" "CUDA error: device lost" blank eq_refl eq_refl eq_refl).
  - vm_compute. lia.
  - intros i Hi. destruct i; [split; reflexivity|lia].
  - right. split; reflexivity.
Defined.

(** X6 on the output of [pip show cellpose]. *)
Lemma version_is_read_from_pip_witness :
  ∃ version,
    T.test_cellpose no_cuda blank =
      (Ret (VDict [("version", VStr version); ("imported", VBool true)], []),
       World (fs blank)
             (stdout blank ++ [NS.banner2; "  ✓ Cellpose version: " +:+ version])) ∧
    (∀ pre rest post,
       split_on (ascii_of_nat 10) pip_text = pre ++ ("Version:" +:+ rest) :: post →
       Forall (λ line, String.prefix "Version:" line = false) pre →
       version = strip rest) ∧
    (Forall (λ line, String.prefix "Version:" line = false)
            (split_on (ascii_of_nat 10) pip_text) →
     version = "unknown").
Proof.
  exact (NC.version_is_read_from_pip no_cuda no_version pip_text blank
           eq_refl eq_refl eq_refl).
Defined.

(** X7 on a node without [pip]. *)
Lemma pip_failure_fails_the_node_witness :
  ∃ r,
    fs (T.main no_pip (test_args "n3" "out/n3_result.json") blank).2
      !! "out/n3_result.json" = Some (json_dump (T.to_json r)) ∧
    exit_code (T.main no_pip (test_args "n3" "out/n3_result.json") blank).1 = 1 ∧
    T.status r = "FAILED" ∧
    ("Cellpose import error: " +:+ "[Errno 2] No such file or directory: 'pip'")
      ∈ T.errors r ∧
    assoc "cellpose" (T.tests r) =
      Some (VDict [("error", VStr "[Errno 2] No such file or directory: 'pip'");
                   ("traceback",
                    VStr (format_exc
                            (LibraryError "FileNotFoundError"
                               "[Errno 2] No such file or directory: 'pip'")))]).
Proof.
  exact (NC.pip_failure_fails_the_node no_pip (test_args "n3" "out/n3_result.json")
           "n3" "out/n3_result.json" blank no_version "FileNotFoundError"
           "[Errno 2] No such file or directory: 'pip'"
           eq_refl eq_refl eq_refl eq_refl eq_refl).
Defined.

(** X8 on a node whose model ended up on the CPU. *)
Lemma cpu_model_fails_but_infers_witness :
  ∃ r printed kvs,
    T.main on_cpu (test_args "n3" "out/n3_result.json") blank =
      (Raise (SystemExit 1),
       World (<["out/n3_result.json" := json_dump (T.to_json r)]> (fs blank))
             (stdout blank ++ printed)) ∧
    T.status r = "FAILED" ∧
    "Model loaded on CPU despite CUDA being available!" ∈ T.errors r ∧
    assoc "model_loading" (T.tests r) = Some (VDict kvs) ∧
    assoc "success" kvs = Some (VBool true) ∧
    assoc "warning" kvs = Some (VStr "Model loaded on CPU despite CUDA being available!") ∧
    NS.banner4 ∈ printed.
Proof.
  exact (NC.cpu_model_fails_but_infers on_cpu (test_args "n3" "out/n3_result.json")
           "n3" "out/n3_result.json" blank torch cpu_model
           eq_refl eq_refl eq_refl eq_refl eq_refl eq_refl).
Defined.

(** X9 on a model whose network has no parameter. *)
Lemma parameter_probe_failure_is_swallowed_witness :
  T.test_model_loading no_params blank =
    (Ret (Some bare_model,
          VDict ([("success", VBool true);
                  ("device", VStr "cuda:0");
                  ("gpu_flag", VBool true)] ++
                 [("network_device", VStr "cuda:0")]),
          []),
     World (fs blank)
           (stdout blank ++
              [NS.banner3;
               "  Loading CellposeModel with GPU=True, pretrained_model='cpsam'...";
               "  ✓ Model successfully loaded on: " +:+ "cuda:0"])).
Proof.
  exact (NC.parameter_probe_failure_is_swallowed no_params torch bare_model bare_net
           "StopIteration" "" blank eq_refl eq_refl eq_refl eq_refl eq_refl).
Defined.

(** X10 on a node whose query for CUDA raises after the model loaded. *)
Lemma late_failure_drops_the_model_witness :
  ∃ r printed,
    T.main unsure (test_args "n3" "out/n3_result.json") blank =
      (Raise (SystemExit 1),
       World (<["out/n3_result.json" := json_dump (T.to_json r)]> (fs blank))
             (stdout blank ++ printed)) ∧
    assoc "model_loading" (T.tests r) =
      Some (VDict [("error", VStr "CUDA driver initialization failed");
                   ("traceback",
                    VStr (format_exc
                            (LibraryError "RuntimeError"
                               "CUDA driver initialization failed")))]) ∧
    assoc "inference" (T.tests r) = Some T.skipped_inference ∧
    ("Model loading error: " +:+ "CUDA driver initialization failed") ∈ T.errors r ∧
    NS.banner4 ∉ printed.
Proof.
  exact (NC.late_failure_drops_the_model unsure (test_args "n3" "out/n3_result.json")
           "n3" "out/n3_result.json" blank torch_unsure cpu_model
           "RuntimeError" "CUDA driver initialization failed"
           eq_refl eq_refl eq_refl eq_refl eq_refl eq_refl).
Defined.

(** X2 on the node without [torch]. *)
Lemma errors_one_per_check_witness :
  ∃ r e1 e2 e3 e4,
    fs (T.main broken (test_args "n2" "out/n2_result.json") blank).2
      !! "out/n2_result.json" = Some (json_dump (T.to_json r)) ∧
    T.errors r = e1 ++ e2 ++ e3 ++ e4 ∧
    (e1 = [] ∨ e1 = ["CUDA not available despite GPU partition"] ∨
     ∃ msg, e1 = ["PyTorch error: " +:+ msg]) ∧
    (e2 = [] ∨ ∃ msg, e2 = ["Cellpose import error: " +:+ msg]) ∧
    (e3 = [] ∨ e3 = ["Model loaded on CPU despite CUDA being available!"] ∨
     ∃ msg, e3 = ["Model loading error: " +:+ msg]) ∧
    (e4 = [] ∨ ∃ msg, e4 = ["Inference error: " +:+ msg]) ∧
    NoDup (T.errors r) ∧ (length (T.errors r) ≤ 4)%nat.
Proof.
  exact (NC.errors_one_per_check broken (test_args "n2" "out/n2_result.json")
           "n2" "out/n2_result.json" blank eq_refl eq_refl).
Defined.

(** X12 on the healthy node and a storage on which no file can be
    opened. *)
Lemma console_verdict_matches_status_witness :
  ∃ h r printed before saved,
    NS.run healthy "n1" "out/n1_result.json" h r printed ∧
    stdout (@T.main ref_lib read_only healthy
              (test_args "n1" "out/n1_result.json") blank).2 =
      stdout blank ++ before ++
        [nl +:+ repeat_str "=" 60; NO.verdict (T.errors r); repeat_str "=" 60] ++
        saved ∧
    (@NO.accepted read_only "out/n1_result.json" (json_dump (T.to_json r)) →
     saved = [nl +:+ "Results saved to: " +:+ "out/n1_result.json"]) ∧
    (¬ @NO.accepted read_only "out/n1_result.json" (json_dump (T.to_json r)) →
     saved = []) ∧
    (NO.verdict (T.errors r) = "ALL TESTS PASSED ✓" ↔ T.status r = "SUCCESS") ∧
    (NO.verdict (T.errors r) =
       "TESTS FAILED: " +:+ pretty (length (T.errors r)) +:+ " error(s)" ↔
     T.status r = "FAILED") ∧
    (exit_code (@T.main ref_lib read_only healthy
                  (test_args "n1" "out/n1_result.json") blank).1 = 0 ↔
     NO.verdict (T.errors r) = "ALL TESTS PASSED ✓" ∧
     @NO.accepted read_only "out/n1_result.json" (json_dump (T.to_json r))) ∧
    (∀ entry, entry ∈ before →
              entry ≠ "ALL TESTS PASSED ✓" ∧ ∀ k, entry ≠ "TESTS FAILED: " +:+ k).
Proof.
  exact (@NC.console_verdict_matches_status ref_lib read_only healthy
           (test_args "n1" "out/n1_result.json") "n1" "out/n1_result.json" blank
           eq_refl eq_refl).
Defined.

(** X11 on a model whose evaluation runs out of memory. *)
Lemma inference_failure_is_recorded_witness :
  ∃ r before,
    fs (T.main greedy (test_args "n3" "out/n3_result.json") blank).2
      !! "out/n3_result.json" = Some (json_dump (T.to_json r)) ∧
    exit_code (T.main greedy (test_args "n3" "out/n3_result.json") blank).1 = 1 ∧
    T.status r = "FAILED" ∧
    T.errors r = before ++ [] ++ ["Inference error: " +:+ "CUDA out of memory"] ∧
    assoc "model_loading" (T.tests r) =
      Some (VDict [("success", VBool true); ("device", VStr "cuda:0");
                   ("gpu_flag", VBool true)]) ∧
    assoc "inference" (T.tests r) =
      Some (VDict [("error", VStr "CUDA out of memory");
                   ("traceback",
                    VStr (format_exc (LibraryError "OutOfMemoryError" "CUDA out of memory")))]).
Proof.
  apply (NC.inference_failure_is_recorded greedy (test_args "n3" "out/n3_result.json")
           "n3" "out/n3_result.json" blank blank greedy_model
           (VDict [("success", VBool true); ("device", VStr "cuda:0");
                   ("gpu_flag", VBool true)])
           [] "OutOfMemoryError" "CUDA out of memory" eq_refl eq_refl eq_refl).
  right. split; reflexivity.
Defined.

(** X14 on the healthy node, where only [SLURM_JOB_ID] is set. *)
Lemma environment_defaults_to_na_witness :
  ∃ r env,
    fs (T.main healthy (test_args "n1" "out/n1_result.json") blank).2
      !! "out/n1_result.json" = Some (json_dump (T.to_json r)) ∧
    assoc "environment" (T.tests r) = Some (VDict env) ∧
    env.*1 = ["python_executable"; "python_version"; "slurm_job_id";
              "slurm_nodelist"; "cuda_visible_devices"] ∧
    ∀ key var,
      (key, var) ∈ [("slurm_job_id", "SLURM_JOB_ID");
                    ("slurm_nodelist", "SLURM_NODELIST");
                    ("cuda_visible_devices", "CUDA_VISIBLE_DEVICES")] →
      assoc key env =
        Some (VStr match T.environ healthy !! var with
                   | Some value => value
                   | None => "N/A"
                   end).
Proof.
  exact (NC.environment_defaults_to_na healthy (test_args "n1" "out/n1_result.json")
           "n1" "out/n1_result.json" blank eq_refl eq_refl).
Defined.

(** *** The aggregator *)

(** X15 on a directory that holds no result file. *)
Lemma empty_input_gives_empty_report_witness :
  S.main laptop summarize_empty tested =
    (Ret tt,
     World (<["summary.txt" := SS.report_head laptop 0 0 0 +:+ SS.breakdown []]>
              (fs tested))
           (stdout tested ++ [nl +:+ "Summary written to: " +:+ "summary.txt";
                              SS.report_head laptop 0 0 0 +:+ SS.breakdown []])).
Proof.
  apply (RC.empty_input_gives_empty_report laptop summarize_empty "scratch"
           "summary.txt" tested eq_refl eq_refl eq_refl).
  constructor; [reflexivity|]. constructor; [reflexivity|]. constructor.
Defined.

Lemma drafts_holds path r :
  fs drafts !! path = Some (json_dump r) → json_load (json_dump r) = Ret r →
  SS.holds (fs drafts) path r.
Proof. intros Hf Hl. by exists (json_dump r). Qed.

(** X16 on a list of files whose second one does not exist. *)
Lemma missing_input_file_aborts_witness :
  S.main cluster (summarize_files ["out/n3_result.json"; "out/n9_result.json"]) drafts
    = (Raise (FileNotFoundError "out/n9_result.json"), drafts) ∧
  exit_code
    (S.main cluster (summarize_files ["out/n3_result.json"; "out/n9_result.json"])
            drafts).1 = 1.
Proof.
  apply (RC.missing_input_file_aborts cluster
           (summarize_files ["out/n3_result.json"; "out/n9_result.json"])
           (summarize_files_args ["out/n3_result.json"; "out/n9_result.json"])
           drafts ["out/n3_result.json"] "out/n9_result.json" [] eq_refl eq_refl).
  - constructor; [|constructor]. exists odd_record.
    apply drafts_holds; vm_compute; reflexivity.
  - vm_compute. reflexivity.
Defined.


(** X20 on the two records the script wrote. *)
Lemma console_echo_is_the_file_as_read_witness :
  ∃ o text,
    S.opt_output summarize_dir = Some o ∧
    fs (S.main cluster summarize_dir tested).2 !! o = Some text ∧
    stdout (S.main cluster summarize_dir tested).2 =
      stdout tested ++ [nl +:+ "Summary written to: " +:+ o; universal_newlines text].
Proof.
  apply (RC.console_echo_is_the_file_as_read cluster summarize_dir tested).
  vm_compute. reflexivity.
Defined.

(** X19 on a record without a status, read after a good one. *)
Lemma record_without_status_leaves_head_only_witness :
  S.main cluster (summarize_files ["out/n3_result.json"; "out/n6_result.json"]) drafts =
    (Raise (KeyError "status"),
     World (<["summary.txt" := RD.report_top cluster (length ([odd_record] ++ [statusless]))]>
              (fs drafts))
           (stdout drafts)).
Proof.
  apply (RC.record_without_status_leaves_head_only cluster
           (summarize_files ["out/n3_result.json"; "out/n6_result.json"])
           (summarize_files_args ["out/n3_result.json"; "out/n6_result.json"])
           drafts [odd_record] statusless [] (KeyError "status") eq_refl).
  - constructor; [|constructor; [|constructor]];
      apply drafts_holds; vm_compute; reflexivity.
  - constructor; [reflexivity|constructor].
  - reflexivity.
Defined.

(** X21 on a failure that lists the same error twice. *)
Lemma breakdown_counts_occurrences_witness :
  ∃ before,
    fs (S.main cluster (summarize_files ["out/n7_result.json"]) drafts).2
      !! "summary.txt" =
      Some (before +:+
            SS.breakdown
              (map (λ error, (error, RD.occurrences error (RD.failed_records [twice])))
                   (RD.first_seen
                      (flat_map error_strings (RD.failed_records [twice]))))).
Proof.
  apply (RC.breakdown_counts_occurrences cluster
           (summarize_files ["out/n7_result.json"])
           (summarize_files_args ["out/n7_result.json"]) drafts [twice] eq_refl).
  - constructor; [vm_compute; reflexivity|constructor].
  - constructor; [|constructor]. apply drafts_holds; vm_compute; reflexivity.
Defined.

(** X23 on the directory of the cluster, for one of its result files. *)
Lemma only_result_files_are_read_witness :
  "out/n1_result.json" ∈ S.result_files cluster summarize_dir_args ↔
  ∃ stem, (stem +:+ "_result.json") ∈ S.listdir cluster (S.input_dir summarize_dir_args) ∧
          "out/n1_result.json" =
            S.input_dir summarize_dir_args +:+ "/" +:+ stem +:+ "_result.json".
Proof.
  exact (RC.only_result_files_are_read cluster summarize_dir summarize_dir_args
           eq_refl eq_refl "out/n1_result.json").
Defined.

(** The two records of the cluster are the ones the per-node script
    wrote. *)
Lemma record1_written : SS.written_by_script record1.
Proof.
  destruct (NodeProperties.main_run healthy (test_args "n1" "out/n1_result.json")
              "n1" "out/n1_result.json" blank eq_refl eq_refl)
    as (h & r & printed & _ & Hrun).
  exists healthy, "n1", "out/n1_result.json", h, r, printed. split; [done|].
  destruct Hrun as [R1 R2 R3 R4 _ _ _ _ RN RH RT RE RS _].
  destruct h as [hp hc hl hi d1 d2 d3 l4].
  cbn [NS.pytorch NS.cellpose NS.loading NS.inference NS.details1 NS.details2
       NS.details3 NS.lines4] in *.
  specialize (R1 blank). specialize (R2 blank). specialize (R3 blank).
  vm_compute in R1. vm_compute in R2. vm_compute in R3.
  injection R1 as <- _. injection R2 as <- _. injection R3 as <- _.
  cbn in R4. destruct R4 as (d4 & R4 & _).
  specialize (R4 blank). vm_compute in R4. injection R4 as <- _.
  cbn in RT, RE. rewrite RE in RS.
  destruct r as [rn rh rs rt re]. cbn in *. subst.
  vm_compute. reflexivity.
Qed.

Lemma record2_written : SS.written_by_script record2.
Proof.
  destruct (NodeProperties.main_run broken (test_args "n2" "out/n2_result.json")
              "n2" "out/n2_result.json" blank eq_refl eq_refl)
    as (h & r & printed & _ & Hrun).
  exists broken, "n2", "out/n2_result.json", h, r, printed. split; [done|].
  destruct Hrun as [R1 R2 R3 R4 _ _ _ _ RN RH RT RE RS _].
  destruct h as [hp hc hl hi d1 d2 d3 l4].
  cbn [NS.pytorch NS.cellpose NS.loading NS.inference NS.details1 NS.details2
       NS.details3 NS.lines4] in *.
  specialize (R1 blank). specialize (R2 blank). specialize (R3 blank).
  vm_compute in R1. vm_compute in R2. vm_compute in R3.
  injection R1 as <- _. injection R2 as <- _. injection R3 as <- _.
  cbn in R4. destruct R4 as [-> _].
  cbn in RT, RE. rewrite RE in RS.
  destruct r as [rn rh rs rt re]. cbn in *. subst.
  vm_compute. reflexivity.
Qed.

(** X22 on the two records the script wrote. *)
Lemma script_records_fill_both_counts_witness :
  ∃ ok failed sections,
    fs (S.main cluster summarize_dir tested).2 !! "summary.txt" =
      Some (SS.report_head cluster 2 ok failed +:+ sections) ∧
    ok = SS.count_status "SUCCESS" [record1; record2] ∧
    failed = SS.count_status "FAILED" [record1; record2] ∧
    (ok + failed = 2)%nat.
Proof.
  apply (RC.script_records_fill_both_counts cluster summarize_dir summarize_dir_args
           tested [record1; record2] eq_refl).
  - constructor; [apply record1_written|].
    constructor; [apply record2_written|constructor].
  - apply Instances.tested_stores.
Defined.

End CaseInstances.
